(** * stocks-hero-bot: price cache, Yahoo client, balance service, scheduler

    A shallow embedding of the Go packages [finance], [portfolio],
    [scheduler], [db] (query interface only), of [loadConfig] from
    [cmd/bot] and of the parts of [bot] that call into the quote pipeline,
    followed by the properties of the quote pipeline.

    Conventions.
    - Go strings are byte strings: [string].  Errors are represented by
      their [Error()] text, built exactly as [fmt.Errorf] builds it, because
      [isAuthError] inspects that text.
    - [time.Time] and [time.Duration] are integers counting nanoseconds;
      the difference of two instants saturates at the bounds of int64 as
      [Time.Sub] does.
    - [float64] is the IEEE-754 binary64 model [spec_float] of the
      Standard Library (precision 53, emax 1024).
    - Go maps are [gmap]s; the iteration order of a [range] over a map is
      irrelevant wherever the code ranges over one (the bodies only insert
      under distinct keys).
    - The mutable state the code touches (cache, session, clock, the
      upstream service, log and notification output) is threaded
      explicitly as a [World]. *)

From Stdlib Require Import ZArith Ascii DecimalString Floats.SpecFloat.
From stdpp Require Import base option list strings gmap.

Set Warnings "-clear-no-such-hyp".

Set Default Proof Using "Type".

(** ** Results of fallible calls: a value or the text of a Go [error]. *)

Inductive Outcome (A : Type) : Type :=
| Ok (a : A)
| Err (e : string).
Arguments Ok {A} a.
Arguments Err {A} e.

(** ** The parts of the Go standard library the code relies on *)

Module strings.

(** [strings.Contains(s, substr)]. *)
Fixpoint Contains (s substr : string) : bool :=
  if String.prefix substr s then true
  else match s with
       | EmptyString => false
       | String _ s' => Contains s' substr
       end.

(** [strings.Join(parts, sep)]. *)
Fixpoint Join (parts : list string) (sep : string) : string :=
  match parts with
  | [] => ""
  | [p] => p
  | p :: rest => p +:+ sep +:+ Join rest sep
  end.

(** White space is what [unicode.IsSpace] accepts, read in the UTF-8
    encoding of Go strings.  In one byte: tab, line feed, vertical tab,
    form feed, carriage return and space. *)
Definition isSpace (c : ascii) : bool :=
  let n := nat_of_ascii c in
  ((9 <=? n) && (n <=? 13)) || (n =? 32).

(** In two bytes: U+0085 (bytes C2 85) and U+00A0 (bytes C2 A0). *)
Definition isSpace2 (c1 c2 : ascii) : bool :=
  let n1 := nat_of_ascii c1 in
  let n2 := nat_of_ascii c2 in
  (n1 =? 194) && ((n2 =? 133) || (n2 =? 160)).

(** In three bytes: U+1680 (E1 9A 80), U+2000 to U+200A (E2 80 80 to
    E2 80 8A), U+2028 and U+2029 (E2 80 A8, E2 80 A9), U+202F (E2 80 AF),
    U+205F (E2 81 9F) and U+3000 (E3 80 80).  No white space takes four
    bytes. *)
Definition isSpace3 (c1 c2 c3 : ascii) : bool :=
  let n1 := nat_of_ascii c1 in
  let n2 := nat_of_ascii c2 in
  let n3 := nat_of_ascii c3 in
  ((n1 =? 225) && (n2 =? 154) && (n3 =? 128))
  || ((n1 =? 226) && (n2 =? 128)
      && (((128 <=? n3) && (n3 <=? 138))
          || (n3 =? 168) || (n3 =? 169) || (n3 =? 175)))
  || ((n1 =? 226) && (n2 =? 129) && (n3 =? 159))
  || ((n1 =? 227) && (n2 =? 128) && (n3 =? 128)).

(** [strings.TrimLeftFunc(s, unicode.IsSpace)]: the runes are decoded from
    the front and dropped while they are white space.  A white-space rune
    has exactly one encoding, listed above; any other byte sequence decodes
    to another rune or, when it is not valid UTF-8, to U+FFFD, and stops
    the trimming. *)
Fixpoint TrimLeft (s : string) : string :=
  match s with
  | EmptyString => EmptyString
  | String c1 s1 =>
      if isSpace c1 then TrimLeft s1
      else
        match s1 with
        | EmptyString => s
        | String c2 s2 =>
            if isSpace2 c1 c2 then TrimLeft s2
            else
              match s2 with
              | EmptyString => s
              | String c3 s3 =>
                  if isSpace3 c1 c2 c3 then TrimLeft s3 else s
              end
        end
  end.

(** The bytes of [s] from the last to the first. *)
Definition reverse (s : string) : string :=
  String.string_of_list_ascii (rev (String.list_ascii_of_string s)).

(** The same on a string given last byte first: the runes are decoded from
    the end, as [utf8.DecodeLastRuneInString] does, which yields a
    white-space rune exactly when the string ends with its encoding. *)
Fixpoint trimReversed (r : string) : string :=
  match r with
  | EmptyString => EmptyString
  | String c1 r1 =>
      if isSpace c1 then trimReversed r1
      else
        match r1 with
        | EmptyString => r
        | String c2 r2 =>
            if isSpace2 c2 c1 then trimReversed r2
            else
              match r2 with
              | EmptyString => r
              | String c3 r3 =>
                  if isSpace3 c3 c2 c1 then trimReversed r3 else r
              end
        end
  end.

(** [strings.TrimRightFunc(s, unicode.IsSpace)]. *)
Definition TrimRight (s : string) : string :=
  reverse (trimReversed (reverse s)).

(** [strings.TrimSpace(s)]: [s] without its leading and trailing Unicode
    white space. *)
Definition TrimSpace (s : string) : string := TrimRight (TrimLeft s).

(** [strings.HasPrefix(s, prefix)]. *)
Definition HasPrefix (s prefix : string) : bool := String.prefix prefix s.

(** [strings.TrimPrefix(s, prefix)]: [s] without the leading [prefix], or
    [s] itself when it does not start with it. *)
Definition TrimPrefix (s prefix : string) : string :=
  if HasPrefix s prefix
  then String.substring (String.length prefix)
         (String.length s - String.length prefix) s
  else s.

End strings.

Module strconv.

(** The decimal text of an integer, as the verbs [%d] and [%v] print it. *)
Definition Itoa (z : Z) : string := NilZero.string_of_int (Z.to_int z).

End strconv.

Module time.

Local Open Scope Z_scope.

Definition Time := Z.
Definition Duration := Z.

Definition Second : Duration := 1000000000.
Definition Minute : Duration := 60 * Second.
Definition Hour : Duration := 60 * Minute.

Definition minDuration : Duration := - 2 ^ 63.
Definition maxDuration : Duration := 2 ^ 63 - 1.

(** [t.Sub(u)]: the difference, saturated to the range of [Duration]. *)
Definition Sub (t u : Time) : Duration :=
  if t - u <? minDuration then minDuration
  else if maxDuration <? t - u then maxDuration
  else t - u.

(** [time.Since(t)] evaluated when the clock reads [now]. *)
Definition Since (now t : Time) : Duration := Sub now t.

(** [t.Before(u)]. *)
Definition Before (t u : Time) : bool := t <? u.

(** [t.Add(d)]. *)
Definition Add (t : Time) (d : Duration) : Time := t + d.

End time.

(** [float64] and the three operations the code applies to it. *)
Definition float64 : Type := spec_float.
Definition float64_zero : float64 := S754_zero false.
(** [x == 0] on float64: true for both zeros, false for NaN. *)
Definition float64_is_zero (x : float64) : bool := SFeqb x float64_zero.
Definition float64_mul (x y : float64) : float64 := SFmul 53 1024 x y.
Definition float64_add (x y : float64) : float64 := SFadd 53 1024 x y.

(** The double-quote character, for the verb [%q]. *)
Definition dquote : string := String "034"%char EmptyString.

(** * Package finance *)

Module finance.

Local Open Scope Z_scope.

(** ** cache.go *)

Record Quote := {
  Symbol : string;
  Price : float64;
  Currency : string;
}.

Record cachedQuote := {
  quote : Quote;
  fetchedAt : time.Time;
}.

Record PriceCache := {
  items : gmap string cachedQuote;
  ttl : time.Duration;
}.

Definition NewPriceCache (ttl : time.Duration) : PriceCache :=
  {| items := ∅; ttl := ttl |}.

(** [Get]: [None] stands for the pair [(Quote{}, false)]. *)
Definition Get (pc : PriceCache) (now : time.Time) (symbol : string)
  : option Quote :=
  match items pc !! symbol with
  | None => None
  | Some item =>
      if ttl pc <? time.Since now (fetchedAt item) then None
      else Some (quote item)
  end.

Definition Set_ (pc : PriceCache) (now : time.Time) (symbol : string)
    (q : Quote) : PriceCache :=
  {| items := <[symbol := {| quote := q; fetchedAt := now |}]> (items pc);
     ttl := ttl pc |}.

(** Whether a lookup of [symbol] at [now] fails: no entry, or one older
    than the time to live. *)
Definition stale (pc : PriceCache) (now : time.Time) (symbol : string)
  : bool :=
  match Get pc now symbol with Some _ => false | None => true end.

(** The loop of [GetMulti]; [found] and [missing] are its two results
    under construction.  The read lock is held for the whole loop, and
    the clock is taken to read [now] at each of its lookups. *)
Fixpoint GetMulti_loop (pc : PriceCache) (now : time.Time)
    (symbols : list string) (found : gmap string Quote)
    (missing : list string) : gmap string Quote * list string :=
  match symbols with
  | [] => (found, missing)
  | sym :: rest =>
      match items pc !! sym with
      | Some item =>
          if time.Since now (fetchedAt item) <=? ttl pc
          then GetMulti_loop pc now rest (<[sym := quote item]> found) missing
          else GetMulti_loop pc now rest found (missing ++ [sym])
      | None => GetMulti_loop pc now rest found (missing ++ [sym])
      end
  end.

Definition GetMulti (pc : PriceCache) (now : time.Time)
    (symbols : list string) : gmap string Quote * list string :=
  GetMulti_loop pc now symbols ∅ [].

(** [SetMulti]: every quote of the argument is stored under its key with
    the one timestamp read before the loop. *)
Definition SetMulti (pc : PriceCache) (now : time.Time)
    (quotes : gmap string Quote) : PriceCache :=
  {| items :=
       ((λ q, {| quote := q; fetchedAt := now |}) <$> quotes) ∪ items pc;
     ttl := ttl pc |}.

(** ** yahoo.go *)

Definition sessionTTL : time.Duration := 30 * time.Minute.

Record yahooSession := {
  cookie : string;
  crumb : string;
  expiresAt : time.Time;
}.

(** The three upstream requests the client sends for quotes.  Only the
    parts that vary are kept: the [Cookie] header, and for the chart
    endpoint the symbol of the path and the [crumb] query parameter
    (before URL escaping). *)
Inductive Request :=
| GetConsent
| GetCrumb (Cookie : string)
| GetChart (symbol crumb Cookie : string).

(** One cookie of [resp.Cookies()]. *)
Record Cookie := {
  Name : string;
  Value : string;
}.

(** What [client.Do] hands back: a transport error, or a response with its
    status code, the cookies it sets and what [io.ReadAll] makes of its
    body. *)
Inductive Response :=
| TransportError (e : string)
| HTTPResponse (StatusCode : Z) (Cookies : list Cookie) (Body : Outcome string).

(** Observable steps, in program order. [Invalidate] marks a call of
    [invalidateSession]; [Log] is a line of [log.Printf]; [SendMarkdown] is
    a call of the scheduler's notifier. *)
Inductive Event :=
| Upstream (req : Request)
| Invalidate
| Log (line : string)
| SendMarkdown (chatID : Z) (text : string).

(** The state the client works on.  [upstream] is what the remote service
    will answer to the requests still to come, each answer with the time
    it takes to arrive; when it is exhausted the transport fails. *)
Record World := {
  cache : PriceCache;
  session : option yahooSession;
  clock : time.Time;
  upstream : list (N * Response);
  trace : list Event;
}.

Definition with_cache (pc : PriceCache) (w : World) : World :=
  {| cache := pc; session := session w; clock := clock w;
     upstream := upstream w; trace := trace w |}.

Definition with_session (s : option yahooSession) (w : World) : World :=
  {| cache := cache w; session := s; clock := clock w;
     upstream := upstream w; trace := trace w |}.

Definition emit (e : Event) (w : World) : World :=
  {| cache := cache w; session := session w; clock := clock w;
     upstream := upstream w; trace := trace w ++ [e] |}.

(** [client.Do(req)]: the request goes out, the next answer of the service
    comes back after its latency. *)
Definition Do (req : Request) (w : World) : Response * World :=
  match upstream w with
  | [] => (TransportError "EOF", emit (Upstream req) w)
  | (latency, resp) :: rest =>
      (resp,
       {| cache := cache w; session := session w;
          clock := clock w + Z.of_N latency;
          upstream := rest; trace := trace w ++ [Upstream req] |})
  end.

(** The struct [parseChartResponse] decodes into. A field absent from the
    JSON text keeps its zero value, so an absent price reads as [0]; the
    [error] member is a pointer, [None] when absent or null. *)
Record chartMeta := {
  meta_Symbol : string;
  meta_Currency : string;
  RegularMarketPrice : float64;
  ChartPreviousClose : float64;
}.

Record chartPayload := {
  Result : list chartMeta;
  Error : option string;
}.

Definition extractCookies (cookies : list Cookie) : string :=
  strings.Join (map (λ c, Name c +:+ "=" +:+ Value c) cookies) "; ".

Definition isAuthError (err : option string) : bool :=
  match err with
  | None => false
  | Some s =>
      strings.Contains s "auth error"
      || strings.Contains s "HTTP 401"
      || strings.Contains s "HTTP 403"
  end.

Definition invalidateSession (w : World) : World :=
  emit Invalidate (with_session None w).

(** [fetchNewSession]. Building the two requests cannot fail (constant
    URLs), so those error returns are left out. *)
Definition fetchNewSession (w : World) : Outcome yahooSession * World :=
  let '(consentResp, w1) := Do GetConsent w in
  match consentResp with
  | TransportError e => (Err ("consent request: " +:+ e), w1)
  | HTTPResponse _ cookies _ =>
      let cookie := extractCookies cookies in
      if String.eqb cookie "" then
        (Err "no cookie returned from Yahoo consent endpoint", w1)
      else
        let '(crumbResp, w2) := Do (GetCrumb cookie) w1 in
        match crumbResp with
        | TransportError e => (Err ("crumb request: " +:+ e), w2)
        | HTTPResponse _ _ (Err e) => (Err ("read crumb response: " +:+ e), w2)
        | HTTPResponse _ _ (Ok crumbBytes) =>
            let crumb := strings.TrimSpace crumbBytes in
            if String.eqb crumb "" || String.eqb crumb "null" then
              (Err ("Yahoo returned invalid crumb: "
                    +:+ dquote +:+ crumb +:+ dquote), w2)
            else
              (Ok {| cookie := cookie; crumb := crumb;
                     expiresAt := time.Add (clock w2) sessionTTL |}, w2)
        end
  end.

Definition getSession (w : World) : Outcome yahooSession * World :=
  let refresh :=
    let '(r, w1) := fetchNewSession w in
    match r with
    | Err e => (Err e, w1)
    | Ok sess => (Ok sess, with_session (Some sess) w1)
    end in
  match session w with
  | Some s => if time.Before (clock w) (expiresAt s) then (Ok s, w) else refresh
  | None => refresh
  end.

Section Client.

(** [json.Unmarshal] into the payload struct of [parseChartResponse]. *)
Variable Unmarshal : string → Outcome chartPayload.

Definition parseChartResponse (body symbol : string) : Outcome Quote :=
  match Unmarshal body with
  | Err e => Err ("parse chart response: " +:+ e)
  | Ok payload =>
      match Error payload with
      | Some description => Err ("yahoo error: " +:+ description)
      | None =>
          match Result payload with
          | [] => Err ("no chart result for " +:+ symbol)
          | meta :: _ =>
              let price := RegularMarketPrice meta in
              let price :=
                if float64_is_zero price then ChartPreviousClose meta
                else price in
              if float64_is_zero price then
                Err ("no price data for " +:+ symbol)
              else
                Ok {| Symbol := meta_Symbol meta; Price := price;
                      Currency := meta_Currency meta |}
          end
      end
  end.

Definition fetchOne (symbol : string) (sess : yahooSession) (w : World)
  : Outcome Quote * World :=
  let '(resp, w1) := Do (GetChart symbol (crumb sess) (cookie sess)) w in
  (match resp with
   | TransportError e => Err ("chart request: " +:+ e)
   | HTTPResponse status _ body =>
       if (status =? 401) || (status =? 403) then
         Err ("auth error: HTTP " +:+ strconv.Itoa status)
       else if negb (status =? 200) then
         Err ("HTTP " +:+ strconv.Itoa status +:+ " for " +:+ symbol)
       else
         match body with
         | Err e => Err ("read chart response: " +:+ e)
         | Ok b => parseChartResponse b symbol
         end
   end, w1).

(** The loop of [fetchBatch]: [sess] is the session variable, replaced
    after a refresh and kept for the symbols that follow; [quotes] is the
    map under construction.  The result pairs the map with the error. *)
Fixpoint fetchBatch_loop (symbols : list string) (sess : yahooSession)
    (quotes : gmap string Quote) (w : World)
  : (gmap string Quote * option string) * World :=
  match symbols with
  | [] => ((quotes, None), w)
  | sym :: rest =>
      let '(r, w1) := fetchOne sym sess w in
      match r with
      | Ok q => fetchBatch_loop rest sess (<[sym := q]> quotes) w1
      | Err e =>
          if isAuthError (Some e) then
            let w2 := invalidateSession w1 in
            let '(rs, w3) := getSession w2 in
            match rs with
            | Err e' => ((quotes, Some ("refresh yahoo session: " +:+ e')), w3)
            | Ok sess' =>
                let '(r', w4) := fetchOne sym sess' w3 in
                match r' with
                | Err e'' =>
                    ((quotes, Some ("fetch " +:+ sym +:+ ": " +:+ e'')), w4)
                | Ok q => fetchBatch_loop rest sess' (<[sym := q]> quotes) w4
                end
            end
          else ((quotes, Some ("fetch " +:+ sym +:+ ": " +:+ e)), w1)
      end
  end.

(** [fetchBatch]; a nil map is the empty map. *)
Definition fetchBatch (symbols : list string) (w : World)
  : (gmap string Quote * option string) * World :=
  let '(r, w1) := getSession w in
  match r with
  | Err e => ((∅, Some ("get yahoo session: " +:+ e)), w1)
  | Ok sess => fetchBatch_loop symbols sess ∅ w1
  end.

Definition GetQuotes (symbols : list string) (w : World)
  : (gmap string Quote * option string) * World :=
  if (length symbols =? 0)%nat then ((∅, None), w)
  else
    let '(found, missing) := GetMulti (cache w) (clock w) symbols in
    if (length missing =? 0)%nat then ((found, None), w)
    else
      let '((fetched, err), w1) := fetchBatch missing w in
      match err with
      | Some e => ((found, Some e), w1)
      | None =>
          let w2 := with_cache (SetMulti (cache w1) (clock w1) fetched) w1 in
          ((fetched ∪ found, None), w2)
      end.

End Client.

(** ** yahoo.go: search *)

Record TickerResult := {
  ticker_Symbol : string;
  ticker_Name : string;
  ticker_Exchange : string;
  ticker_Type : string;
}.

(** One element of the [quotes] array of a search answer, and the payload
    struct [SearchTickers] decodes into; absent members are empty. *)
Record searchQuote := {
  search_Symbol : string;
  Shortname : string;
  Longname : string;
  search_Exchange : string;
  QuoteType : string;
}.

Record searchPayload := {
  Quotes : list searchQuote;
}.

Section Search.

(** [json.Unmarshal] into the payload struct of [SearchTickers]. *)
Variable UnmarshalSearch : string → Outcome searchPayload.

(** The loop of [SearchTickers] over the decoded quotes; [results] is the
    slice under construction. *)
Fixpoint SearchTickers_loop (quotes : list searchQuote)
    (results : list TickerResult) : list TickerResult :=
  match quotes with
  | [] => results
  | q :: rest =>
      if negb (String.eqb (QuoteType q) "EQUITY")
         && negb (String.eqb (QuoteType q) "ETF")
      then SearchTickers_loop rest results
      else
        let name :=
          if String.eqb (Shortname q) "" then Longname q else Shortname q in
        SearchTickers_loop rest
          (results ++ [{| ticker_Symbol := search_Symbol q;
                          ticker_Name := name;
                          ticker_Exchange := search_Exchange q;
                          ticker_Type := QuoteType q |}])
  end.

(** [SearchTickers], from the answer [client.Do] gives to the search
    request on (the query only enters the request; the search touches
    neither the session nor the cache, and does not look at the status
    code). A nil slice is the empty list. *)
Definition SearchTickers (resp : Response) : Outcome (list TickerResult) :=
  match resp with
  | TransportError e => Err ("search request: " +:+ e)
  | HTTPResponse _ _ (Err e) => Err ("read search response: " +:+ e)
  | HTTPResponse _ _ (Ok body) =>
      match UnmarshalSearch body with
      | Err e => Err ("parse search response: " +:+ e)
      | Ok payload => Ok (SearchTickers_loop (Quotes payload) [])
      end
  end.

End Search.

End finance.

(** * Package db: the queries the scheduler and the balance service issue *)

Module db.

Record Holding := {
  ID : Z;
  ChatID : Z;
  Symbol : string;
  Name : string;
  Shares : float64;
}.

(** The repository as its callers see it: the answer of the database to
    each of the three read queries, a list of rows or an error. *)
Record Repository := {
  GetHoldings : Z → Outcome (list Holding);
  GetAllActiveUsers : Outcome (list Z);
  GetDistinctSymbols : Outcome (list string);
}.

End db.

(** * Package portfolio *)

Module portfolio.

Import finance.

Record HoldingLine := {
  Symbol : string;
  Name : string;
  Shares : float64;
  Price : float64;
  Value : float64;
}.

Record BalanceReport := {
  Holdings : list HoldingLine;
  TotalUSD : float64;
}.

Section Service.

Variable Unmarshal : string → Outcome chartPayload.
Variable repo : db.Repository.

(** The second loop of [ComputeBalance]: one line per holding that has a
    quote, a log line for each holding that has none. *)
Fixpoint ComputeBalance_loop (chatID : Z) (holdings : list db.Holding)
    (quotes : gmap string Quote) (report : BalanceReport) (w : World)
  : BalanceReport * World :=
  match holdings with
  | [] => (report, w)
  | h :: rest =>
      match quotes !! db.Symbol h with
      | None =>
          ComputeBalance_loop chatID rest quotes report
            (emit (Log ("ComputeBalance: no quote returned for symbol "
                        +:+ db.Symbol h +:+ " (chatID "
                        +:+ strconv.Itoa chatID +:+ ")")) w)
      | Some q =>
          let value := float64_mul (db.Shares h) (finance.Price q) in
          ComputeBalance_loop chatID rest quotes
            {| Holdings :=
                 Holdings report ++
                 [{| Symbol := db.Symbol h; Name := db.Name h;
                     Shares := db.Shares h; Price := finance.Price q;
                     Value := value |}];
               TotalUSD := float64_add (TotalUSD report) value |}
            w
      end
  end.

(** [ComputeBalance]: [Ok None] is the pair [(nil, nil)]. *)
Definition ComputeBalance (chatID : Z) (w : World)
  : Outcome (option BalanceReport) * World :=
  match db.GetHoldings repo chatID with
  | Err e => (Err ("get holdings: " +:+ e), w)
  | Ok holdings =>
      if (length holdings =? 0)%nat then (Ok None, w)
      else
        let symbols := map db.Symbol holdings in
        let '((quotes, err), w1) := GetQuotes Unmarshal symbols w in
        match err with
        | Some e => (Err ("get quotes: " +:+ e), w1)
        | None =>
            let '(report, w2) :=
              ComputeBalance_loop chatID holdings quotes
                {| Holdings := []; TotalUSD := float64_zero |} w1 in
            if (length (Holdings report) =? 0)%nat then
              (Err ("quotes returned no data for symbols ["
                    +:+ strings.Join symbols " " +:+ "]"), w2)
            else (Ok (Some report), w2)
        end
  end.

End Service.

End portfolio.

(** * Package scheduler *)

Module scheduler.

Import finance.

Section Scheduler.

Variable Unmarshal : string → Outcome chartPayload.
Variable repo : db.Repository.
(** The method [Format] of a report: its text. *)
Variable Format : portfolio.BalanceReport → string.

(** The loop of [notifyAll] over the active users. *)
Fixpoint notifyAll_loop (users : list Z) (w : World) : World :=
  match users with
  | [] => w
  | chatID :: rest =>
      let '(r, w1) := portfolio.ComputeBalance Unmarshal repo chatID w in
      match r with
      | Err e =>
          notifyAll_loop rest
            (emit (Log ("scheduler: compute balance "
                        +:+ strconv.Itoa chatID +:+ ": " +:+ e)) w1)
      | Ok None => notifyAll_loop rest w1
      | Ok (Some report) =>
          if (length (portfolio.Holdings report) =? 0)%nat then
            notifyAll_loop rest w1
          else
            notifyAll_loop rest (emit (SendMarkdown chatID (Format report)) w1)
      end
  end.

(** What [notifyAll] does once the distinct symbols are known and not
    empty: the pre-warming call, then the users. *)
Definition notifyAll_from (symbols : list string) (w : World) : World :=
  let '((_, err), w1) := GetQuotes Unmarshal symbols w in
  let w2 :=
    match err with
    | Some e => emit (Log ("scheduler: pre-warm quotes: " +:+ e)) w1
    | None => w1
    end in
  match db.GetAllActiveUsers repo with
  | Err e => emit (Log ("scheduler: get active users: " +:+ e)) w2
  | Ok users => notifyAll_loop users w2
  end.

Definition notifyAll (w : World) : World :=
  match db.GetDistinctSymbols repo with
  | Err e => emit (Log ("scheduler: get distinct symbols: " +:+ e)) w
  | Ok symbols =>
      if (length symbols =? 0)%nat then w
      else notifyAll_from symbols w
  end.

End Scheduler.

End scheduler.

(** * Package bot: the parts that call into the quote pipeline *)

Module bot.

Import finance.

(** A message handed to the Telegram API by [sendText] or
    [sendMarkdown]. *)
Inductive Message :=
| sendText (chatID : Z) (text : string)
| sendMarkdown (chatID : Z) (text : string).

Section Handler.

Variable Unmarshal : string → Outcome chartPayload.
Variable repo : db.Repository.
Variable Format : portfolio.BalanceReport → string.

(** [handlePortfolio]: the message it sends, and the world after it. *)
Definition handlePortfolio (chatID : Z) (w : World) : Message * World :=
  let '(r, w1) := portfolio.ComputeBalance Unmarshal repo chatID w in
  match r with
  | Err e =>
      (sendText chatID "Failed to fetch prices. Please try again later.",
       emit (Log ("compute balance " +:+ strconv.Itoa chatID
                  +:+ ": " +:+ e)) w1)
  | Ok None =>
      (sendText chatID
         "Your portfolio is empty. Send me a ticker symbol to get started!",
       w1)
  | Ok (Some report) =>
      if (length (portfolio.Holdings report) =? 0)%nat then
        (sendText chatID
           "Your portfolio is empty. Send me a ticker symbol to get started!",
         w1)
      else (sendMarkdown chatID (Format report), w1)
  end.

End Handler.

(** The callback data [handleTickerSearch] attaches to the button of a
    search result, and [handleRemoveMenu] to the button of a holding. *)
Definition selectData (r : TickerResult) : string :=
  "select:" +:+ ticker_Symbol r.

Definition removeData (h : db.Holding) : string :=
  "remove:" +:+ db.Symbol h.

(** The switch of [HandleCallback]: the handler it calls, with the symbol
    it passes, or nothing. *)
Inductive Dispatch :=
| handleTickerSelect (symbol : string)
| handleRemove (symbol : string)
| noHandler.

Definition HandleCallback (data : string) : Dispatch :=
  if strings.HasPrefix data "select:" then
    handleTickerSelect (strings.TrimPrefix data "select:")
  else if strings.HasPrefix data "remove:" then
    handleRemove (strings.TrimPrefix data "remove:")
  else noHandler.

End bot.

(** * Package main: configuration *)

Module main.

Local Open Scope Z_scope.

Record config := {
  TelegramToken : string;
  DBPath : string;
  CacheTTL : time.Duration;
  NotifyInterval : time.Duration;
}.

Section Config.

(** [time.ParseDuration]; [None] when it reports an error. *)
Variable ParseDuration : string → option time.Duration.

(** The process environment, after [godotenv.Load]. *)
Definition getEnv (env : gmap string string) (key fallback : string)
  : string :=
  match env !! key with
  | Some v => if String.eqb v "" then fallback else v
  | None => fallback
  end.

(** [mustEnv]; [None] when [log.Fatalf] ends the process. *)
Definition mustEnv (env : gmap string string) (key : string)
  : option string :=
  match env !! key with
  | Some v => if String.eqb v "" then None else Some v
  | None => None
  end.

Definition loadConfig (env : gmap string string) : option config :=
  let cacheTTL :=
    match ParseDuration (getEnv env "CACHE_TTL" "15m") with
    | Some d => d
    | None => 15 * time.Minute
    end in
  let notifyInterval :=
    match ParseDuration (getEnv env "NOTIFY_INTERVAL" "1h") with
    | Some d => d
    | None => time.Hour
    end in
  match mustEnv env "TELEGRAM_BOT_TOKEN" with
  | None => None
  | Some token =>
      Some {| TelegramToken := token;
              DBPath := getEnv env "DB_PATH" "./portfolio.db";
              CacheTTL := cacheTTL;
              NotifyInterval := notifyInterval |}
  end.

End Config.

End main.

(** * Goroutines calling [GetQuotes] on one client

    [GetQuotes] touches the shared cache twice: in [GetMulti], under the
    read lock, and in [SetMulti], under the write lock; [fetchBatch] runs
    between the two with no cache lock held.  A caller is therefore at one
    of three points, and a schedule says which caller moves next.  Each
    move runs one of the three parts without interruption, which is one of
    the interleavings the Go scheduler may choose. *)

Module goroutines.

Import finance.

Section Callers.

Variable Unmarshal : string → Outcome chartPayload.

Inductive Caller :=
| AtGetMulti (symbols : list string)
| AtFetchBatch (found : gmap string Quote) (missing : list string)
| AtSetMulti (found fetched : gmap string Quote)
| Returned (quotes : gmap string Quote) (err : option string).

Definition step (c : Caller) (w : World) : Caller * World :=
  match c with
  | AtGetMulti symbols =>
      if (length symbols =? 0)%nat then (Returned ∅ None, w)
      else
        let '(found, missing) := GetMulti (cache w) (clock w) symbols in
        if (length missing =? 0)%nat then (Returned found None, w)
        else (AtFetchBatch found missing, w)
  | AtFetchBatch found missing =>
      let '((fetched, err), w1) := fetchBatch Unmarshal missing w in
      match err with
      | Some e => (Returned found (Some e), w1)
      | None => (AtSetMulti found fetched, w1)
      end
  | AtSetMulti found fetched =>
      (Returned (fetched ∪ found) None,
       with_cache (SetMulti (cache w) (clock w) fetched) w)
  | Returned _ _ => (c, w)
  end.

(** Run the callers under a schedule: each entry names the caller that
    makes its next move. *)
Fixpoint run (schedule : list nat) (callers : list Caller) (w : World)
  : list Caller * World :=
  match schedule with
  | [] => (callers, w)
  | i :: rest =>
      match callers !! i with
      | None => run rest callers w
      | Some c =>
          let '(c', w') := step c w in
          run rest (<[i := c']> callers) w'
      end
  end.

End Callers.

End goroutines.

(** * Vocabulary of the properties *)

Module observe.

Import finance.

Local Open Scope Z_scope.

(** The events a computation from [w] to [w'] added to the trace. *)
Definition new_events (w w' : World) : list Event :=
  drop (length (trace w)) (trace w').

Definition is_chart_request (X : string) (e : Event) : bool :=
  match e with
  | Upstream (GetChart symbol _ _) => String.eqb symbol X
  | _ => false
  end.

Definition is_upstream (e : Event) : bool :=
  match e with Upstream _ => true | _ => false end.

Definition is_send (e : Event) : bool :=
  match e with SendMarkdown _ _ => true | _ => false end.

Definition is_send_to (chatID : Z) (e : Event) : bool :=
  match e with SendMarkdown c _ => c =? chatID | _ => false end.

(** Events of the Yahoo client itself: requests and invalidations. *)
Definition is_client_event (e : Event) : bool :=
  match e with Upstream _ | Invalidate => true | _ => false end.

(** Events of a session exchange: the consent and crumb requests. *)
Definition is_session_request (e : Event) : bool :=
  match e with
  | Upstream GetConsent | Upstream (GetCrumb _) => true
  | _ => false
  end.

(** How many quote requests for [X] a list of events holds. *)
Definition chart_requests (X : string) (evs : list Event) : nat :=
  length (List.filter (is_chart_request X) evs).

(** A computation from [w] to [w'] that emitted [evs], left the cache
    alone and did not turn the clock back. *)
Definition steps (w w' : World) (evs : list Event) : Prop :=
  trace w' = trace w ++ evs ∧ cache w' = cache w ∧ clock w ≤ clock w'.

(** The session [getSession] would hand out without asking upstream:
    the cached one, if there is one and it has not expired. *)
Definition live_session (w : World) : option yahooSession :=
  match session w with
  | Some s => if time.Before (clock w) (expiresAt s) then Some s else None
  | None => None
  end.

(** The world once the next answer of the service has arrived, the
    request [req] being logged. *)
Definition answered (req : Request) (latency : N)
    (rest : list (N * Response)) (w : World) : World :=
  {| cache := cache w; session := session w;
     clock := clock w + Z.of_N latency;
     upstream := rest; trace := trace w ++ [Upstream req] |}.

(** The world [w] when the clock reads [t]: a later call finds the state
    an earlier one left, at the time it is made. *)
Definition at_time (t : time.Time) (w : World) : World :=
  {| cache := cache w; session := session w; clock := t;
     upstream := upstream w; trace := trace w |}.

(** A value in the range of [time.Duration], an int64. *)
Definition isDuration (d : Z) : Prop :=
  time.minDuration ≤ d ≤ time.maxDuration.

(** How many events of a list satisfy a test. *)
Definition count_events (p : Event → bool) (evs : list Event) : nat :=
  length (List.filter p evs).

Definition is_any_chart_request (e : Event) : bool :=
  match e with Upstream (GetChart _ _ _) => true | _ => false end.

Definition is_invalidate (e : Event) : bool :=
  match e with Invalidate => true | _ => false end.

Definition is_log (e : Event) : bool :=
  match e with Log _ => true | _ => false end.

(** Every quote of a map, and every quote of a cache, has a price that is
    not zero. *)
Definition prices_nonzero (quotes : gmap string Quote) : Prop :=
  ∀ X q, quotes !! X = Some q → float64_is_zero (Price q) = false.

Definition cache_prices_nonzero (pc : PriceCache) : Prop :=
  ∀ X item, items pc !! X = Some item →
            float64_is_zero (Price (quote item)) = false.

(** The line of a balance report for a holding and its quote. *)
Definition line_of (h : db.Holding) (q : Quote) : portfolio.HoldingLine :=
  {| portfolio.Symbol := db.Symbol h; portfolio.Name := db.Name h;
     portfolio.Shares := db.Shares h; portfolio.Price := Price q;
     portfolio.Value := float64_mul (db.Shares h) (Price q) |}.

(** The search quotes [SearchTickers] keeps, and the result it makes of
    one. *)
Definition keepsTicker (q : searchQuote) : bool :=
  String.eqb (QuoteType q) "EQUITY" || String.eqb (QuoteType q) "ETF".

Definition tickerOf (q : searchQuote) : TickerResult :=
  {| ticker_Symbol := search_Symbol q;
     ticker_Name :=
       if String.eqb (Shortname q) "" then Longname q else Shortname q;
     ticker_Exchange := search_Exchange q;
     ticker_Type := QuoteType q |}.

End observe.

(** * Sample data for the examples *)

Module samples.

Import finance.

Local Open Scope Z_scope.

(** The float64 value 1. *)
Definition one : float64 := S754_finite false 4503599627370496 (-52).

Definition meta (symbol : string) (regular previous : float64) : chartMeta :=
  {| meta_Symbol := symbol; meta_Currency := "USD";
     RegularMarketPrice := regular; ChartPreviousClose := previous |}.

(** A decoder for the bodies of the examples, which abbreviate the JSON
    text: [P] and a symbol is a chart result for that symbol with regular
    price 1; [C] and a symbol, one with regular price 0 and previous close
    1; [Z] and a symbol, one with both prices 0; [E] and a text, an error
    object with that description; [{}] is an object without results;
    anything else is not JSON. *)
Definition Unmarshal (body : string) : Outcome chartPayload :=
  match body with
  | String "P" symbol =>
      Ok {| Result := [meta symbol one float64_zero]; Error := None |}
  | String "C" symbol =>
      Ok {| Result := [meta symbol float64_zero one]; Error := None |}
  | String "Z" symbol =>
      Ok {| Result := [meta symbol float64_zero float64_zero];
            Error := None |}
  | String "E" description => Ok {| Result := []; Error := Some description |}
  | "{}" => Ok {| Result := []; Error := None |}
  | _ => Err "unexpected end of JSON input"
  end.

Definition quoteOf (symbol : string) : Quote :=
  {| Symbol := symbol; Price := one; Currency := "USD" |}.

(** Answers of the service, each arriving after one millisecond. *)
Definition ms : N := 1000000.

Definition consent : N * Response :=
  (ms, HTTPResponse 200 [{| Name := "A3"; Value := "d=AQAB" |}] (Ok "")).
Definition consent2 : N * Response :=
  (ms, HTTPResponse 200 [{| Name := "A3"; Value := "d=NEXT" |}] (Ok "")).
Definition noCookie : N * Response := (ms, HTTPResponse 200 [] (Ok "")).
Definition crumbOK : N * Response :=
  (ms, HTTPResponse 200 [] (Ok " mXyZ ")).
Definition crumbOK2 : N * Response :=
  (ms, HTTPResponse 200 [] (Ok "qRsT")).
Definition crumbNull : N * Response :=
  (ms, HTTPResponse 200 [] (Ok "null ")).
(** A crumb answer made of white space outside ASCII only: a no-break
    space (U+00A0, bytes C2 A0) and an em space (U+2003, bytes E2 80 83). *)
Definition crumbBlank : N * Response :=
  (ms, HTTPResponse 200 []
         (Ok (String "194" (String "160"
                (String "226" (String "128" (String "131" ""))))))).
Definition chartOK (symbol : string) : N * Response :=
  (ms, HTTPResponse 200 [] (Ok (String "P" symbol))).
Definition serverError : N * Response := (ms, HTTPResponse 500 [] (Ok "")).
Definition unauthorized : N * Response := (ms, HTTPResponse 401 [] (Ok "")).
Definition forbidden : N * Response := (ms, HTTPResponse 403 [] (Ok "")).

Definition sess1 : yahooSession :=
  {| cookie := "A3=d=AQAB"; crumb := "mXyZ";
     expiresAt := 30 * time.Minute |}.

(** A client just started: empty cache with a time to live of fifteen
    minutes, no session, clock at 0. *)
Definition cold (script : list (N * Response)) : World :=
  {| cache := NewPriceCache (15 * time.Minute); session := None;
     clock := 0; upstream := script; trace := [] |}.

(** A client whose cache holds AAPL, fetched at time 0, and whose session
    is [sess1], with the clock reading [now]. *)
Definition warm (now : time.Time) (script : list (N * Response)) : World :=
  {| cache := Set_ (NewPriceCache (15 * time.Minute)) 0 "AAPL"
                (quoteOf "AAPL");
     session := Some sess1; clock := now; upstream := script; trace := [] |}.

Definition aaplItem : cachedQuote :=
  {| quote := quoteOf "AAPL"; fetchedAt := 0 |}.

Definition holding (id chatID : Z) (symbol : string) : db.Holding :=
  {| db.ID := id; db.ChatID := chatID; db.Symbol := symbol;
     db.Name := symbol; db.Shares := one |}.

(** Consumer 1 holds AAPL, consumer 2 holds AAPL and TSLA, any other
    consumer holds nothing. *)
Definition repo : db.Repository :=
  {| db.GetHoldings := λ chatID,
       if chatID =? 1 then Ok [holding 1 1 "AAPL"]
       else if chatID =? 2 then Ok [holding 2 2 "AAPL"; holding 3 2 "TSLA"]
       else Ok [];
     db.GetAllActiveUsers := Ok [1; 2];
     db.GetDistinctSymbols := Ok ["AAPL"; "TSLA"] |}.

(** A report text for the examples: the symbols of its lines. *)
Definition Format (report : portfolio.BalanceReport) : string :=
  strings.Join (map portfolio.Symbol (portfolio.Holdings report)) ",".

(** The report of consumer 2 when both its quotes are at price 1. *)
Definition report2 : portfolio.BalanceReport :=
  {| portfolio.Holdings :=
       [{| portfolio.Symbol := "AAPL"; portfolio.Name := "AAPL";
           portfolio.Shares := one; portfolio.Price := one;
           portfolio.Value := float64_mul one one |};
        {| portfolio.Symbol := "TSLA"; portfolio.Name := "TSLA";
           portfolio.Shares := one; portfolio.Price := one;
           portfolio.Value := float64_mul one one |}];
     portfolio.TotalUSD :=
       float64_add (float64_add float64_zero (float64_mul one one))
         (float64_mul one one) |}.

(** [time.ParseDuration] on the two default texts of [loadConfig]. *)
Definition ParseDuration (text : string) : option time.Duration :=
  if String.eqb text "15m" then Some (15 * time.Minute)
  else if String.eqb text "1h" then Some time.Hour
  else None.

(** A cache with a negative time to live that holds AAPL, stamped 0. *)
Definition negativeCache : PriceCache :=
  {| items := {["AAPL" := aaplItem]}; ttl := -1 |}.

(** The session a cold client gets from [consent] and [crumbOK]. *)
Definition sess0 : yahooSession :=
  {| cookie := "A3=d=AQAB"; crumb := "mXyZ";
     expiresAt := 2 * Z.of_N ms + 30 * time.Minute |}.

(** A search answer with a share, a cryptocurrency and a fund without
    short name; [UnmarshalSearch] decodes the body [S] to it and takes
    anything else for broken JSON. *)
Definition searchQuotes : list searchQuote :=
  [{| search_Symbol := "AAPL"; Shortname := "Apple Inc.";
      Longname := "Apple Incorporated"; search_Exchange := "NMS";
      QuoteType := "EQUITY" |};
   {| search_Symbol := "BTC-USD"; Shortname := "Bitcoin USD";
      Longname := ""; search_Exchange := "CCC";
      QuoteType := "CRYPTOCURRENCY" |};
   {| search_Symbol := "SPY"; Shortname := "";
      Longname := "SPDR S&P 500 ETF Trust"; search_Exchange := "PCX";
      QuoteType := "ETF" |}].

Definition UnmarshalSearch (body : string) : Outcome searchPayload :=
  if String.eqb body "S" then Ok {| Quotes := searchQuotes |}
  else Err "unexpected end of JSON input".

End samples.

(** * Properties *)

Import finance observe.

Local Open Scope Z_scope.

(** ** Standard-library models *)

Lemma Contains_of_prefix (s substr : string) :
  String.prefix substr s = true → strings.Contains s substr = true.
Proof. intros H. destruct s; cbn [strings.Contains]; rewrite H; reflexivity. Qed.

Lemma Sub_le (t u : time.Time) (d : time.Duration) :
  time.minDuration ≤ d → t - u ≤ d → time.Sub t u ≤ d.
Proof.
  intros Hmin Hle. unfold time.Sub.
  destruct (Z.ltb_spec (t - u) time.minDuration); [lia |].
  destruct (Z.ltb_spec time.maxDuration (t - u)); lia.
Qed.

(** ** The price cache *)

Section CacheFacts.

Variable pc : PriceCache.
Variable now : time.Time.

(** What [Get] answers, in terms of the stored entry. *)
Lemma Get_Some (sym : string) (q : Quote) :
  Get pc now sym = Some q ↔
  ∃ item, items pc !! sym = Some item ∧ quote item = q
          ∧ time.Since now (fetchedAt item) ≤ ttl pc.
Proof.
  unfold Get. split.
  - destruct (items pc !! sym) as [item|]; [|discriminate].
    destruct (Z.ltb_spec (ttl pc) (time.Since now (fetchedAt item)));
      [discriminate|].
    intros [= <-]. eauto.
  - intros (item & -> & <- & Hle).
    destruct (Z.ltb_spec (ttl pc) (time.Since now (fetchedAt item)));
      [lia | reflexivity].
Qed.

(** One pass of the loop of [GetMulti], read through [Get]. *)
Lemma GetMulti_loop_unfold (sym : string) (rest : list string)
    (found : gmap string Quote) (missing : list string) :
  GetMulti_loop pc now (sym :: rest) found missing =
  match Get pc now sym with
  | Some q => GetMulti_loop pc now rest (<[sym := q]> found) missing
  | None => GetMulti_loop pc now rest found (missing ++ [sym])
  end.
Proof.
  cbn [GetMulti_loop]. unfold Get.
  destruct (items pc !! sym) as [item|]; [|reflexivity].
  rewrite Z.leb_antisym.
  destruct (ttl pc <? time.Since now (fetchedAt item)); reflexivity.
Qed.

Lemma GetMulti_loop_missing (symbols : list string)
    (found : gmap string Quote) (missing : list string) :
  (GetMulti_loop pc now symbols found missing).2 =
  missing ++ List.filter (stale pc now) symbols.
Proof.
  revert found missing.
  induction symbols as [|sym rest IH]; intros found missing.
  - simpl. by rewrite app_nil_r.
  - rewrite GetMulti_loop_unfold. cbn [List.filter]. unfold stale at 1.
    destruct (Get pc now sym) as [q|]; rewrite IH; [done|].
    by rewrite <- app_assoc.
Qed.

Lemma GetMulti_loop_found (symbols : list string)
    (found : gmap string Quote) (missing : list string) (k : string) :
  (GetMulti_loop pc now symbols found missing).1 !! k =
  if decide (k ∈ symbols) then
    match Get pc now k with Some q => Some q | None => found !! k end
  else found !! k.
Proof.
  revert found missing.
  induction symbols as [|sym rest IH]; intros found missing.
  - simpl. destruct (decide (k ∈ [])) as [Hin|]; [|done].
    by apply elem_of_nil in Hin.
  - rewrite GetMulti_loop_unfold.
    destruct (Get pc now sym) as [q|] eqn:Hsym; rewrite IH.
    + destruct (decide (k = sym)) as [->|Hne].
      * rewrite Hsym, lookup_insert_eq.
        repeat case_decide; try done; exfalso; set_solver.
      * rewrite lookup_insert_ne by done.
        repeat case_decide; try done; exfalso; set_solver.
    + destruct (decide (k = sym)) as [->|Hne].
      * rewrite Hsym. repeat case_decide; try done; exfalso; set_solver.
      * repeat case_decide; try done; exfalso; set_solver.
Qed.

Lemma GetMulti_missing (symbols : list string) :
  (GetMulti pc now symbols).2 = List.filter (stale pc now) symbols.
Proof. unfold GetMulti. by rewrite GetMulti_loop_missing. Qed.

Lemma GetMulti_found (symbols : list string) (k : string) :
  (GetMulti pc now symbols).1 !! k =
  if decide (k ∈ symbols) then Get pc now k else None.
Proof.
  unfold GetMulti. rewrite GetMulti_loop_found, lookup_empty.
  case_decide; [|done]. by destruct (Get pc now k).
Qed.

Lemma elem_of_missing (symbols : list string) (sym : string) :
  sym ∈ (GetMulti pc now symbols).2 ↔ sym ∈ symbols ∧ Get pc now sym = None.
Proof.
  rewrite GetMulti_missing, !list_elem_of_In, filter_In. unfold stale.
  destruct (Get pc now sym); naive_solver.
Qed.

(** C10. [GetMulti] splits the request in two: a requested symbol with a
    fresh cached entry is a key of [found], bound to the cached quote, and
    is not in [missing]; every other requested symbol is in [missing] and
    is not a key of [found]; and neither result holds a symbol that was
    not requested. *)
Theorem GetMulti_partition (symbols : list string) :
  let found := (GetMulti pc now symbols).1 in
  let missing := (GetMulti pc now symbols).2 in
  (∀ sym, sym ∈ symbols →
     match Get pc now sym with
     | Some q => found !! sym = Some q ∧ sym ∉ missing
     | None => found !! sym = None ∧ sym ∈ missing
     end)
  ∧ (∀ sym, is_Some (found !! sym) → sym ∈ symbols)
  ∧ (∀ sym, sym ∈ missing → sym ∈ symbols).
Proof.
  cbn zeta. split; [|split].
  - intros sym Hin. rewrite GetMulti_found, decide_True by done.
    destruct (Get pc now sym) as [q|] eqn:Hget.
    + split; [done|]. rewrite elem_of_missing. naive_solver.
    + split; [done|]. by apply elem_of_missing.
  - intros sym [q Hq]. rewrite GetMulti_found in Hq.
    case_decide; [done | discriminate].
  - intros sym Hin. by apply elem_of_missing in Hin as [? _].
Qed.

End CacheFacts.

(** ** Extracting the price from a chart response *)

Section ChartFacts.

Variable Unmarshal : string → Outcome chartPayload.

Lemma parseChartResponse_decoded (body symbol : string)
    (payload : chartPayload) (meta : chartMeta) (rest : list chartMeta) :
  Unmarshal body = Ok payload →
  Error payload = None →
  Result payload = meta :: rest →
  parseChartResponse Unmarshal body symbol =
  if negb (float64_is_zero (RegularMarketPrice meta)) then
    Ok {| Symbol := meta_Symbol meta; Price := RegularMarketPrice meta;
          Currency := meta_Currency meta |}
  else if negb (float64_is_zero (ChartPreviousClose meta)) then
    Ok {| Symbol := meta_Symbol meta; Price := ChartPreviousClose meta;
          Currency := meta_Currency meta |}
  else Err ("no price data for " +:+ symbol).
Proof.
  intros HU HE HR. unfold parseChartResponse. rewrite HU, HE, HR.
  destruct (float64_is_zero (RegularMarketPrice meta)) eqn:Hreg; cbn [negb].
  - destruct (float64_is_zero (ChartPreviousClose meta)); reflexivity.
  - rewrite Hreg. reflexivity.
Qed.

Lemma parseChartResponse_nonzero (body symbol : string) (q : Quote) :
  parseChartResponse Unmarshal body symbol = Ok q →
  float64_is_zero (Price q) = false.
Proof.
  unfold parseChartResponse.
  destruct (Unmarshal body) as [payload|]; [|discriminate].
  destruct (Error payload); [discriminate|].
  destruct (Result payload) as [|meta rest]; [discriminate|].
  destruct (float64_is_zero (RegularMarketPrice meta)) eqn:Hreg.
  - destruct (float64_is_zero (ChartPreviousClose meta)) eqn:Hprev;
      [discriminate|].
    intros [= <-]. exact Hprev.
  - rewrite Hreg. intros [= <-]. exact Hreg.
Qed.

(** C6. Whatever the chart response, a quote that [parseChartResponse]
    returns has a price that is not zero; and when the response decodes to
    a payload with no error object and at least one result, the price is
    the regular-market price if that is not zero, else the previous close
    if that is not zero, else the call fails with "no price data for"
    the symbol. *)
Theorem parseChartResponse_price (body symbol : string) :
  (∀ q, parseChartResponse Unmarshal body symbol = Ok q →
        float64_is_zero (Price q) = false)
  ∧ (∀ payload meta rest,
       Unmarshal body = Ok payload →
       Error payload = None →
       Result payload = meta :: rest →
       parseChartResponse Unmarshal body symbol =
       if negb (float64_is_zero (RegularMarketPrice meta)) then
         Ok {| Symbol := meta_Symbol meta; Price := RegularMarketPrice meta;
               Currency := meta_Currency meta |}
       else if negb (float64_is_zero (ChartPreviousClose meta)) then
         Ok {| Symbol := meta_Symbol meta; Price := ChartPreviousClose meta;
               Currency := meta_Currency meta |}
       else Err ("no price data for " +:+ symbol)).
Proof.
  split.
  - apply parseChartResponse_nonzero.
  - apply parseChartResponse_decoded.
Qed.

End ChartFacts.

(** ** Session acquisition *)

Lemma Do_answered (req : Request) (w : World) (latency : N)
    (resp : Response) (rest : list (N * Response)) :
  upstream w = (latency, resp) :: rest →
  Do req w = (resp, answered req latency rest w).
Proof. intros H. unfold Do. rewrite H. reflexivity. Qed.

Lemma Do_session (req : Request) (w : World) :
  session (Do req w).2 = session w.
Proof. unfold Do. destruct (upstream w) as [|[l r] rest]; reflexivity. Qed.

Lemma extractCookies_nil (cookies : list Cookie) :
  extractCookies cookies = "" ↔ cookies = [].
Proof.
  split; [|intros ->; reflexivity].
  destruct cookies as [|c rest]; [reflexivity|].
  unfold extractCookies. cbn [map strings.Join].
  destruct (map _ rest); destruct (Name c); discriminate.
Qed.

Lemma fetchNewSession_session (w : World) :
  session (fetchNewSession w).2 = session w.
Proof.
  unfold fetchNewSession.
  destruct (Do GetConsent w) as [resp w1] eqn:H1.
  assert (session w1 = session w) as Hs1
    by (change w1 with (resp, w1).2; rewrite <- H1; apply Do_session).
  destruct resp as [e|st cookies body]; [exact Hs1|].
  destruct (String.eqb (extractCookies cookies) ""); [exact Hs1|].
  destruct (Do (GetCrumb (extractCookies cookies)) w1) as [resp2 w2] eqn:H2.
  assert (session w2 = session w) as Hs2.
  { change w2 with (resp2, w2).2. rewrite <- H2, Do_session. exact Hs1. }
  destruct resp2 as [e|st2 c2 [crumbBytes|e]]; try exact Hs2.
  destruct (_ || _); exact Hs2.
Qed.

Lemma getSession_live (w : World) (s : yahooSession) :
  live_session w = Some s → getSession w = (Ok s, w).
Proof.
  unfold live_session, getSession.
  destruct (session w) as [s0|]; [|discriminate].
  destruct (time.Before (clock w) (expiresAt s0)); [|discriminate].
  by intros [= ->].
Qed.

Lemma getSession_refresh (w : World) :
  live_session w = None →
  getSession w =
  match fetchNewSession w with
  | (Err e, w1) => (Err e, w1)
  | (Ok sess, w1) => (Ok sess, with_session (Some sess) w1)
  end.
Proof.
  unfold live_session, getSession.
  destruct (session w) as [s0|]; [|reflexivity].
  destruct (time.Before (clock w) (expiresAt s0)); [discriminate|reflexivity].
Qed.

Lemma getSession_Err_session (w : World) (e : string) :
  (getSession w).1 = Err e → session (getSession w).2 = session w.
Proof.
  destruct (live_session w) as [s|] eqn:Hlive.
  - rewrite (getSession_live _ _ Hlive). discriminate.
  - rewrite (getSession_refresh _ Hlive).
    pose proof (fetchNewSession_session w) as Hs.
    destruct (fetchNewSession w) as [[sess|e'] w1]; [discriminate|].
    intros _. exact Hs.
Qed.

(** C8. [getSession] hands out a cached session that has not expired as
    it is, leaving the world untouched, so without any request.  With no
    such session, an answer of the consent endpoint without cookies, and
    an answer of the crumb endpoint whose trimmed body is empty or the
    word null, each make [getSession] return an error and leave the cached
    session as it was. *)
Theorem getSession_acquire (w : World) :
  (∀ s, live_session w = Some s → getSession w = (Ok s, w))
  ∧ (live_session w = None →
     (∀ latency status body rest,
        upstream w = (latency, HTTPResponse status [] body) :: rest →
        (getSession w).1 =
          Err "no cookie returned from Yahoo consent endpoint"
        ∧ session (getSession w).2 = session w)
     ∧ (∀ l1 st1 cookies b1 l2 st2 c2 crumbBytes rest,
          upstream w = (l1, HTTPResponse st1 cookies b1)
                       :: (l2, HTTPResponse st2 c2 (Ok crumbBytes)) :: rest →
          cookies ≠ [] →
          strings.TrimSpace crumbBytes = ""
          ∨ strings.TrimSpace crumbBytes = "null" →
          (getSession w).1 =
            Err ("Yahoo returned invalid crumb: " +:+ dquote
                 +:+ strings.TrimSpace crumbBytes +:+ dquote)
          ∧ session (getSession w).2 = session w)).
Proof.
  split; [apply getSession_live|].
  intros Hlive. split.
  - intros latency status body rest Hup.
    assert ((getSession w).1 =
            Err "no cookie returned from Yahoo consent endpoint") as Herr.
    { rewrite (getSession_refresh _ Hlive). unfold fetchNewSession.
      rewrite (Do_answered _ _ _ _ _ Hup). reflexivity. }
    split; [exact Herr|]. exact (getSession_Err_session _ _ Herr).
  - intros l1 st1 cookies b1 l2 st2 c2 crumbBytes rest Hup Hcookies Hcrumb.
    assert ((getSession w).1 =
            Err ("Yahoo returned invalid crumb: " +:+ dquote
                 +:+ strings.TrimSpace crumbBytes +:+ dquote)) as Herr.
    { rewrite (getSession_refresh _ Hlive). unfold fetchNewSession.
      rewrite (Do_answered _ _ _ _ _ Hup).
      destruct (String.eqb_spec (extractCookies cookies) "") as [He|_].
      { by apply extractCookies_nil in He. }
      rewrite (Do_answered _ (answered _ _ _ _) l2
                 (HTTPResponse st2 c2 (Ok crumbBytes)) rest eq_refl).
      destruct Hcrumb as [-> | ->]; reflexivity. }
    split; [exact Herr|]. exact (getSession_Err_session _ _ Herr).
Qed.

(** ** Traces of the client operations *)

Lemma chart_requests_app (X : string) (a b : list Event) :
  chart_requests X (a ++ b) = (chart_requests X a + chart_requests X b)%nat.
Proof. unfold chart_requests. by rewrite List.filter_app, length_app. Qed.

Lemma chart_requests_session (X : string) (evs : list Event) :
  Forall (λ e, is_session_request e = true) evs → chart_requests X evs = 0%nat.
Proof.
  unfold chart_requests. induction 1 as [|e evs He _ IH]; [reflexivity|].
  cbn [List.filter]. destruct e as [[| |]| | |]; try discriminate; exact IH.
Qed.

Lemma session_request_client (evs : list Event) :
  Forall (λ e, is_session_request e = true) evs →
  Forall (λ e, is_client_event e = true) evs.
Proof.
  intros H. eapply Forall_impl; [exact H|].
  intros [[| |]| | |]; simpl; congruence.
Qed.

Lemma steps_refl (w : World) : steps w w [].
Proof. unfold steps. rewrite app_nil_r. repeat split; lia. Qed.

Lemma steps_trans (w w1 w2 : World) (e1 e2 : list Event) :
  steps w w1 e1 → steps w1 w2 e2 → steps w w2 (e1 ++ e2).
Proof.
  unfold steps. intros (Ht1 & Hc1 & Hk1) (Ht2 & Hc2 & Hk2).
  rewrite Ht2, Ht1, Hc2, Hc1, app_assoc. repeat split; lia.
Qed.

Lemma steps_new_events (w w' : World) (evs : list Event) :
  steps w w' evs → new_events w w' = evs.
Proof.
  intros (Ht & _ & _). unfold new_events. rewrite Ht.
  by rewrite drop_app_length.
Qed.

Lemma Do_steps (req : Request) (w : World) :
  steps w (Do req w).2 [Upstream req].
Proof.
  unfold Do, steps.
  destruct (upstream w) as [|[l r] rest]; simpl; repeat split; lia.
Qed.

Lemma emit_steps (e : Event) (w : World) : steps w (emit e w) [e].
Proof. unfold steps. simpl. repeat split; lia. Qed.

Lemma with_session_steps (s : option yahooSession) (w : World) :
  steps w (with_session s w) [].
Proof. unfold steps. simpl. rewrite app_nil_r. repeat split; lia. Qed.

Lemma invalidateSession_steps (w : World) :
  steps w (invalidateSession w) [Invalidate].
Proof.
  unfold invalidateSession.
  exact (steps_trans _ _ _ [] _ (with_session_steps None w) (emit_steps _ _)).
Qed.

Lemma fetchNewSession_steps (w : World) :
  ∃ evs, steps w (fetchNewSession w).2 evs
         ∧ Forall (λ e, is_session_request e = true) evs.
Proof.
  unfold fetchNewSession.
  pose proof (Do_steps GetConsent w) as S1.
  destruct (Do GetConsent w) as [resp w1]. cbn [snd] in S1.
  assert (∃ evs, steps w w1 evs
                 ∧ Forall (λ e, is_session_request e = true) evs) as Stop1.
  { eexists. split; [exact S1|]. by repeat constructor. }
  destruct resp as [e|st cookies body]; [exact Stop1|].
  destruct (String.eqb (extractCookies cookies) ""); [exact Stop1|].
  pose proof (Do_steps (GetCrumb (extractCookies cookies)) w1) as S2.
  destruct (Do (GetCrumb (extractCookies cookies)) w1) as [resp2 w2].
  cbn [snd] in S2.
  assert (∃ evs, steps w w2 evs
                 ∧ Forall (λ e, is_session_request e = true) evs) as Stop2.
  { eexists. split; [exact (steps_trans _ _ _ _ _ S1 S2)|].
    by repeat constructor. }
  destruct resp2 as [e|st2 c2 [crumbBytes|e]]; try exact Stop2.
  destruct (_ || _); exact Stop2.
Qed.

Lemma getSession_steps (w : World) :
  ∃ evs, steps w (getSession w).2 evs
         ∧ Forall (λ e, is_session_request e = true) evs.
Proof.
  destruct (live_session w) as [s|] eqn:Hlive.
  - rewrite (getSession_live _ _ Hlive). exists []. split; [apply steps_refl|].
    constructor.
  - rewrite (getSession_refresh _ Hlive).
    destruct (fetchNewSession_steps w) as (evs & S & F).
    destruct (fetchNewSession w) as [[sess|e] w1]; cbn [snd] in *.
    + exists evs. split; [|exact F].
      rewrite <- (app_nil_r evs).
      exact (steps_trans _ _ _ _ _ S (with_session_steps _ _)).
    + by exists evs.
Qed.

Section ClientFacts.

Variable Unmarshal : string → Outcome chartPayload.

Lemma fetchOne_world (symbol : string) (sess : yahooSession) (w : World) :
  (fetchOne Unmarshal symbol sess w).2 =
  (Do (GetChart symbol (crumb sess) (cookie sess)) w).2.
Proof. unfold fetchOne. by destruct (Do _ w). Qed.

Lemma fetchOne_steps (symbol : string) (sess : yahooSession) (w : World) :
  steps w (fetchOne Unmarshal symbol sess w).2
    [Upstream (GetChart symbol (crumb sess) (cookie sess))].
Proof. rewrite fetchOne_world. apply Do_steps. Qed.

Lemma chart_requests_one (X symbol c k : string) :
  chart_requests X [Upstream (GetChart symbol c k)] =
  if String.eqb symbol X then 1%nat else 0%nat.
Proof.
  unfold chart_requests. cbn. by destruct (String.eqb symbol X).
Qed.

Lemma chart_requests_invalidate (X : string) :
  chart_requests X [Invalidate] = 0%nat.
Proof. reflexivity. Qed.

Ltac count_requests :=
  rewrite ?chart_requests_app, ?chart_requests_one,
    ?chart_requests_invalidate.

(** What one run of the loop of [fetchBatch] does to the trace and to the
    map of quotes. *)
Lemma fetchBatch_loop_spec (symbols : list string) (sess : yahooSession)
    (quotes : gmap string Quote) (w : World) :
  let res := fetchBatch_loop Unmarshal symbols sess quotes w in
  ∃ evs,
    steps w res.2 evs
    ∧ Forall (λ e, is_client_event e = true) evs
    ∧ (∀ X, X ∉ symbols → chart_requests X evs = 0%nat)
    ∧ (∀ X, chart_requests X evs = 0%nat → res.1.1 !! X = quotes !! X)
    ∧ (res.1.2 = None → ∀ X, X ∈ symbols → is_Some (res.1.1 !! X))
    ∧ (∀ X, is_Some (quotes !! X) → is_Some (res.1.1 !! X)).
Proof.
  revert sess quotes w.
  induction symbols as [|sym rest IH]; intros sess quotes w; cbn zeta.
  { exists []. cbn. repeat split; try done.
    - apply steps_refl.
    - intros _ X HX. by apply elem_of_nil in HX. }
  cbn [fetchBatch_loop].
  pose proof (fetchOne_steps sym sess w) as S1.
  destruct (fetchOne Unmarshal sym sess w) as [r w1]. cbn [snd] in S1.
  assert (∀ X c k (evs : list Event),
            chart_requests X (Upstream (GetChart sym c k) :: evs) = 0%nat →
            X ≠ sym ∧ chart_requests X evs = 0%nat) as Hcount.
  { intros X c k evs.
    change (Upstream (GetChart sym c k) :: evs)
      with ([Upstream (GetChart sym c k)] ++ evs).
    rewrite chart_requests_app, chart_requests_one.
    destruct (String.eqb_spec sym X); [lia|]. intros. split; [congruence|lia]. }
  assert (∀ X c k, X ∉ sym :: rest →
            chart_requests X [Upstream (GetChart sym c k)] = 0%nat) as Hother.
  { intros X c k HX. rewrite chart_requests_one.
    destruct (String.eqb_spec sym X) as [->|]; [|done].
    exfalso. apply HX. left. }
  destruct r as [q|e].
  - (* the first request succeeded *)
    destruct (IH sess (<[sym := q]> quotes) w1)
      as (evs & S & F & Hout & Hkeep & Hall & Hmono).
    eexists. split; [exact (steps_trans _ _ _ _ _ S1 S)|].
    split; [by constructor|]. split; [|split; [|split]].
    + intros X HX. cbn [app]. rewrite <- (Hout X) by set_solver.
      change (?e :: evs) with ([e] ++ evs).
      rewrite chart_requests_app, (Hother X) by done. done.
    + intros X HX. apply Hcount in HX as [Hne HX].
      rewrite (Hkeep X HX). by rewrite lookup_insert_ne.
    + intros Herr X HX. apply elem_of_cons in HX as [->|HX].
      * apply Hmono. rewrite lookup_insert_eq. eauto.
      * by apply Hall.
    + intros X HX. apply Hmono.
      destruct (decide (sym = X)) as [->|Hne];
        [rewrite lookup_insert_eq; eauto | by rewrite lookup_insert_ne].
  - destruct (isAuthError (Some e)).
    + (* authorization failure: invalidate, refresh, retry *)
      pose proof (invalidateSession_steps w1) as S2.
      destruct (getSession_steps (invalidateSession w1)) as (ev3 & S3 & F3).
      destruct (getSession (invalidateSession w1)) as [rs w3].
      cbn [snd] in S3.
      pose proof (steps_trans _ _ _ _ _ (steps_trans _ _ _ _ _ S1 S2) S3)
        as S13.
      assert (Forall (λ e, is_client_event e = true)
                (([Upstream (GetChart sym (crumb sess) (cookie sess))]
                  ++ [Invalidate]) ++ ev3)) as F13.
      { apply Forall_app. split; [by repeat constructor|].
        by apply session_request_client. }
      assert (∀ X, chart_requests X ev3 = 0%nat) as C3
        by (intros X; exact (chart_requests_session X ev3 F3)).
      destruct rs as [sess'|e'].
      * pose proof (fetchOne_steps sym sess' w3) as S4.
        destruct (fetchOne Unmarshal sym sess' w3) as [r' w4].
        cbn [snd] in S4.
        pose proof (steps_trans _ _ _ _ _ S13 S4) as S14.
        destruct r' as [q|e''].
        -- destruct (IH sess' (<[sym := q]> quotes) w4)
             as (evs & S & F & Hout & Hkeep & Hall & Hmono).
           eexists. split; [exact (steps_trans _ _ _ _ _ S14 S)|].
           split.
           { apply Forall_app. split; [|exact F].
             apply Forall_app. split; [exact F13|]. by repeat constructor. }
           split; [|split; [|split]].
           ++ intros X HX. count_requests. rewrite C3, (Hout X) by set_solver.
              destruct (String.eqb_spec sym X) as [->|]; [|done].
              exfalso. apply HX. left.
           ++ intros X HX. revert HX. count_requests. rewrite C3.
              destruct (String.eqb_spec sym X) as [->|Hne]; [lia|].
              intros HX. rewrite (Hkeep X) by lia. by rewrite lookup_insert_ne.
           ++ intros Herr X HX. apply elem_of_cons in HX as [->|HX].
              ** apply Hmono. rewrite lookup_insert_eq. eauto.
              ** by apply Hall.
           ++ intros X HX. apply Hmono.
              destruct (decide (sym = X)) as [->|Hne];
                [rewrite lookup_insert_eq; eauto | by rewrite lookup_insert_ne].
        -- eexists. split; [exact S14|]. cbn [fst snd].
           split.
           { apply Forall_app. split; [exact F13|]. by repeat constructor. }
           split; [|split; [|split]]; try done.
           intros X HX. count_requests. rewrite C3.
           destruct (String.eqb_spec sym X) as [->|]; [|done].
           exfalso. apply HX. left.
      * eexists. split; [exact S13|]. cbn [fst snd].
        split; [exact F13|]. split; [|split; [|split]]; try done.
        intros X HX. count_requests. rewrite C3.
        destruct (String.eqb_spec sym X) as [->|]; [|done].
        exfalso. apply HX. left.
    + eexists. split; [exact S1|]. cbn [fst snd].
      split; [by repeat constructor|]. split; [|split; [|split]]; try done.
      intros X HX. by apply Hother.
Qed.

(** [fetchBatch]: the same, from the empty map, after [getSession]. *)
Lemma fetchBatch_spec (symbols : list string) (w : World) :
  let res := fetchBatch Unmarshal symbols w in
  ∃ evs,
    steps w res.2 evs
    ∧ Forall (λ e, is_client_event e = true) evs
    ∧ (∀ X, X ∉ symbols → chart_requests X evs = 0%nat)
    ∧ (∀ X, chart_requests X evs = 0%nat → res.1.1 !! X = None)
    ∧ (res.1.2 = None → ∀ X, X ∈ symbols → is_Some (res.1.1 !! X)).
Proof.
  cbn zeta. unfold fetchBatch.
  destruct (getSession_steps w) as (ev0 & S0 & F0).
  destruct (getSession w) as [[sess|e] w1]; cbn [snd] in S0.
  - destruct (fetchBatch_loop_spec symbols sess ∅ w1)
      as (evs & S & F & Hout & Hkeep & Hall & _).
    exists (ev0 ++ evs). split; [exact (steps_trans _ _ _ _ _ S0 S)|].
    split; [apply Forall_app; split;
            [by apply session_request_client | exact F]|].
    split; [|split].
    + intros X HX. count_requests.
      by rewrite (chart_requests_session X ev0 F0), (Hout X HX).
    + intros X. count_requests. rewrite (chart_requests_session X ev0 F0).
      intros HX. by rewrite (Hkeep X HX), lookup_empty.
    + exact Hall.
  - exists ev0. cbn [fst snd]. split; [exact S0|].
    split; [by apply session_request_client|].
    split; [|split]; try done.
    intros X _. exact (chart_requests_session X ev0 F0).
Qed.

Lemma SetMulti_lookup (pc : PriceCache) (now : time.Time)
    (quotes : gmap string Quote) (X : string) :
  items (SetMulti pc now quotes) !! X =
  match quotes !! X with
  | Some q => Some {| quote := q; fetchedAt := now |}
  | None => items pc !! X
  end.
Proof.
  cbn [SetMulti items].
  destruct (quotes !! X) as [q|] eqn:HX.
  - apply lookup_union_Some_l. by rewrite lookup_fmap, HX.
  - rewrite lookup_union_r; [done|]. by rewrite lookup_fmap, HX.
Qed.

Lemma SetMulti_empty (pc : PriceCache) (now : time.Time) :
  SetMulti pc now ∅ = pc.
Proof.
  destruct pc as [it tl]. unfold SetMulti. cbn [items ttl].
  by rewrite fmap_empty, (left_id_L ∅ (∪)).
Qed.

(** [GetQuotes], case by case: the events are those of [fetchBatch] on
    the missing symbols; without error the fetched quotes are stored and
    laid over the cache hits; with an error the cache hits alone are
    returned and the cache stays as it was. *)
Lemma GetQuotes_spec (symbols : list string) (w : World) :
  let res := GetQuotes Unmarshal symbols w in
  let found := (GetMulti (cache w) (clock w) symbols).1 in
  let missing := (GetMulti (cache w) (clock w) symbols).2 in
  ∃ fetched evs,
    trace res.2 = trace w ++ evs
    ∧ clock w ≤ clock res.2
    ∧ Forall (λ e, is_client_event e = true) evs
    ∧ (∀ X, X ∉ missing → chart_requests X evs = 0%nat)
    ∧ (∀ X, chart_requests X evs = 0%nat → fetched !! X = None)
    ∧ ((res.1.2 = None
        ∧ res.1.1 = fetched ∪ found
        ∧ cache res.2 = SetMulti (cache w) (clock res.2) fetched
        ∧ ∀ X, X ∈ missing → is_Some (fetched !! X))
       ∨ ((∃ e, res.1.2 = Some e)
          ∧ res.1.1 = found
          ∧ cache res.2 = cache w
          ∧ missing ≠ [])).
Proof.
  cbn zeta. unfold GetQuotes.
  assert (∀ found' : gmap string Quote, ∃ fetched evs,
            trace w = trace w ++ evs ∧ clock w ≤ clock w
            ∧ Forall (λ e, is_client_event e = true) evs
            ∧ (∀ X, X ∉ ([] : list string) → chart_requests X evs = 0%nat)
            ∧ (∀ X, chart_requests X evs = 0%nat → fetched !! X = None)
            ∧ ((@None string = None ∧ found' = fetched ∪ found'
                ∧ cache w = SetMulti (cache w) (clock w) fetched
                ∧ ∀ X, X ∈ ([] : list string) → is_Some (fetched !! X))
               ∨ ((∃ e, @None string = Some e) ∧ found' = found'
                  ∧ cache w = cache w ∧ ([] : list string) ≠ []))) as Htriv.
  { intros found'. exists ∅, []. rewrite app_nil_r, SetMulti_empty.
    rewrite (left_id_L ∅ (∪)). repeat split; try done.
    left. repeat split; try done. intros X HX. by apply elem_of_nil in HX. }
  destruct symbols as [|s0 symbols']; [exact (Htriv ∅)|]. cbn [length Nat.eqb].
  destruct (GetMulti (cache w) (clock w) (s0 :: symbols'))
    as [found missing]. cbn [fst snd].
  destruct missing as [|m0 missing']; [exact (Htriv found)|].
  cbn [length Nat.eqb].
  destruct (fetchBatch_spec (m0 :: missing') w)
    as (evs & (Ht & Hc & Hk) & F & Hout & Hkeep & Hall).
  destruct (fetchBatch Unmarshal (m0 :: missing') w) as [[fetched err] w1].
  cbn [fst snd] in *. exists fetched, evs.
  destruct err as [e|]; cbn [fst snd cache trace clock with_cache].
  - repeat split; try done. right. repeat split; eauto.
  - repeat split; try done. left. rewrite Hc. repeat split; eauto.
Qed.

End ClientFacts.

(** ** Quotes through the cache *)

Section QuoteFacts.

Variable Unmarshal : string → Outcome chartPayload.

Lemma new_events_app (w w' : World) (evs : list Event) :
  trace w' = trace w ++ evs → new_events w w' = evs.
Proof. intros Ht. unfold new_events. by rewrite Ht, drop_app_length. Qed.


(** C4, as the code has it. When the fetch of the missing symbols ends
    without error, every quote it fetched is in the cache, stamped with
    the current time, when [GetQuotes] returns.  When it ends with an
    error, [GetQuotes] returns with the cache as it was on entry. *)
Theorem fetched_quotes_cached (symbols : list string) (w : World) :
  let missing := (GetMulti (cache w) (clock w) symbols).2 in
  let batch := fetchBatch Unmarshal missing w in
  let res := GetQuotes Unmarshal symbols w in
  missing ≠ [] →
  (batch.1.2 = None →
   ∀ X q, batch.1.1 !! X = Some q →
          items (cache res.2) !! X =
          Some {| quote := q; fetchedAt := clock res.2 |})
  ∧ (batch.1.2 ≠ None → cache res.2 = cache w).
Proof.
  cbn zeta. intros Hmissing. unfold GetQuotes.
  destruct symbols as [|s0 symbols']; [done|]. cbn [length Nat.eqb].
  destruct (GetMulti (cache w) (clock w) (s0 :: symbols'))
    as [found missing]. cbn [fst snd] in *.
  destruct missing as [|m0 missing']; [done|]. cbn [length Nat.eqb].
  destruct (fetchBatch_spec Unmarshal (m0 :: missing') w)
    as (evs & (_ & Hc & _) & _).
  destruct (fetchBatch Unmarshal (m0 :: missing') w) as [[fetched err] w1].
  cbn [fst snd] in *.
  destruct err as [e|]; cbn [fst snd cache clock with_cache].
  - split; [discriminate | done].
  - split; [|done]. intros _ X q HX. by rewrite SetMulti_lookup, HX.
Qed.

(** C2, as the code has it. When [GetQuotes] returns no error, the map it
    returns has exactly the requested symbols as keys: every symbol
    without a fresh cache entry was fetched.  When it returns an error,
    the map holds the fresh cache hits and nothing else, empty or not.
    And the batch stops at the first symbol whose request fails with
    something else than an authorization failure: that one request is all
    that was sent, and the loop returns the quotes gathered so far with
    an error naming the symbol, which [GetQuotes] then drops. *)
Theorem GetQuotes_all_or_hits (symbols : list string) (w : World) :
  let found := (GetMulti (cache w) (clock w) symbols).1 in
  let res := GetQuotes Unmarshal symbols w in
  (res.1.2 = None → ∀ X, X ∈ symbols ↔ is_Some (res.1.1 !! X))
  ∧ (res.1.2 ≠ None → res.1.1 = found)
  ∧ (∀ sym rest sess quotes w0 e,
       (fetchOne Unmarshal sym sess w0).1 = Err e →
       isAuthError (Some e) = false →
       fetchBatch_loop Unmarshal (sym :: rest) sess quotes w0 =
       ((quotes, Some ("fetch " +:+ sym +:+ ": " +:+ e)),
        (fetchOne Unmarshal sym sess w0).2)
       ∧ new_events w0 (fetchOne Unmarshal sym sess w0).2 =
         [Upstream (GetChart sym (crumb sess) (cookie sess))]).
Proof.
  cbn zeta.
  destruct (GetQuotes_spec Unmarshal symbols w)
    as (fetched & evs & Ht & Hk & F & Hout & Hnone & Hcases).
  split; [|split].
  - intros Herr X.
    destruct Hcases as [(_ & -> & _ & Hall) | ([e He] & _)]; [|congruence].
    pose proof (GetMulti_found (cache w) (clock w) symbols X) as Hfound.
    pose proof (elem_of_missing (cache w) (clock w) symbols X) as Hmiss.
    split.
    + intros HX. rewrite decide_True in Hfound by done.
      destruct (Get (cache w) (clock w) X) as [q|] eqn:Hget.
      * destruct (fetched !! X) as [q'|] eqn:Hf.
        -- exists q'. by apply lookup_union_Some_l.
        -- exists q. by rewrite lookup_union_r.
      * destruct (Hall X) as [q' Hq']; [by apply Hmiss|].
        exists q'. by apply lookup_union_Some_l.
    + intros [q Hq]. apply lookup_union_Some_raw in Hq as [Hq | [_ Hq]].
      * destruct (decide (X ∈ (GetMulti (cache w) (clock w) symbols).2))
          as [Hin|Hnin]; [by apply Hmiss in Hin as [? _]|].
        rewrite (Hnone X (Hout X Hnin)) in Hq. discriminate.
      * rewrite Hfound in Hq. by case_decide.
  - intros Herr.
    by destruct Hcases as [(? & _) | (_ & -> & _)].
  - intros sym rest sess quotes w0 e He Hauth. split.
    + cbn [fetchBatch_loop].
      destruct (fetchOne Unmarshal sym sess w0) as [r w1]. cbn [fst snd] in *.
      subst r. by rewrite Hauth.
    + apply steps_new_events, fetchOne_steps.
Qed.

End QuoteFacts.

(** ** Examples *)

Lemma GetMulti_partition_witness :
  "AAPL" ∈ ["AAPL"; "MSFT"] ∧ "MSFT" ∈ ["AAPL"; "MSFT"]
  ∧ (GetMulti (cache (samples.warm (5 * time.Minute) []))
       (5 * time.Minute) ["AAPL"; "MSFT"]).1 !! "AAPL"
    = Some (samples.quoteOf "AAPL")
  ∧ "MSFT" ∈ (GetMulti (cache (samples.warm (5 * time.Minute) []))
                (5 * time.Minute) ["AAPL"; "MSFT"]).2.
Proof.
  assert ("AAPL" ∈ ["AAPL"; "MSFT"]) as H1 by (by left).
  assert ("MSFT" ∈ ["AAPL"; "MSFT"]) as H2 by (right; by left).
  destruct (GetMulti_partition (cache (samples.warm (5 * time.Minute) []))
              (5 * time.Minute) ["AAPL"; "MSFT"]) as (Hsplit & _ & _).
  split; [exact H1|]. split; [exact H2|]. split.
  - exact (proj1 (Hsplit "AAPL" H1)).
  - exact (proj2 (Hsplit "MSFT" H2)).
Defined.

Lemma parseChartResponse_price_witness :
  samples.Unmarshal "CMSFT" =
    Ok {| Result := [samples.meta "MSFT" float64_zero samples.one];
          Error := None |}
  ∧ parseChartResponse samples.Unmarshal "CMSFT" "MSFT" =
    Ok (samples.quoteOf "MSFT")
  ∧ parseChartResponse samples.Unmarshal "ZMSFT" "MSFT" =
    Err "no price data for MSFT".
Proof.
  split; [reflexivity|]. split.
  - exact (proj2 (parseChartResponse_price samples.Unmarshal "CMSFT" "MSFT")
             _ _ [] eq_refl eq_refl eq_refl).
  - exact (proj2 (parseChartResponse_price samples.Unmarshal "ZMSFT" "MSFT")
             _ _ [] eq_refl eq_refl eq_refl).
Defined.

Lemma getSession_acquire_witness :
  live_session (samples.cold [samples.noCookie]) = None
  ∧ live_session (samples.cold [samples.consent; samples.crumbNull]) = None
  ∧ live_session (samples.warm time.Minute []) = Some samples.sess1
  ∧ (getSession (samples.cold [samples.noCookie])).1 =
    Err "no cookie returned from Yahoo consent endpoint"
  ∧ session (getSession (samples.cold [samples.noCookie])).2 = None
  ∧ session
      (getSession (samples.cold [samples.consent; samples.crumbNull])).2
    = None
  ∧ (getSession (samples.cold [samples.consent; samples.crumbBlank])).1 =
    Err ("Yahoo returned invalid crumb: " +:+ dquote +:+ dquote)
  ∧ session
      (getSession (samples.cold [samples.consent; samples.crumbBlank])).2
    = None
  ∧ getSession (samples.warm time.Minute []) =
    (Ok samples.sess1, samples.warm time.Minute []).
Proof.
  split; [reflexivity|]. split; [reflexivity|]. split; [reflexivity|].
  destruct (getSession_acquire (samples.cold [samples.noCookie]))
    as [_ Hfail1].
  destruct (Hfail1 eq_refl) as [Hstep1 _].
  destruct (getSession_acquire
              (samples.cold [samples.consent; samples.crumbNull]))
    as [_ Hfail2].
  destruct (Hfail2 eq_refl) as [_ Hstep2].
  destruct (getSession_acquire
              (samples.cold [samples.consent; samples.crumbBlank]))
    as [_ Hfail3].
  destruct (Hfail3 eq_refl) as [_ Hstep3].
  split; [exact (proj1 (Hstep1 _ _ _ _ eq_refl))|].
  split; [exact (proj2 (Hstep1 _ _ _ _ eq_refl))|].
  split.
  { refine (proj2 (Hstep2 _ _ _ _ _ _ _ _ _ eq_refl _ _));
      [discriminate | right; reflexivity]. }
  split.
  { refine (proj1 (Hstep3 _ _ _ _ _ _ _ _ _ eq_refl _ _));
      [discriminate | left; reflexivity]. }
  split.
  { refine (proj2 (Hstep3 _ _ _ _ _ _ _ _ _ eq_refl _ _));
      [discriminate | left; reflexivity]. }
  exact (proj1 (getSession_acquire (samples.warm time.Minute []))
           samples.sess1 eq_refl).
Defined.


(** AAPL is served from the cache, the request for MSFT is answered with
    status 500: [GetQuotes] returns the quote of AAPL together with an
    error, and TSLA, whose answer was ready, is never asked for. *)
Lemma GetQuotes_partial_counterexample :
  let w := samples.warm (5 * time.Minute)
             [samples.serverError; samples.chartOK "TSLA"] in
  let res := GetQuotes samples.Unmarshal ["AAPL"; "MSFT"; "TSLA"] w in
  res.1.1 !! "AAPL" = Some (samples.quoteOf "AAPL")
  ∧ res.1.2 = Some "fetch MSFT: HTTP 500 for MSFT"
  ∧ res.1.1 !! "TSLA" = None
  ∧ new_events w res.2 =
    [Upstream (GetChart "MSFT" "mXyZ" "A3=d=AQAB")]
  ∧ upstream res.2 = [samples.chartOK "TSLA"].
Proof. vm_compute. repeat split; reflexivity. Qed.

Lemma GetQuotes_all_or_hits_witness :
  (GetQuotes samples.Unmarshal ["AAPL"; "MSFT"]
     (samples.warm (5 * time.Minute) [samples.chartOK "MSFT"])).1.2 = None
  ∧ (GetQuotes samples.Unmarshal ["AAPL"; "MSFT"; "TSLA"]
       (samples.warm (5 * time.Minute)
          [samples.serverError; samples.chartOK "TSLA"])).1.2 ≠ None
  ∧ is_Some
      ((GetQuotes samples.Unmarshal ["AAPL"; "MSFT"]
          (samples.warm (5 * time.Minute) [samples.chartOK "MSFT"])).1.1
       !! "MSFT")
  ∧ (GetQuotes samples.Unmarshal ["AAPL"; "MSFT"; "TSLA"]
       (samples.warm (5 * time.Minute)
          [samples.serverError; samples.chartOK "TSLA"])).1.1
    = (GetMulti
         (cache (samples.warm (5 * time.Minute)
                   [samples.serverError; samples.chartOK "TSLA"]))
         (5 * time.Minute) ["AAPL"; "MSFT"; "TSLA"]).1
  ∧ new_events (samples.warm 0 [samples.serverError])
      (fetchOne samples.Unmarshal "MSFT" samples.sess1
         (samples.warm 0 [samples.serverError])).2
    = [Upstream (GetChart "MSFT" "mXyZ" "A3=d=AQAB")].
Proof.
  assert ((GetQuotes samples.Unmarshal ["AAPL"; "MSFT"]
             (samples.warm (5 * time.Minute) [samples.chartOK "MSFT"])).1.2
          = None) as Hok by reflexivity.
  assert ((GetQuotes samples.Unmarshal ["AAPL"; "MSFT"; "TSLA"]
             (samples.warm (5 * time.Minute)
                [samples.serverError; samples.chartOK "TSLA"])).1.2 ≠ None)
    as Hfail by discriminate.
  split; [exact Hok|]. split; [exact Hfail|]. split; [|split].
  - destruct (GetQuotes_all_or_hits samples.Unmarshal ["AAPL"; "MSFT"]
                (samples.warm (5 * time.Minute) [samples.chartOK "MSFT"]))
      as (Hall & _ & _).
    apply (Hall Hok "MSFT"). right. left.
  - destruct (GetQuotes_all_or_hits samples.Unmarshal
                ["AAPL"; "MSFT"; "TSLA"]
                (samples.warm (5 * time.Minute)
                   [samples.serverError; samples.chartOK "TSLA"]))
      as (_ & Hhits & _).
    exact (Hhits Hfail).
  - destruct (GetQuotes_all_or_hits samples.Unmarshal [] (samples.cold []))
      as (_ & _ & Hstop).
    exact (proj2 (Hstop "MSFT" [] samples.sess1 ∅
                    (samples.warm 0 [samples.serverError])
                    "HTTP 500 for MSFT" eq_refl eq_refl)).
Defined.

(** Nothing is cached on entry; the request for AAPL is answered with a
    quote, the request for MSFT with status 500.  The quote of AAPL was
    fetched, and is not in the cache when [GetQuotes] returns. *)
Lemma fetched_quotes_cached_counterexample :
  let w := samples.cold [samples.consent; samples.crumbOK;
                         samples.chartOK "AAPL"; samples.serverError] in
  let res := GetQuotes samples.Unmarshal ["AAPL"; "MSFT"] w in
  (fetchBatch samples.Unmarshal ["AAPL"; "MSFT"] w).1.1 !! "AAPL"
    = Some (samples.quoteOf "AAPL")
  ∧ new_events w res.2 =
    [Upstream GetConsent; Upstream (GetCrumb "A3=d=AQAB");
     Upstream (GetChart "AAPL" "mXyZ" "A3=d=AQAB");
     Upstream (GetChart "MSFT" "mXyZ" "A3=d=AQAB")]
  ∧ res.1.2 = Some "fetch MSFT: HTTP 500 for MSFT"
  ∧ items (cache res.2) !! "AAPL" = None.
Proof. vm_compute. repeat split; reflexivity. Qed.

Lemma fetched_quotes_cached_witness :
  (GetMulti (cache (samples.cold [samples.consent; samples.crumbOK;
                                  samples.chartOK "AAPL"]))
     0 ["AAPL"]).2 ≠ []
  ∧ items (cache (GetQuotes samples.Unmarshal ["AAPL"]
                    (samples.cold [samples.consent; samples.crumbOK;
                                   samples.chartOK "AAPL"])).2) !! "AAPL"
    = Some {| quote := samples.quoteOf "AAPL";
              fetchedAt := 3 * Z.of_N samples.ms |}.
Proof.
  assert ((GetMulti (cache (samples.cold [samples.consent; samples.crumbOK;
                                          samples.chartOK "AAPL"]))
             0 ["AAPL"]).2 ≠ []) as Hmiss by discriminate.
  split; [exact Hmiss|].
  destruct (fetched_quotes_cached samples.Unmarshal ["AAPL"]
              (samples.cold [samples.consent; samples.crumbOK;
                             samples.chartOK "AAPL"]) Hmiss) as [Hok _].
  exact (Hok eq_refl "AAPL" (samples.quoteOf "AAPL") eq_refl).
Defined.

(** ** Authorization failures *)

Section AuthFacts.

Variable Unmarshal : string → Outcome chartPayload.

Lemma fetchOne_auth (sym : string) (sess : yahooSession) (w : World)
    (l : N) (code : Z) (c : list Cookie) (b : Outcome string)
    (rest : list (N * Response)) :
  upstream w = (l, HTTPResponse code c b) :: rest →
  code = 401 ∨ code = 403 →
  fetchOne Unmarshal sym sess w =
  (Err ("auth error: HTTP " +:+ strconv.Itoa code),
   answered (GetChart sym (crumb sess) (cookie sess)) l rest w).
Proof.
  intros Hup Hcode. unfold fetchOne. rewrite (Do_answered _ _ _ _ _ Hup).
  by destruct Hcode as [-> | ->].
Qed.

Lemma isAuthError_auth (code : Z) :
  isAuthError (Some ("auth error: HTTP " +:+ strconv.Itoa code)) = true.
Proof.
  unfold isAuthError. rewrite Contains_of_prefix; reflexivity.
Qed.

End AuthFacts.

(** ** The scheduler tick *)

Section SchedulerFacts.

Variable Unmarshal : string → Outcome chartPayload.
Variable repo : db.Repository.
Variable Format : portfolio.BalanceReport → string.

Local Abbreviation ComputeBalance := (portfolio.ComputeBalance Unmarshal repo).
Local Abbreviation notifyAll_loop := (scheduler.notifyAll_loop Unmarshal repo Format).
Local Abbreviation notifyAll := (scheduler.notifyAll Unmarshal repo Format).

Lemma client_event_no_send (evs : list Event) :
  Forall (λ e, is_client_event e = true) evs →
  Forall (λ e, is_send e = false) evs.
Proof.
  intros H. eapply Forall_impl; [exact H|].
  intros [| | |]; simpl; congruence.
Qed.

Lemma no_send_no_send_to (c : Z) (evs : list Event) :
  Forall (λ e, is_send e = false) evs →
  Forall (λ e, is_send_to c e = false) evs.
Proof.
  intros H. eapply Forall_impl; [exact H|].
  intros [| | |]; simpl; congruence.
Qed.

Lemma ComputeBalance_loop_trace (chatID : Z) (holdings : list db.Holding)
    (quotes : gmap string Quote) (report : portfolio.BalanceReport)
    (w : World) :
  ∃ evs,
    trace (portfolio.ComputeBalance_loop chatID holdings quotes report w).2
    = trace w ++ evs
    ∧ Forall (λ e, is_send e = false) evs.
Proof.
  revert report w. induction holdings as [|h rest IH]; intros report w.
  - exists []. by rewrite app_nil_r.
  - cbn [portfolio.ComputeBalance_loop].
    destruct (quotes !! db.Symbol h) as [q|].
    + apply IH.
    + destruct (IH report (emit (Log ("ComputeBalance: no quote returned for symbol "
                        +:+ db.Symbol h +:+ " (chatID "
                        +:+ strconv.Itoa chatID +:+ ")")) w))
        as (evs & Ht & F).
      eexists (_ :: evs). rewrite Ht. cbn [emit trace].
      rewrite <- app_assoc. split; [reflexivity|]. by constructor.
Qed.

Lemma ComputeBalance_trace (chatID : Z) (w : World) :
  ∃ evs, trace (ComputeBalance chatID w).2 = trace w ++ evs
         ∧ Forall (λ e, is_send e = false) evs.
Proof.
  unfold portfolio.ComputeBalance.
  assert (∃ evs, trace w = trace w ++ evs
                 ∧ Forall (λ e, is_send e = false) evs) as Hsame
    by (exists []; by rewrite app_nil_r).
  destruct (db.GetHoldings repo chatID) as [holdings|e]; [|exact Hsame].
  destruct (length holdings =? 0)%nat; [exact Hsame|].
  destruct (GetQuotes_spec Unmarshal (map db.Symbol holdings) w)
    as (_ & evs & Ht & _ & F & _).
  destruct (GetQuotes Unmarshal (map db.Symbol holdings) w)
    as [[quotes err] w1]. cbn [fst snd] in Ht.
  apply client_event_no_send in F.
  destruct err as [e|]; [by exists evs|].
  destruct (ComputeBalance_loop_trace chatID holdings quotes
              {| portfolio.Holdings := [];
                 portfolio.TotalUSD := float64_zero |} w1)
    as (logs & Hl & Fl).
  destruct (portfolio.ComputeBalance_loop _ _ _ _ w1) as [report w2].
  cbn [snd] in Hl.
  assert (∃ evs', trace w2 = trace w ++ evs'
                  ∧ Forall (λ e, is_send e = false) evs') as Hboth.
  { exists (evs ++ logs). rewrite Hl, Ht, app_assoc. split; [done|].
    by apply Forall_app. }
  by destruct (length (portfolio.Holdings report) =? 0)%nat.
Qed.

Lemma ComputeBalance_no_holdings (chatID : Z) (w : World) :
  db.GetHoldings repo chatID = Ok [] →
  ComputeBalance chatID w = (Ok None, w).
Proof. intros H. unfold portfolio.ComputeBalance. by rewrite H. Qed.

Lemma notifyAll_loop_app (before after : list Z) (w : World) :
  notifyAll_loop (before ++ after) w =
  notifyAll_loop after (notifyAll_loop before w).
Proof.
  revert w. induction before as [|c before IH]; intros w; [reflexivity|].
  cbn [app scheduler.notifyAll_loop].
  destruct (ComputeBalance c w) as [[[report|]|e] w1]; try apply IH.
  destruct (length (portfolio.Holdings report) =? 0)%nat; apply IH.
Qed.

(** The events of the loop over the users: sends go to users of the list
    only, and never to a user without holdings. *)
Lemma notifyAll_loop_trace (users : list Z) (w : World) :
  ∃ evs,
    trace (notifyAll_loop users w) = trace w ++ evs
    ∧ (∀ c text, SendMarkdown c text ∈ evs → c ∈ users)
    ∧ (∀ c, db.GetHoldings repo c = Ok [] →
            Forall (λ e, is_send_to c e = false) evs).
Proof.
  revert w. induction users as [|u users IH]; intros w.
  { exists []. rewrite app_nil_r. split; [done|]. split; [|by constructor].
    intros c text H. by apply elem_of_nil in H. }
  cbn [scheduler.notifyAll_loop].
  destruct (ComputeBalance_trace u w) as (ev1 & Ht1 & F1).
  pose proof (ComputeBalance_no_holdings u w) as Hnone.
  destruct (ComputeBalance u w) as [r w1]. cbn [snd] in Ht1.
  assert (∀ c text, SendMarkdown c text ∉ ev1) as Hnot1.
  { intros c text Hin. rewrite Forall_forall in F1.
    by specialize (F1 _ Hin). }
  assert (∀ (w1' : World) (tail : list Event),
            trace w1' = trace w1 ++ tail →
            (∀ c text, SendMarkdown c text ∈ tail → c = u) →
            (∀ c, db.GetHoldings repo c = Ok [] →
                  Forall (λ e, is_send_to c e = false) tail) →
            ∃ evs,
              trace (notifyAll_loop users w1') = trace w ++ evs
              ∧ (∀ c text, SendMarkdown c text ∈ evs → c ∈ u :: users)
              ∧ (∀ c, db.GetHoldings repo c = Ok [] →
                      Forall (λ e, is_send_to c e = false) evs)) as Hgo.
  { intros w1' tail Htail Hto Hquiet.
    destruct (IH w1') as (evs & Ht & Hin & Hq).
    exists (ev1 ++ tail ++ evs).
    rewrite Ht, Htail, Ht1, <- !app_assoc. split; [done|]. split.
    - intros c text Hc. rewrite !elem_of_app in Hc.
      destruct Hc as [Hc | [Hc | Hc]].
      + by apply Hnot1 in Hc.
      + apply Hto in Hc as ->. left.
      + right. by eapply Hin.
    - intros c Hc. apply Forall_app. split.
      + by apply no_send_no_send_to.
      + apply Forall_app. split; [by apply Hquiet | by apply Hq]. }
  assert (∀ w1' : World, trace w1' = trace w1 ++ [] →
            ∃ evs,
              trace (notifyAll_loop users w1') = trace w ++ evs
              ∧ (∀ c text, SendMarkdown c text ∈ evs → c ∈ u :: users)
              ∧ (∀ c, db.GetHoldings repo c = Ok [] →
                      Forall (λ e, is_send_to c e = false) evs)) as Hgo0.
  { intros w1' Htail. apply (Hgo w1' [] Htail).
    - intros c text H. by apply elem_of_nil in H.
    - intros c _. constructor. }
  destruct r as [[report|]|e].
  - destruct (length (portfolio.Holdings report) =? 0)%nat.
    + apply Hgo0. by rewrite app_nil_r.
    + apply (Hgo _ [SendMarkdown u (Format report)]); [reflexivity| |].
      * intros c text Hc. apply list_elem_of_singleton in Hc. congruence.
      * intros c Hc. constructor; [|constructor]. cbn.
        destruct (Z.eqb_spec u c) as [->|]; [|done].
        specialize (Hnone Hc). discriminate.
  - apply Hgo0. by rewrite app_nil_r.
  - apply (Hgo _ [Log ("scheduler: compute balance "
                        +:+ strconv.Itoa u +:+ ": " +:+ e)]); [reflexivity| |].
    + intros c text Hc. apply list_elem_of_singleton in Hc. discriminate.
    + intros c _. by repeat constructor.
Qed.

(** C9. A tick for which the database answers both of the scheduler's
    queries, with at least one tracked symbol.  The pre-warming call of
    [GetQuotes] comes first: its events are a prefix of the tick's trace
    and hold no notification.  Whatever its outcome, the loop over the
    active users runs next.  In that loop every user whose balance, when
    its turn comes, computes to a report with holdings is sent that
    report, whatever happened to the users before it; a user without
    holdings is sent nothing; and nobody outside the list of active users
    is sent anything. *)
Theorem notifyAll_prewarm_then_fanout (w : World) (symbols : list string)
    (users : list Z) :
  db.GetDistinctSymbols repo = Ok symbols →
  symbols ≠ [] →
  db.GetAllActiveUsers repo = Ok users →
  let pre := GetQuotes Unmarshal symbols w in
  let w2 :=
    match pre.1.2 with
    | Some e => emit (Log ("scheduler: pre-warm quotes: " +:+ e)) pre.2
    | None => pre.2
    end in
  let final := notifyAll w in
  final = notifyAll_loop users w2
  ∧ (∃ fan, new_events w final = new_events w pre.2 ++ fan)
  ∧ Forall (λ e, is_send e = false) (new_events w pre.2)
  ∧ (∀ before c after report,
       users = before ++ c :: after →
       (ComputeBalance c (notifyAll_loop before w2)).1 = Ok (Some report) →
       portfolio.Holdings report ≠ [] →
       SendMarkdown c (Format report) ∈ new_events w final)
  ∧ (∀ c, db.GetHoldings repo c = Ok [] →
          Forall (λ e, is_send_to c e = false) (new_events w final))
  ∧ (∀ c text, SendMarkdown c text ∈ new_events w final → c ∈ users).
Proof.
  intros Hsym Hne Husers. cbn zeta.
  destruct (GetQuotes_spec Unmarshal symbols w)
    as (_ & pre_evs & Htpre & _ & Fpre & _).
  assert (notifyAll w =
          notifyAll_loop users
            match (GetQuotes Unmarshal symbols w).1.2 with
            | Some e => emit (Log ("scheduler: pre-warm quotes: " +:+ e))
                          (GetQuotes Unmarshal symbols w).2
            | None => (GetQuotes Unmarshal symbols w).2
            end) as Hfinal.
  { unfold scheduler.notifyAll, scheduler.notifyAll_from.
    rewrite Hsym, Husers. destruct symbols as [|s0 symbols']; [done|].
    cbn [length Nat.eqb].
    by destruct (GetQuotes Unmarshal (s0 :: symbols') w) as [[? [e|]] w1]. }
  rewrite Hfinal. clear Hfinal.
  destruct (GetQuotes Unmarshal symbols w) as [[quotes err] w1].
  cbn [fst snd] in *.
  set (w2 := match err with
             | Some e => emit (Log ("scheduler: pre-warm quotes: " +:+ e)) w1
             | None => w1
             end).
  assert (∃ logs, trace w2 = trace w1 ++ logs
                  ∧ Forall (λ e, is_send e = false) logs) as (logs & Hl & Fl).
  { unfold w2. destruct err as [e|].
    - exists [Log ("scheduler: pre-warm quotes: " +:+ e)].
      split; [done | by repeat constructor].
    - exists []. by rewrite app_nil_r. }
  destruct (notifyAll_loop_trace users w2) as (fan & Hfan & Hin & Hquiet).
  assert (new_events w (notifyAll_loop users w2) = pre_evs ++ logs ++ fan)
    as Hnew.
  { apply new_events_app. by rewrite Hfan, Hl, Htpre, <- !app_assoc. }
  rewrite Hnew, (new_events_app _ _ _ Htpre).
  split; [done|]. split; [by eexists|].
  split; [by apply client_event_no_send|]. split; [|split].
  - intros before c after report -> Hcb Hrep.
    rewrite !elem_of_app. right. right.
    rewrite notifyAll_loop_app in Hfan. cbn [scheduler.notifyAll_loop] in Hfan.
    destruct (notifyAll_loop_trace before w2) as (ev_b & Hb & _).
    destruct (ComputeBalance_trace c (notifyAll_loop before w2))
      as (ev_c & Hc & _).
    destruct (ComputeBalance c (notifyAll_loop before w2)) as [r wc].
    cbn [fst snd] in *. subst r.
    destruct (length (portfolio.Holdings report) =? 0)%nat eqn:Hlen.
    { apply Nat.eqb_eq in Hlen. by destruct (portfolio.Holdings report). }
    destruct (notifyAll_loop_trace after
                (emit (SendMarkdown c (Format report)) wc))
      as (ev_a & Ha & _).
    rewrite Ha in Hfan. cbn [emit trace] in Hfan.
    rewrite Hc, Hb, <- !app_assoc in Hfan.
    apply app_inv_head in Hfan. rewrite <- Hfan.
    rewrite !elem_of_app. right. right. left. by left.
  - intros c Hc. apply Forall_app. split.
    + by apply no_send_no_send_to, client_event_no_send.
    + apply Forall_app. split; [by apply no_send_no_send_to | by apply Hquiet].
  - intros c text Hc. rewrite !elem_of_app in Hc.
    destruct Hc as [Hc | [Hc | Hc]].
    + apply client_event_no_send in Fpre. rewrite Forall_forall in Fpre.
      by specialize (Fpre _ Hc).
    + rewrite Forall_forall in Fl. by specialize (Fl _ Hc).
    + by eapply Hin.
Qed.

End SchedulerFacts.

(** The pre-warming call fails on AAPL, so does the balance of consumer
    1; consumer 2 is notified all the same, consumer 3 is not. *)
Lemma notifyAll_prewarm_then_fanout_witness :
  let w := samples.cold [samples.consent; samples.crumbOK;
                         samples.serverError; samples.serverError;
                         samples.chartOK "AAPL"; samples.chartOK "TSLA"] in
  let final := scheduler.notifyAll samples.Unmarshal samples.repo
                 samples.Format w in
  db.GetDistinctSymbols samples.repo = Ok ["AAPL"; "TSLA"]
  ∧ ["AAPL"; "TSLA"] ≠ []
  ∧ db.GetAllActiveUsers samples.repo = Ok [1; 2]
  ∧ (GetQuotes samples.Unmarshal ["AAPL"; "TSLA"] w).1.2
    = Some "fetch AAPL: HTTP 500 for AAPL"
  ∧ SendMarkdown 2 "AAPL,TSLA" ∈ new_events w final
  ∧ Forall (λ e, is_send_to 3 e = false) (new_events w final)
  ∧ Forall (λ e, is_send_to 1 e = false) (new_events w final).
Proof.
  cbn zeta.
  assert (["AAPL"; "TSLA"] ≠ []) as Hne by discriminate.
  split; [reflexivity|]. split; [exact Hne|]. split; [reflexivity|].
  split; [reflexivity|].
  destruct (notifyAll_prewarm_then_fanout samples.Unmarshal samples.repo
              samples.Format
              (samples.cold [samples.consent; samples.crumbOK;
                             samples.serverError; samples.serverError;
                             samples.chartOK "AAPL"; samples.chartOK "TSLA"])
              ["AAPL"; "TSLA"] [1; 2] eq_refl Hne eq_refl)
    as (_ & _ & _ & Hsend & Hnone & _).
  split; [|split].
  - refine (Hsend [1] 2 [] samples.report2 eq_refl _ _);
      [vm_compute; reflexivity | discriminate].
  - exact (Hnone 3 eq_refl).
  - vm_compute. repeat constructor.
Defined.

(** ** Callers running side by side *)

Section GoroutineFacts.

Variable Unmarshal : string → Outcome chartPayload.

(** A caller that makes its three moves in a row computes [GetQuotes]. *)
Lemma GetQuotes_as_steps (symbols : list string) (w : World) :
  goroutines.run Unmarshal [0; 0; 0]%nat [goroutines.AtGetMulti symbols] w =
  ([goroutines.Returned (GetQuotes Unmarshal symbols w).1.1
      (GetQuotes Unmarshal symbols w).1.2],
   (GetQuotes Unmarshal symbols w).2).
Proof.
  unfold GetQuotes. cbn [goroutines.run lookup list_lookup goroutines.step].
  destruct (length symbols =? 0)%nat; [reflexivity|].
  destruct (GetMulti (cache w) (clock w) symbols) as [found missing].
  destruct (length missing =? 0)%nat; [reflexivity|].
  cbn [insert list_insert lookup list_lookup goroutines.step].
  destruct (fetchBatch Unmarshal missing w) as [[fetched [e|]] w1];
    reflexivity.
Qed.

End GoroutineFacts.

(** C1. Two callers ask for AAPL, which is not cached, and both look into
    the cache before either has fetched.  Each of them then sends its own
    quote request for AAPL: two requests, not one.  When the service
    answers the second request with status 500, the first caller returns
    the quote and the second returns an error. *)
Theorem concurrent_callers_fetch_twice :
  let callers := [goroutines.AtGetMulti ["AAPL"];
                  goroutines.AtGetMulti ["AAPL"]] in
  let schedule := [0; 1; 0; 1; 0; 1]%nat in
  let both := goroutines.run samples.Unmarshal schedule callers
                (samples.cold [samples.consent; samples.crumbOK;
                               samples.chartOK "AAPL";
                               samples.chartOK "AAPL"]) in
  let split := goroutines.run samples.Unmarshal schedule callers
                 (samples.cold [samples.consent; samples.crumbOK;
                                samples.chartOK "AAPL";
                                samples.serverError]) in
  chart_requests "AAPL" (trace both.2) = 2%nat
  ∧ both.1 =
    [goroutines.Returned {["AAPL" := samples.quoteOf "AAPL"]} None;
     goroutines.Returned {["AAPL" := samples.quoteOf "AAPL"]} None]
  ∧ chart_requests "AAPL" (trace split.2) = 2%nat
  ∧ split.1 =
    [goroutines.Returned {["AAPL" := samples.quoteOf "AAPL"]} None;
     goroutines.Returned ∅ (Some "fetch AAPL: HTTP 500 for AAPL")].
Proof. vm_compute. repeat split; reflexivity. Qed.

(** ** Configuration and pacing of requests *)

Lemma loadConfig_other_variable (ParseDuration : string → option time.Duration)
    (env : gmap string string) (key value : string) :
  key ≠ "CACHE_TTL" → key ≠ "NOTIFY_INTERVAL" →
  key ≠ "TELEGRAM_BOT_TOKEN" → key ≠ "DB_PATH" →
  main.loadConfig ParseDuration (<[key := value]> env) =
  main.loadConfig ParseDuration env.
Proof.
  intros H1 H2 H3 H4. unfold main.loadConfig, main.getEnv, main.mustEnv.
  by rewrite !lookup_insert_ne.
Qed.

(** C3. [loadConfig] gives the same configuration whatever the variable
    RATE_LIMIT_PER_SEC holds, and with that variable set to 1 a call of
    [GetQuotes] for three symbols that are not cached sends its five
    requests within the five milliseconds the answers take. *)
Theorem rate_limit_not_applied :
  (∀ ParseDuration env value,
     main.loadConfig ParseDuration (<["RATE_LIMIT_PER_SEC" := value]> env) =
     main.loadConfig ParseDuration env)
  ∧ main.loadConfig samples.ParseDuration
      {["TELEGRAM_BOT_TOKEN" := "t"; "RATE_LIMIT_PER_SEC" := "1"]}
    = Some {| main.TelegramToken := "t"; main.DBPath := "./portfolio.db";
              main.CacheTTL := 15 * time.Minute;
              main.NotifyInterval := time.Hour |}
  ∧ let w := samples.cold [samples.consent; samples.crumbOK;
                           samples.chartOK "AAPL"; samples.chartOK "MSFT";
                           samples.chartOK "TSLA"] in
    let res := GetQuotes samples.Unmarshal ["AAPL"; "MSFT"; "TSLA"] w in
    length (List.filter is_upstream (new_events w res.2)) = 5%nat
    ∧ clock res.2 - clock w = 5 * Z.of_N samples.ms
    ∧ 5 * Z.of_N samples.ms < time.Second.
Proof.
  split; [|split].
  - intros ParseDuration env value. by apply loadConfig_other_variable.
  - reflexivity.
  - vm_compute. repeat split; reflexivity.
Qed.

(** * Further properties of the code *)

(** ** cache.go *)

Lemma Sub_mono (t t' u : time.Time) :
  t ≤ t' → time.Sub t u ≤ time.Sub t' u.
Proof.
  intros Hle. unfold time.Sub, time.minDuration, time.maxDuration.
  repeat match goal with
         | |- context [?a <? ?b] => destruct (Z.ltb_spec a b)
         end; lia.
Qed.

Lemma Sub_exact (t u : time.Time) :
  time.minDuration ≤ t - u ≤ time.maxDuration → time.Sub t u = t - u.
Proof.
  intros [H1 H2]. unfold time.Sub.
  destruct (Z.ltb_spec (t - u) time.minDuration); [lia|].
  destruct (Z.ltb_spec time.maxDuration (t - u)); [lia|]. reflexivity.
Qed.

Lemma Sub_gt (t u : time.Time) (d : time.Duration) :
  d < time.maxDuration → d < t - u → d < time.Sub t u.
Proof.
  intros Hmax Hlt. unfold time.Sub.
  destruct (Z.ltb_spec (t - u) time.minDuration) as [H1|H1].
  - unfold time.minDuration, time.maxDuration in *. lia.
  - destruct (Z.ltb_spec time.maxDuration (t - u)); lia.
Qed.

(** X1. A quote stored by [Set] at [now] is what [Get] returns for that
    symbol at [now'] as long as [now' - now] does not exceed the time to
    live, and is not returned once it does; lookups of other symbols are
    not affected by the store. *)
Theorem Set_then_Get (pc : PriceCache) (now now' : time.Time)
    (symbol : string) (q : Quote) :
  time.minDuration ≤ ttl pc < time.maxDuration →
  Get (Set_ pc now symbol q) now' symbol =
    (if now' - now <=? ttl pc then Some q else None)
  ∧ ∀ other, other ≠ symbol →
             Get (Set_ pc now symbol q) now' other = Get pc now' other.
Proof.
  intros [Hmin Hmax]. split.
  - unfold Get, Set_, time.Since. cbn [items ttl quote fetchedAt].
    rewrite lookup_insert_eq. cbn [quote fetchedAt].
    destruct (Z.leb_spec (now' - now) (ttl pc)) as [Hle|Hgt].
    + pose proof (Sub_le now' now (ttl pc) Hmin Hle).
      by destruct (Z.ltb_spec (ttl pc) (time.Sub now' now)); [lia|].
    + pose proof (Sub_gt now' now (ttl pc) Hmax Hgt).
      by destruct (Z.ltb_spec (ttl pc) (time.Sub now' now)); [|lia].
  - intros other Hne. unfold Get, Set_. cbn [items ttl].
    by rewrite lookup_insert_ne.
Qed.

(** X2. Expiry is final while the clock moves forward: a symbol that
    [Get] misses at [now] is missed at every later instant, as long as
    the cache is not written. *)
Theorem Get_expired_stays_expired (pc : PriceCache) (now now' : time.Time)
    (symbol : string) :
  now ≤ now' →
  Get pc now symbol = None →
  Get pc now' symbol = None.
Proof.
  intros Hle. unfold Get, time.Since.
  destruct (items pc !! symbol) as [item|]; [|done].
  pose proof (Sub_mono now now' (fetchedAt item) Hle).
  destruct (Z.ltb_spec (ttl pc) (time.Sub now (fetchedAt item)));
    [|discriminate].
  intros _.
  by destruct (Z.ltb_spec (ttl pc) (time.Sub now' (fetchedAt item))); [|lia].
Qed.

(** X3. What [SetMulti] stores at [now], [GetMulti] finds at [now'] while
    [now' - now] does not exceed the time to live: a request made of
    stored symbols only has nothing missing, and finds each symbol bound
    to the stored quote. *)
Theorem SetMulti_then_GetMulti (pc : PriceCache) (now now' : time.Time)
    (quotes : gmap string Quote) (symbols : list string) :
  time.minDuration ≤ ttl pc →
  now' - now ≤ ttl pc →
  (∀ X, X ∈ symbols → is_Some (quotes !! X)) →
  (GetMulti (SetMulti pc now quotes) now' symbols).2 = []
  ∧ ∀ X, X ∈ symbols →
         (GetMulti (SetMulti pc now quotes) now' symbols).1 !! X
         = quotes !! X.
Proof.
  intros Hmin Hle Hall.
  assert (∀ X, X ∈ symbols →
               Get (SetMulti pc now quotes) now' X = quotes !! X) as Hget.
  { intros X HX. destruct (Hall X HX) as [q Hq]. rewrite Hq.
    apply Get_Some. exists {| quote := q; fetchedAt := now |}.
    split; [by rewrite SetMulti_lookup, Hq|]. split; [done|].
    cbn [fetchedAt ttl SetMulti]. by apply Sub_le. }
  split.
  - rewrite GetMulti_missing.
    induction symbols as [|s rest IH]; [reflexivity|].
    cbn [List.filter]. unfold stale at 1.
    rewrite (Hget s) by left. destruct (Hall s) as [q ->]; [left|].
    apply IH.
    + intros X HX. apply Hall. by right.
    + intros X HX. apply Hget. by right.
  - intros X HX. rewrite GetMulti_found, decide_True by done. by apply Hget.
Qed.

(** X4. With a negative time to live the cache never answers: when no
    entry is stamped later than [now], [GetMulti] finds nothing and
    reports every requested symbol missing, in the order of the
    request. *)
Theorem GetMulti_negative_ttl (pc : PriceCache) (now : time.Time)
    (symbols : list string) :
  ttl pc < 0 →
  (∀ X item, items pc !! X = Some item → fetchedAt item ≤ now) →
  GetMulti pc now symbols = (∅, symbols).
Proof.
  intros Hneg Hpast.
  assert (∀ X, Get pc now X = None) as Hnone.
  { intros X. unfold Get, time.Since.
    destruct (items pc !! X) as [item|] eqn:HX; [|done].
    pose proof (Hpast X item HX).
    pose proof (Sub_mono (fetchedAt item) now (fetchedAt item)
                  ltac:(lia)) as Hm.
    rewrite (Sub_exact (fetchedAt item) (fetchedAt item)) in Hm
      by (unfold time.minDuration, time.maxDuration; lia).
    by destruct (Z.ltb_spec (ttl pc) (time.Sub now (fetchedAt item)));
      [|lia]. }
  rewrite (surjective_pairing (GetMulti pc now symbols)). f_equal.
  - apply map_eq. intros X. rewrite GetMulti_found, lookup_empty, Hnone.
    by case_decide.
  - rewrite GetMulti_missing.
    induction symbols as [|s rest IH]; [reflexivity|].
    cbn [List.filter]. unfold stale at 1. by rewrite Hnone, IH.
Qed.

(** X5. [GetMulti] reports the symbols it did not find in the order of
    the request, once for each time they were asked for. *)
Theorem GetMulti_missing_in_request_order (pc : PriceCache)
    (now : time.Time) (symbols : list string) :
  (GetMulti pc now symbols).2 = List.filter (stale pc now) symbols
  ∧ (length (GetMulti pc now symbols).2 ≤ length symbols)%nat.
Proof.
  rewrite GetMulti_missing. split; [reflexivity|]. apply List.filter_length_le.
Qed.

(** X6. [SetMulti] keeps the time to live, never removes an entry, and
    writes over what was there: after two stores, a symbol holds the quote
    and stamp of the later store that had it, else of the earlier one,
    else what the cache held before. *)
Theorem SetMulti_twice (pc : PriceCache) (t1 t2 : time.Time)
    (a b : gmap string Quote) :
  ttl (SetMulti (SetMulti pc t1 a) t2 b) = ttl pc
  ∧ dom (items pc) ⊆ dom (items (SetMulti (SetMulti pc t1 a) t2 b))
  ∧ ∀ X, items (SetMulti (SetMulti pc t1 a) t2 b) !! X =
         match b !! X, a !! X with
         | Some q, _ => Some {| quote := q; fetchedAt := t2 |}
         | None, Some q => Some {| quote := q; fetchedAt := t1 |}
         | None, None => items pc !! X
         end.
Proof.
  assert (∀ X, items (SetMulti (SetMulti pc t1 a) t2 b) !! X =
               match b !! X, a !! X with
               | Some q, _ => Some {| quote := q; fetchedAt := t2 |}
               | None, Some q => Some {| quote := q; fetchedAt := t1 |}
               | None, None => items pc !! X
               end) as Hlook.
  { intros X. rewrite !SetMulti_lookup. by destruct (b !! X), (a !! X). }
  split; [reflexivity|]. split; [|exact Hlook].
  intros X. rewrite !elem_of_dom, Hlook. intros [item Hitem].
  destruct (b !! X), (a !! X); eauto.
Qed.

(** ** yahoo.go: sessions *)

(** What a successful [fetchNewSession] has done and what it returns. *)
Lemma fetchNewSession_Ok (w w1 : World) (s : yahooSession) :
  fetchNewSession w = (Ok s, w1) →
  steps w w1 [Upstream GetConsent; Upstream (GetCrumb (cookie s))]
  ∧ session w1 = session w
  ∧ cookie s ≠ ""
  ∧ crumb s ≠ "" ∧ crumb s ≠ "null"
  ∧ expiresAt s = time.Add (clock w1) sessionTTL.
Proof.
  unfold fetchNewSession.
  pose proof (Do_steps GetConsent w) as S1.
  pose proof (Do_session GetConsent w) as Hs1.
  destruct (Do GetConsent w) as [resp wa]. cbn [snd] in S1, Hs1.
  destruct resp as [e|st cookies body]; [discriminate|].
  destruct (String.eqb_spec (extractCookies cookies) "") as [|Hcookie];
    [discriminate|].
  pose proof (Do_steps (GetCrumb (extractCookies cookies)) wa) as S2.
  pose proof (Do_session (GetCrumb (extractCookies cookies)) wa) as Hs2.
  destruct (Do (GetCrumb (extractCookies cookies)) wa) as [resp2 wb].
  cbn [snd] in S2, Hs2.
  destruct resp2 as [e|st2 c2 [crumbBytes|e]]; try discriminate.
  destruct (String.eqb_spec (strings.TrimSpace crumbBytes) "") as [|Hc1];
    [discriminate|].
  destruct (String.eqb_spec (strings.TrimSpace crumbBytes) "null") as [|Hc2];
    [discriminate|].
  cbn [orb]. intros [= <- <-]. cbn [cookie crumb expiresAt].
  split; [exact (steps_trans _ _ _ _ _ S1 S2)|].
  split; [congruence|]. done.
Qed.

Lemma getSession_Ok_live (w w1 : World) (s : yahooSession) :
  getSession w = (Ok s, w1) → live_session w1 = Some s.
Proof.
  destruct (live_session w) as [s0|] eqn:Hlive.
  - rewrite (getSession_live _ _ Hlive). by intros [= <- <-].
  - rewrite (getSession_refresh _ Hlive).
    destruct (fetchNewSession w) as [[s'|e] w2] eqn:Hnew; [|discriminate].
    intros [= <- <-].
    apply fetchNewSession_Ok in Hnew as (_ & _ & _ & _ & _ & Hexp).
    unfold live_session. cbn [with_session session clock].
    rewrite Hexp. unfold time.Before, time.Add, sessionTTL.
    by destruct (Z.ltb_spec (clock w2) (clock w2 + 30 * time.Minute));
      [|unfold time.Minute, time.Second in *; lia].
Qed.

(** Without a live session the first thing [getSession] does is the
    consent request. *)
Lemma getSession_goes_upstream (v : World) :
  live_session v = None →
  ∃ more, new_events v (getSession v).2 = Upstream GetConsent :: more.
Proof.
  intros Hlive. rewrite (getSession_refresh v Hlive).
  assert (∃ more, new_events v (fetchNewSession v).2
                  = Upstream GetConsent :: more) as [more Hmore].
  { unfold fetchNewSession.
    pose proof (Do_steps GetConsent v) as S1.
    destruct (Do GetConsent v) as [resp va]. cbn [snd] in S1.
    assert (∃ more, new_events v va = Upstream GetConsent :: more) as Hone
      by (exists []; by apply steps_new_events).
    destruct resp as [e|st cookies body]; [exact Hone|].
    destruct (String.eqb (extractCookies cookies) ""); [exact Hone|].
    pose proof (Do_steps (GetCrumb (extractCookies cookies)) va) as S2.
    destruct (Do (GetCrumb (extractCookies cookies)) va) as [resp2 vb].
    cbn [snd] in S2.
    assert (∃ more, new_events v vb = Upstream GetConsent :: more) as Htwo.
    { eexists. apply steps_new_events.
      exact (steps_trans _ _ _ _ _ S1 S2). }
    destruct resp2 as [e|st2 c2 [crumbBytes|e]]; try exact Htwo.
    destruct (_ || _); exact Htwo. }
  exists more. destruct (fetchNewSession v) as [[s|e] w1]; exact Hmore.
Qed.

(** X7. A session that [getSession] has handed out is the cached one and
    has not expired at that moment.  A later call, made when the clock
    reads [t], hands out the same session, changes nothing and sends no
    request as long as [t] is before the expiry time of the session; made
    at the expiry time or later it goes upstream, starting with the
    consent request. *)
Theorem getSession_reused_until_expiry (w w1 : World) (s : yahooSession) :
  getSession w = (Ok s, w1) →
  session w1 = Some s
  ∧ clock w1 < expiresAt s
  ∧ (∀ t, t < expiresAt s →
          getSession (at_time t w1) = (Ok s, at_time t w1))
  ∧ (∀ t, expiresAt s ≤ t →
          ∃ more, new_events (at_time t w1) (getSession (at_time t w1)).2
                  = Upstream GetConsent :: more).
Proof.
  intros H. apply getSession_Ok_live in H. unfold live_session in H.
  destruct (session w1) as [s0|] eqn:Hs; [|discriminate].
  unfold time.Before in H.
  destruct (Z.ltb_spec (clock w1) (expiresAt s0)) as [Hlt|]; [|discriminate].
  injection H as ->.
  split; [done|]. split; [done|]. split.
  - intros t Ht. apply getSession_live.
    unfold live_session, at_time, time.Before. cbn [session clock].
    rewrite Hs. by destruct (Z.ltb_spec t (expiresAt s)); [|lia].
  - intros t Ht. apply getSession_goes_upstream.
    unfold live_session, at_time, time.Before. cbn [session clock].
    rewrite Hs. by destruct (Z.ltb_spec t (expiresAt s)); [lia|].
Qed.

(** X8. When [getSession] has to ask upstream and succeeds, it has sent
    the consent request and then the crumb request carrying the cookie of
    the session it returns, nothing else; that session is the one now
    cached, its cookie is not empty, its crumb is neither empty nor the
    word null, and it expires thirty minutes after the crumb arrived. *)
Theorem getSession_fresh_session (w w1 : World) (s : yahooSession) :
  live_session w = None →
  getSession w = (Ok s, w1) →
  new_events w w1 = [Upstream GetConsent; Upstream (GetCrumb (cookie s))]
  ∧ session w1 = Some s
  ∧ cache w1 = cache w
  ∧ cookie s ≠ "" ∧ crumb s ≠ "" ∧ crumb s ≠ "null"
  ∧ expiresAt s = clock w1 + 30 * time.Minute.
Proof.
  intros Hlive. rewrite (getSession_refresh _ Hlive).
  destruct (fetchNewSession w) as [[s'|e] w2] eqn:Hnew; [|discriminate].
  intros [= <- <-].
  apply fetchNewSession_Ok in Hnew as (S & _ & Hk & Hc1 & Hc2 & Hexp).
  split.
  { apply new_events_app. destruct S as (Ht & _ & _). exact Ht. }
  split; [reflexivity|]. split; [by destruct S as (_ & Hc & _)|]. done.
Qed.

(** X9. After [invalidateSession] the next [getSession] always goes
    upstream, whatever session was cached before: the consent request is
    the first thing it does. *)
Theorem invalidate_forces_exchange (w : World) :
  session (invalidateSession w) = None
  ∧ ∃ more,
      new_events (invalidateSession w)
        (getSession (invalidateSession w)).2
      = Upstream GetConsent :: more.
Proof.
  split; [reflexivity|].
  rewrite (getSession_refresh (invalidateSession w) eq_refl).
  assert (∃ more, new_events (invalidateSession w)
                    (fetchNewSession (invalidateSession w)).2
                  = Upstream GetConsent :: more) as [more Hmore].
  { generalize (invalidateSession w). intros v. unfold fetchNewSession.
    pose proof (Do_steps GetConsent v) as S1.
    destruct (Do GetConsent v) as [resp va]. cbn [snd] in S1.
    assert (∃ more, new_events v va = Upstream GetConsent :: more) as Hone
      by (exists []; by apply steps_new_events).
    destruct resp as [e|st cookies body]; [exact Hone|].
    destruct (String.eqb (extractCookies cookies) ""); [exact Hone|].
    pose proof (Do_steps (GetCrumb (extractCookies cookies)) va) as S2.
    destruct (Do (GetCrumb (extractCookies cookies)) va) as [resp2 vb].
    cbn [snd] in S2.
    assert (∃ more, new_events v vb = Upstream GetConsent :: more) as Htwo.
    { eexists. apply steps_new_events.
      exact (steps_trans _ _ _ _ _ S1 S2). }
    destruct resp2 as [e|st2 c2 [crumbBytes|e]]; try exact Htwo.
    destruct (_ || _); exact Htwo. }
  exists more.
  destruct (fetchNewSession (invalidateSession w)) as [[s|e] w1];
    exact Hmore.
Qed.

(** ** yahoo.go: quote requests *)

Lemma count_events_app (p : Event → bool) (a b : list Event) :
  count_events p (a ++ b) = (count_events p a + count_events p b)%nat.
Proof. unfold count_events. by rewrite List.filter_app, length_app. Qed.

Lemma count_events_session (evs : list Event) :
  Forall (λ e, is_session_request e = true) evs →
  count_events is_any_chart_request evs = 0%nat
  ∧ count_events is_invalidate evs = 0%nat
  ∧ count_events is_upstream evs = length evs
  ∧ ∀ X, count_events (is_chart_request X) evs = 0%nat.
Proof.
  unfold count_events. induction 1 as [|e evs He _ IH]; [done|].
  destruct IH as (IH1 & IH2 & IH3 & IH4).
  destruct e as [[| |]| | |]; try discriminate; cbn [List.filter
    is_any_chart_request is_invalidate is_upstream is_chart_request length];
    repeat split; try done; by rewrite IH3.
Qed.

Lemma fetchNewSession_at_most_two (w : World) :
  ∃ evs, steps w (fetchNewSession w).2 evs
         ∧ Forall (λ e, is_session_request e = true) evs
         ∧ (length evs ≤ 2)%nat.
Proof.
  unfold fetchNewSession.
  pose proof (Do_steps GetConsent w) as S1.
  destruct (Do GetConsent w) as [resp w1]. cbn [snd] in S1.
  assert (∃ evs, steps w w1 evs
                 ∧ Forall (λ e, is_session_request e = true) evs
                 ∧ (length evs ≤ 2)%nat) as Stop1.
  { eexists. split; [exact S1|]. split; [by repeat constructor|]. cbn. lia. }
  destruct resp as [e|st cookies body]; [exact Stop1|].
  destruct (String.eqb (extractCookies cookies) ""); [exact Stop1|].
  pose proof (Do_steps (GetCrumb (extractCookies cookies)) w1) as S2.
  destruct (Do (GetCrumb (extractCookies cookies)) w1) as [resp2 w2].
  cbn [snd] in S2.
  assert (∃ evs, steps w w2 evs
                 ∧ Forall (λ e, is_session_request e = true) evs
                 ∧ (length evs ≤ 2)%nat) as Stop2.
  { eexists. split; [exact (steps_trans _ _ _ _ _ S1 S2)|].
    split; [by repeat constructor|]. cbn. lia. }
  destruct resp2 as [e|st2 c2 [crumbBytes|e]]; try exact Stop2.
  destruct (_ || _); exact Stop2.
Qed.

Lemma getSession_at_most_two (w : World) :
  ∃ evs, steps w (getSession w).2 evs
         ∧ Forall (λ e, is_session_request e = true) evs
         ∧ (length evs ≤ 2)%nat.
Proof.
  destruct (live_session w) as [s|] eqn:Hlive.
  - rewrite (getSession_live _ _ Hlive). exists [].
    split; [apply steps_refl|]. split; [constructor|]. cbn. lia.
  - rewrite (getSession_refresh _ Hlive).
    destruct (fetchNewSession_at_most_two w) as (evs & S & F & Hlen).
    destruct (fetchNewSession w) as [[sess|e] w1]; cbn [snd] in *.
    + exists evs. split; [|done].
      rewrite <- (app_nil_r evs).
      exact (steps_trans _ _ _ _ _ S (with_session_steps _ _)).
    + by exists evs.
Qed.

Section RequestFacts.

Variable Unmarshal : string → Outcome chartPayload.

(** X10. [fetchOne] sends exactly one request, for its symbol, with the
    cookie and crumb of the session it was given, and touches neither the
    cache nor the cached session.  It returns a quote only when the answer
    has status 200 and a readable body, and the price of that quote is not
    zero; status 401 and 403 give the authorization error whatever the
    body. *)
Theorem fetchOne_one_request (symbol : string) (sess : yahooSession)
    (w : World) :
  let res := fetchOne Unmarshal symbol sess w in
  new_events w res.2 =
    [Upstream (GetChart symbol (crumb sess) (cookie sess))]
  ∧ cache res.2 = cache w
  ∧ session res.2 = session w
  ∧ (∀ q, res.1 = Ok q →
          float64_is_zero (Price q) = false
          ∧ ∃ latency cookies body rest,
              upstream w =
              (latency, HTTPResponse 200 cookies (Ok body)) :: rest)
  ∧ (∀ latency status cookies body rest,
       upstream w = (latency, HTTPResponse status cookies body) :: rest →
       status = 401 ∨ status = 403 →
       res.1 = Err ("auth error: HTTP " +:+ strconv.Itoa status)).
Proof.
  cbn zeta. pose proof (fetchOne_steps Unmarshal symbol sess w) as S.
  split; [by apply steps_new_events|].
  split; [by destruct S as (_ & Hc & _)|].
  split; [by rewrite fetchOne_world, Do_session|]. split.
  - intros q. unfold fetchOne, Do.
    destruct (upstream w) as [|[latency resp] rest]; [discriminate|].
    cbn [fst]. destruct resp as [e|status cookies body]; [discriminate|].
    destruct ((status =? 401) || (status =? 403)); [discriminate|].
    destruct (Z.eqb_spec status 200) as [->|]; [|discriminate].
    cbn [negb]. destruct body as [b|e]; [|discriminate].
    intros Hq. split; [by eapply parseChartResponse_nonzero|]. eauto.
  - intros latency status cookies body rest Hup Hcode.
    by rewrite (fetchOne_auth Unmarshal symbol sess w _ _ _ _ _ Hup Hcode).
Qed.

Lemma fetchOne_Ok_nonzero (symbol : string) (sess : yahooSession)
    (w : World) (q : Quote) :
  (fetchOne Unmarshal symbol sess w).1 = Ok q →
  float64_is_zero (Price q) = false.
Proof.
  unfold fetchOne. destruct (Do _ w) as [resp w1]. cbn [fst].
  destruct resp as [e|status cookies body]; [discriminate|].
  destruct ((status =? 401) || (status =? 403)); [discriminate|].
  destruct (negb (status =? 200)); [discriminate|].
  destruct body as [b|e]; [|discriminate].
  apply parseChartResponse_nonzero.
Qed.

Lemma prices_nonzero_insert (quotes : gmap string Quote) (X : string)
    (q : Quote) :
  prices_nonzero quotes → float64_is_zero (Price q) = false →
  prices_nonzero (<[X := q]> quotes).
Proof.
  intros Hq Hz Y q' HY. destruct (decide (X = Y)) as [->|Hne].
  - rewrite lookup_insert_eq in HY. by injection HY as <-.
  - rewrite lookup_insert_ne in HY by done. by eapply Hq.
Qed.

(** The loop of [fetchBatch]: how much it sends, and what it puts into
    the map. *)
Lemma fetchBatch_loop_bounds (symbols : list string) (sess : yahooSession)
    (quotes : gmap string Quote) (w : World) :
  let res := fetchBatch_loop Unmarshal symbols sess quotes w in
  ∃ evs,
    steps w res.2 evs
    ∧ (count_events is_any_chart_request evs ≤ 2 * length symbols)%nat
    ∧ (count_events is_invalidate evs ≤ length symbols)%nat
    ∧ (count_events is_upstream evs ≤ 4 * length symbols)%nat
    ∧ (prices_nonzero quotes → prices_nonzero res.1.1)
    ∧ (res.1.2 = None →
       ∀ X, (length (List.filter (String.eqb X) symbols)
             ≤ count_events (is_chart_request X) evs)%nat).
Proof.
  revert sess quotes w.
  induction symbols as [|sym rest IH]; intros sess quotes w; cbn zeta.
  { exists []. cbn. repeat split; try done; try lia. apply steps_refl. }
  cbn [fetchBatch_loop].
  pose proof (fetchOne_steps Unmarshal sym sess w) as S1.
  pose proof (fetchOne_Ok_nonzero sym sess w) as Hz1.
  destruct (fetchOne Unmarshal sym sess w) as [r w1]. cbn [fst snd] in *.
  assert (∀ X c k (n : nat),
            (length (List.filter (String.eqb X) rest) ≤ n)%nat →
            (length (List.filter (String.eqb X) (sym :: rest))
             ≤ count_events (is_chart_request X) [Upstream (GetChart sym c k)]
               + n)%nat) as Hocc.
  { intros X c k n Hn. unfold count_events.
    cbn [List.filter is_chart_request].
    rewrite (String.eqb_sym X sym).
    destruct (String.eqb sym X); cbn [length]; lia. }
  destruct r as [q|e].
  - destruct (IH sess (<[sym := q]> quotes) w1)
      as (evs & S & Hc & Hi & Hu & Hp & Ho).
    eexists. split; [exact (steps_trans _ _ _ _ _ S1 S)|].
    rewrite !count_events_app. cbn [length].
    split; [unfold count_events at 1; cbn; lia|].
    split; [unfold count_events at 1; cbn; lia|].
    split; [unfold count_events at 1; cbn; lia|]. split.
    + intros Hq. apply Hp, prices_nonzero_insert; [done|]. by apply Hz1.
    + intros Herr X. rewrite count_events_app. apply Hocc. by apply Ho.
  - destruct (isAuthError (Some e)).
    + pose proof (invalidateSession_steps w1) as S2.
      destruct (getSession_at_most_two (invalidateSession w1))
        as (ev3 & S3 & F3 & L3).
      destruct (count_events_session ev3 F3) as (C3a & C3b & C3c & C3d).
      destruct (getSession (invalidateSession w1)) as [rs w3].
      cbn [snd] in S3.
      pose proof (steps_trans _ _ _ _ _ (steps_trans _ _ _ _ _ S1 S2) S3)
        as S13.
      destruct rs as [sess'|e'].
      * pose proof (fetchOne_steps Unmarshal sym sess' w3) as S4.
        pose proof (fetchOne_Ok_nonzero sym sess' w3) as Hz4.
        destruct (fetchOne Unmarshal sym sess' w3) as [r' w4].
        cbn [fst snd] in *.
        pose proof (steps_trans _ _ _ _ _ S13 S4) as S14.
        destruct r' as [q|e''].
        -- destruct (IH sess' (<[sym := q]> quotes) w4)
             as (evs & S & Hc & Hi & Hu & Hp & Ho).
           eexists. split; [exact (steps_trans _ _ _ _ _ S14 S)|].
           rewrite !count_events_app, C3a, C3b, C3c. cbn [length].
           split; [unfold count_events; cbn; fold (count_events
                     is_any_chart_request evs); lia|].
           split; [unfold count_events; cbn; fold (count_events
                     is_invalidate evs); lia|].
           split; [unfold count_events; cbn; fold (count_events
                     is_upstream evs); lia|]. split.
           ++ intros Hq. apply Hp, prices_nonzero_insert; [done|].
              by apply Hz4.
           ++ intros Herr X. specialize (Ho Herr X).
              pose proof (Hocc X (crumb sess) (cookie sess) _ Ho) as Hx.
              rewrite !count_events_app, C3d. lia.
        -- eexists. split; [exact S14|]. cbn [fst snd].
           rewrite !count_events_app, C3a, C3b, C3c. cbn [length].
           split; [unfold count_events; cbn; lia|].
           split; [unfold count_events; cbn; lia|].
           split; [unfold count_events; cbn; lia|]. done.
      * eexists. split; [exact S13|]. cbn [fst snd].
        rewrite !count_events_app, C3a, C3b, C3c. cbn [length].
        split; [unfold count_events; cbn; lia|].
        split; [unfold count_events; cbn; lia|].
        split; [unfold count_events; cbn; lia|]. done.
    + eexists. split; [exact S1|]. cbn [fst snd length].
      split; [unfold count_events; cbn; lia|].
      split; [unfold count_events; cbn; lia|].
      split; [unfold count_events; cbn; lia|]. done.
Qed.

(** [fetchBatch]: the same after the session was obtained. *)
Lemma fetchBatch_bounds (symbols : list string) (w : World) :
  let res := fetchBatch Unmarshal symbols w in
  ∃ evs,
    steps w res.2 evs
    ∧ (count_events is_any_chart_request evs ≤ 2 * length symbols)%nat
    ∧ (count_events is_invalidate evs ≤ length symbols)%nat
    ∧ (count_events is_upstream evs ≤ 2 + 4 * length symbols)%nat
    ∧ prices_nonzero res.1.1
    ∧ (res.1.2 = None →
       ∀ X, (length (List.filter (String.eqb X) symbols)
             ≤ count_events (is_chart_request X) evs)%nat).
Proof.
  cbn zeta. unfold fetchBatch.
  destruct (getSession_at_most_two w) as (ev0 & S0 & F0 & L0).
  destruct (count_events_session ev0 F0) as (C0a & C0b & C0c & C0d).
  destruct (getSession w) as [[sess|e] w1]; cbn [snd] in S0.
  - destruct (fetchBatch_loop_bounds symbols sess ∅ w1)
      as (evs & S & Hc & Hi & Hu & Hp & Ho).
    exists (ev0 ++ evs). split; [exact (steps_trans _ _ _ _ _ S0 S)|].
    rewrite !count_events_app, C0a, C0b, C0c.
    split; [lia|]. split; [lia|]. split; [lia|]. split.
    + apply Hp. intros X q HX. by rewrite lookup_empty in HX.
    + intros Herr X. rewrite count_events_app, C0d. by apply Ho.
  - exists ev0. cbn [fst snd]. split; [exact S0|].
    rewrite C0a, C0b, C0c. split; [lia|]. split; [lia|]. split; [lia|].
    split; [|done]. intros X q HX. by rewrite lookup_empty in HX.
Qed.

(** X11. For a batch of [n] symbols [fetchBatch] sends at most [2n]
    quote requests and at most [2 + 4n] requests in all, and invalidates
    the session at most [n] times; it never writes the cache. *)
Theorem fetchBatch_request_bound (symbols : list string) (w : World) :
  let res := fetchBatch Unmarshal symbols w in
  let evs := new_events w res.2 in
  (count_events is_any_chart_request evs ≤ 2 * length symbols)%nat
  ∧ (count_events is_upstream evs ≤ 2 + 4 * length symbols)%nat
  ∧ (count_events is_invalidate evs ≤ length symbols)%nat
  ∧ cache res.2 = cache w.
Proof.
  cbn zeta.
  destruct (fetchBatch_bounds symbols w) as (evs & S & Hc & Hi & Hu & _).
  rewrite (steps_new_events _ _ _ S). by destruct S as (_ & ? & _).
Qed.

(** X12. The map [fetchBatch] returns has keys among the symbols of the
    batch only and holds no quote with a zero price; when it returns no
    error, every symbol of the batch is a key. *)
Theorem fetchBatch_keys_and_prices (symbols : list string) (w : World) :
  let res := fetchBatch Unmarshal symbols w in
  (∀ X, is_Some (res.1.1 !! X) → X ∈ symbols)
  ∧ prices_nonzero res.1.1
  ∧ (res.1.2 = None → ∀ X, X ∈ symbols → is_Some (res.1.1 !! X)).
Proof.
  cbn zeta.
  destruct (fetchBatch_spec Unmarshal symbols w)
    as (evs & _ & _ & Hout & Hkeep & Hall).
  destruct (fetchBatch_bounds symbols w) as (_ & _ & _ & _ & _ & Hp & _).
  split; [|by split].
  intros X [q Hq]. destruct (decide (X ∈ symbols)) as [|Hnin]; [done|].
  rewrite (Hkeep X (Hout X Hnin)) in Hq. discriminate.
Qed.

End RequestFacts.

(** ** yahoo.go: the loop of [fetchBatch] after an authorization failure *)

Section RetryFacts.

Variable Unmarshal : string → Outcome chartPayload.

(** C5, as the code has it.  The request for [sym] is answered with
    status 401 or 403.  The loop of [fetchBatch] then drops the cached
    session, once, and calls [getSession], which finds no session and
    sends session requests only.
    - When that exchange fails, [sym] is not sent again: the batch ends
      with the error of the refresh, [sym] has been requested once, and no
      session is cached.
    - When it succeeds, it was one consent request and one crumb request,
      the session it made is the cached one and expires thirty minutes
      after the crumb arrived, and [sym] is sent once more, with the
      cookie and crumb of that session.  A quote lets the loop go on with
      the new session.  A failure of this second request, a 401 or 403
      among them, ends the whole batch with an error naming [sym]: the
      five events for [sym] are all the loop has done, so there is no
      second refresh and no symbol after [sym] is requested. *)
Theorem auth_failure_handling (sym : string) (rest : list string)
    (sess : yahooSession) (quotes : gmap string Quote) (w : World)
    (l1 : N) (code : Z) (c1 : list Cookie) (b1 : Outcome string)
    (more : list (N * Response)) :
  upstream w = (l1, HTTPResponse code c1 b1) :: more →
  code = 401 ∨ code = 403 →
  let w2 :=
    invalidateSession
      (answered (GetChart sym (crumb sess) (cookie sess)) l1 more w) in
  let exchange := getSession w2 in
  let res := fetchBatch_loop Unmarshal (sym :: rest) sess quotes w in
  new_events w w2 =
    [Upstream (GetChart sym (crumb sess) (cookie sess)); Invalidate]
  ∧ session w2 = None
  ∧ Forall (λ e, is_session_request e = true) (new_events w2 exchange.2)
  ∧ match exchange.1 with
    | Err e =>
        res = ((quotes, Some ("refresh yahoo session: " +:+ e)), exchange.2)
        ∧ chart_requests sym (new_events w res.2) = 1%nat
        ∧ session res.2 = None
    | Ok sess' =>
        let retry := fetchOne Unmarshal sym sess' exchange.2 in
        new_events w2 exchange.2 =
          [Upstream GetConsent; Upstream (GetCrumb (cookie sess'))]
        ∧ session exchange.2 = Some sess'
        ∧ expiresAt sess' = time.Add (clock exchange.2) sessionTTL
        ∧ new_events exchange.2 retry.2 =
          [Upstream (GetChart sym (crumb sess') (cookie sess'))]
        ∧ match retry.1 with
          | Ok q =>
              res = fetchBatch_loop Unmarshal rest sess' (<[sym := q]> quotes)
                      retry.2
          | Err e =>
              res = ((quotes, Some ("fetch " +:+ sym +:+ ": " +:+ e)),
                     retry.2)
              ∧ new_events w res.2 =
                [Upstream (GetChart sym (crumb sess) (cookie sess));
                 Invalidate; Upstream GetConsent;
                 Upstream (GetCrumb (cookie sess'));
                 Upstream (GetChart sym (crumb sess') (cookie sess'))]
              ∧ session res.2 = Some sess'
          end
        ∧ (∀ l4 code2 c4 b4 more',
             upstream exchange.2 = (l4, HTTPResponse code2 c4 b4) :: more' →
             code2 = 401 ∨ code2 = 403 →
             retry.1 = Err ("auth error: HTTP " +:+ strconv.Itoa code2))
    end.
Proof.
  intros Hup Hcode. cbn zeta.
  set (w1 := answered (GetChart sym (crumb sess) (cookie sess)) l1 more w).
  set (w2 := invalidateSession w1).
  assert (fetchBatch_loop Unmarshal (sym :: rest) sess quotes w =
          match (getSession w2).1 with
          | Err e' =>
              ((quotes, Some ("refresh yahoo session: " +:+ e')),
               (getSession w2).2)
          | Ok sess' =>
              match (fetchOne Unmarshal sym sess' (getSession w2).2).1 with
              | Err e'' =>
                  ((quotes, Some ("fetch " +:+ sym +:+ ": " +:+ e'')),
                   (fetchOne Unmarshal sym sess' (getSession w2).2).2)
              | Ok q =>
                  fetchBatch_loop Unmarshal rest sess' (<[sym := q]> quotes)
                    (fetchOne Unmarshal sym sess' (getSession w2).2).2
              end
          end) as Hloop.
  { cbn [fetchBatch_loop].
    rewrite (fetchOne_auth _ _ _ _ _ _ _ _ _ Hup Hcode), isAuthError_auth.
    fold w1. fold w2.
    destruct (getSession w2) as [[s|e] w3]; cbn [fst snd]; [|done].
    by destruct (fetchOne Unmarshal sym s w3) as [[q|e] w4]. }
  assert (steps w w2
            [Upstream (GetChart sym (crumb sess) (cookie sess)); Invalidate])
    as S12.
  { pose proof (Do_steps (GetChart sym (crumb sess) (cookie sess)) w) as S1.
    rewrite (Do_answered _ _ _ _ _ Hup) in S1. cbn [snd] in S1.
    exact (steps_trans _ _ _ _ _ S1 (invalidateSession_steps _)). }
  destruct (getSession_steps w2) as (evs & S & F).
  split; [exact (steps_new_events _ _ _ S12)|].
  split; [reflexivity|].
  split; [by rewrite (steps_new_events _ _ _ S)|].
  pose proof (getSession_refresh w2 eq_refl) as Hget.
  pose proof (getSession_Err_session w2) as Hkeep.
  destruct (fetchNewSession w2) as [[s'|e] w3] eqn:Hnew.
  - rewrite Hget in *. cbn [fst snd] in *.
    apply fetchNewSession_Ok in Hnew as (S3 & _ & _ & _ & _ & Hexp).
    pose proof (fetchOne_steps Unmarshal sym s' (with_session (Some s') w3))
      as S4.
    assert (evs = [Upstream GetConsent; Upstream (GetCrumb (cookie s'))])
      as ->.
    { rewrite <- (steps_new_events _ _ _ S).
      apply steps_new_events. rewrite <- (app_nil_r [_; _]).
      exact (steps_trans _ _ _ _ _ S3 (with_session_steps _ _)). }
    split; [exact (steps_new_events _ _ _ S)|].
    split; [reflexivity|]. split; [exact Hexp|].
    split; [exact (steps_new_events _ _ _ S4)|]. split.
    + destruct (fetchOne Unmarshal sym s' (with_session (Some s') w3))
        as [[q|e] w4] eqn:Hretry; cbn [fst snd] in *; [exact Hloop|].
      split; [exact Hloop|]. rewrite Hloop. cbn [snd]. split.
      * exact (steps_new_events _ _ _
                 (steps_trans _ _ _ _ _ (steps_trans _ _ _ _ _ S12 S) S4)).
      * replace w4
          with (fetchOne Unmarshal sym s' (with_session (Some s') w3)).2
          by (by rewrite Hretry).
        by rewrite fetchOne_world, Do_session.
    + intros l4 code2 c4 b4 more' Hup2 Hcode2.
      by rewrite (fetchOne_auth _ _ _ _ _ _ _ _ _ Hup2 Hcode2).
  - rewrite Hget in *. cbn [fst snd] in *.
    split; [exact Hloop|]. rewrite Hloop. cbn [snd]. split.
    + rewrite (steps_new_events _ _ _ (steps_trans _ _ _ _ _ S12 S)).
      rewrite !chart_requests_app, (chart_requests_session sym evs F).
      unfold chart_requests. cbn. by rewrite String.eqb_refl.
    + exact (Hkeep e eq_refl).
Qed.

End RetryFacts.

(** The first request for MSFT is answered 401, the exchange gives a new
    session, the second request for MSFT is answered 403. *)
Lemma auth_failure_handling_witness :
  let w := samples.warm 0 [samples.unauthorized; samples.consent2;
                           samples.crumbOK2; samples.forbidden;
                           samples.chartOK "TSLA"] in
  let res := fetchBatch_loop samples.Unmarshal ["MSFT"; "TSLA"]
               samples.sess1 ∅ w in
  upstream w = (samples.ms, HTTPResponse 401 [] (Ok ""))
               :: [samples.consent2; samples.crumbOK2; samples.forbidden;
                   samples.chartOK "TSLA"]
  ∧ (401 = 401 ∨ 401 = 403)
  ∧ res.1 = (∅, Some "fetch MSFT: auth error: HTTP 403")
  ∧ new_events w res.2 =
    [Upstream (GetChart "MSFT" "mXyZ" "A3=d=AQAB"); Invalidate;
     Upstream GetConsent; Upstream (GetCrumb "A3=d=NEXT");
     Upstream (GetChart "MSFT" "qRsT" "A3=d=NEXT")].
Proof.
  cbn zeta.
  assert (401 = 401 ∨ 401 = 403) as H1 by (by left).
  split; [reflexivity|]. split; [exact H1|].
  pose proof (auth_failure_handling samples.Unmarshal "MSFT" ["TSLA"]
                samples.sess1 ∅
                (samples.warm 0 [samples.unauthorized; samples.consent2;
                                 samples.crumbOK2; samples.forbidden;
                                 samples.chartOK "TSLA"])
                samples.ms 401 [] (Ok "")
                [samples.consent2; samples.crumbOK2; samples.forbidden;
                 samples.chartOK "TSLA"] eq_refl H1) as H.
  cbn zeta in H. destruct H as (_ & _ & _ & H).
  destruct (getSession _) as [[s|e] w3] eqn:Hex in H;
    vm_compute in Hex; [|discriminate].
  injection Hex as <- <-. cbn [fst snd] in H.
  destruct H as (_ & _ & _ & _ & H & _).
  destruct (fetchOne _ _ _ _) as [[q|e] w4] eqn:Hretry in H;
    vm_compute in Hretry; [discriminate|].
  injection Hretry as <- <-. cbn [fst snd] in H.
  destruct H as (Hres & Hev & _). split.
  - rewrite Hres. reflexivity.
  - rewrite Hev. reflexivity.
Defined.

(** Two runs that end early.  In the first the second request for MSFT
    is answered 403: the batch ends with an error, and TSLA, whose answer
    was ready, is never requested.  In the second the consent endpoint
    sets no cookie after the 401: MSFT is not sent a second time, although
    an answer for it was ready. *)
Lemma auth_failure_counterexample :
  let w := samples.warm (16 * time.Minute)
             [samples.unauthorized; samples.consent2; samples.crumbOK2;
              samples.forbidden; samples.chartOK "TSLA"] in
  let res := GetQuotes samples.Unmarshal ["MSFT"; "TSLA"] w in
  let v := samples.warm (16 * time.Minute)
             [samples.unauthorized; samples.noCookie;
              samples.chartOK "MSFT"] in
  let res' := GetQuotes samples.Unmarshal ["MSFT"] v in
  res.1.2 = Some "fetch MSFT: auth error: HTTP 403"
  ∧ res.1.1 !! "TSLA" = None
  ∧ chart_requests "TSLA" (new_events w res.2) = 0%nat
  ∧ upstream res.2 = [samples.chartOK "TSLA"]
  ∧ res'.1.2 =
    Some "refresh yahoo session: no cookie returned from Yahoo consent endpoint"
  ∧ chart_requests "MSFT" (new_events v res'.2) = 1%nat
  ∧ upstream res'.2 = [samples.chartOK "MSFT"].
Proof. vm_compute. repeat split; reflexivity. Qed.

Lemma Contains_cons (c : ascii) (s substr : string) :
  strings.Contains s substr = true →
  strings.Contains (String c s) substr = true.
Proof.
  intros H. cbn [strings.Contains].
  destruct (String.prefix substr (String c s)); [reflexivity | exact H].
Qed.

Lemma Contains_append (p s substr : string) :
  strings.Contains s substr = true →
  strings.Contains (p +:+ s) substr = true.
Proof.
  intros H. induction p as [|c p IH]; [exact H|].
  cbn [String.append]. by apply Contains_cons.
Qed.

(** X13. Wrapping keeps the classification: an error that [isAuthError]
    recognises is still recognised after [fmt.Errorf] has put a context
    in front of it, as [fetchBatch] does with the name of the symbol. *)
Theorem isAuthError_wrapped (context e : string) :
  isAuthError (Some e) = true →
  isAuthError (Some (context +:+ e)) = true.
Proof.
  unfold isAuthError. rewrite !orb_true_iff.
  intros [[H|H]|H]; rewrite (Contains_append context _ _ H);
    rewrite ?orb_true_r; auto.
Qed.

(** ** yahoo.go: [GetQuotes] *)

Section GetQuotesFacts.

Variable Unmarshal : string → Outcome chartPayload.

(** [GetQuotes] in terms of the two results of [GetMulti] and of
    [fetchBatch] on the missing symbols. *)
Lemma GetQuotes_unfold (symbols : list string) (w : World) :
  GetQuotes Unmarshal symbols w =
  let found := (GetMulti (cache w) (clock w) symbols).1 in
  let missing := (GetMulti (cache w) (clock w) symbols).2 in
  match missing with
  | [] => ((found, None), w)
  | _ =>
      let batch := fetchBatch Unmarshal missing w in
      match batch.1.2 with
      | Some e => ((found, Some e), batch.2)
      | None =>
          ((batch.1.1 ∪ found, None),
           with_cache (SetMulti (cache batch.2) (clock batch.2) batch.1.1)
             batch.2)
      end
  end.
Proof.
  unfold GetQuotes. destruct symbols as [|s0 symbols']; [reflexivity|].
  cbn [length Nat.eqb].
  destruct (GetMulti (cache w) (clock w) (s0 :: symbols')) as [found missing].
  cbn [fst snd]. destruct missing as [|m0 missing']; [reflexivity|].
  cbn [length Nat.eqb].
  by destruct (fetchBatch Unmarshal (m0 :: missing') w) as [[fetched [e|]] w1].
Qed.

Lemma GetQuotes_fresh (symbols : list string) (w : World) :
  (∀ X, X ∈ symbols → is_Some (Get (cache w) (clock w) X)) →
  GetQuotes Unmarshal symbols w =
  (((GetMulti (cache w) (clock w) symbols).1, None), w).
Proof.
  intros Hall. rewrite GetQuotes_unfold. cbn zeta.
  assert ((GetMulti (cache w) (clock w) symbols).2 = []) as ->; [|done].
  rewrite GetMulti_missing.
  induction symbols as [|s rest IH]; [reflexivity|].
  cbn [List.filter]. unfold stale at 1.
  destruct (Hall s) as [q ->]; [left|]. apply IH.
  intros X HX. apply Hall. by right.
Qed.

(** X14. A request whose symbols are all fresh in the cache is answered
    from the cache alone: [GetQuotes] returns the cached quotes with no
    error and leaves the world as it was, so it sends nothing and does
    not even ask for a session. *)
Theorem GetQuotes_served_from_cache (symbols : list string) (w : World) :
  (∀ X, X ∈ symbols → is_Some (Get (cache w) (clock w) X)) →
  (GetQuotes Unmarshal symbols w).2 = w
  ∧ (GetQuotes Unmarshal symbols w).1.2 = None
  ∧ ∀ X, X ∈ symbols →
         (GetQuotes Unmarshal symbols w).1.1 !! X
         = Get (cache w) (clock w) X.
Proof.
  intros Hall. rewrite (GetQuotes_fresh symbols w Hall). cbn [fst snd].
  split; [done|]. split; [done|].
  intros X HX. by rewrite GetMulti_found, decide_True.
Qed.

(** X15. The quotes a successful call has fetched are served from the
    cache to a later call made within the time to live: when the clock
    reads [t], at most the time to live after the first call wrote them,
    asking for the symbols the first call had found missing returns the
    same quotes with no error, changes nothing and sends nothing. *)
Theorem GetQuotes_then_cached (symbols : list string) (w : World)
    (t : time.Time) :
  isDuration (ttl (cache w)) →
  (GetQuotes Unmarshal symbols w).1.2 = None →
  let first := GetQuotes Unmarshal symbols w in
  let missing := (GetMulti (cache w) (clock w) symbols).2 in
  t - clock first.2 ≤ ttl (cache w) →
  let again := GetQuotes Unmarshal missing (at_time t first.2) in
  again.2 = at_time t first.2
  ∧ again.1.2 = None
  ∧ ∀ X, X ∈ missing → again.1.1 !! X = first.1.1 !! X
                       ∧ is_Some (first.1.1 !! X).
Proof.
  intros [Hmin _] Herr. cbn zeta. intros Ht.
  destruct (GetQuotes_spec Unmarshal symbols w)
    as (fetched & evs & _ & _ & _ & _ & _ & Hcases).
  destruct Hcases as [(_ & Hq & Hc & Hall) | ([e He] & _)]; [|congruence].
  assert (∀ X, X ∈ (GetMulti (cache w) (clock w) symbols).2 →
               Get (cache (GetQuotes Unmarshal symbols w).2) t X
               = (GetQuotes Unmarshal symbols w).1.1 !! X
               ∧ is_Some ((GetQuotes Unmarshal symbols w).1.1 !! X))
    as Hfresh.
  { intros X HX. destruct (Hall X HX) as [q Hf].
    rewrite Hq, (lookup_union_Some_l _ _ _ _ Hf). split; [|eauto].
    apply Get_Some.
    exists {| quote := q;
              fetchedAt := clock (GetQuotes Unmarshal symbols w).2 |}.
    split; [by rewrite Hc, SetMulti_lookup, Hf|]. split; [done|].
    cbn [fetchedAt]. rewrite Hc. cbn [ttl SetMulti]. unfold time.Since.
    by apply Sub_le. }
  rewrite GetQuotes_fresh.
  - cbn [fst snd at_time cache clock]. split; [done|]. split; [done|].
    intros X HX. rewrite GetMulti_found, decide_True by done.
    by apply Hfresh.
  - intros X HX. cbn [at_time cache clock].
    destruct (Hfresh X HX) as [-> ?]. done.
Qed.

(** X16. [GetQuotes] keeps the time to live of the cache, never removes
    a cache entry, never turns the clock back, and adds to the trace only
    requests and invalidations: no log line, no notification. *)
Theorem GetQuotes_keeps (symbols : list string) (w : World) :
  let res := GetQuotes Unmarshal symbols w in
  ttl (cache res.2) = ttl (cache w)
  ∧ dom (items (cache w)) ⊆ dom (items (cache res.2))
  ∧ clock w ≤ clock res.2
  ∧ trace res.2 = trace w ++ new_events w res.2
  ∧ Forall (λ e, is_client_event e = true) (new_events w res.2).
Proof.
  cbn zeta.
  destruct (GetQuotes_spec Unmarshal symbols w)
    as (fetched & evs & Ht & Hk & F & _ & _ & Hcases).
  rewrite (new_events_app _ _ _ Ht).
  assert (ttl (cache (GetQuotes Unmarshal symbols w).2) = ttl (cache w)
          ∧ dom (items (cache w))
            ⊆ dom (items (cache (GetQuotes Unmarshal symbols w).2)))
    as [Httl Hdom].
  { destruct Hcases as [(_ & _ & -> & _) | (_ & _ & -> & _)]; [|done].
    split; [reflexivity|]. intros X. rewrite !elem_of_dom, SetMulti_lookup.
    intros [item Hitem]. destruct (fetched !! X); eauto. }
  done.
Qed.

(** X17. Zero prices stay out: if no quote in the cache has a zero
    price, then no quote [GetQuotes] returns has one, and none is in the
    cache afterwards. *)
Theorem GetQuotes_prices_nonzero (symbols : list string) (w : World) :
  cache_prices_nonzero (cache w) →
  prices_nonzero (GetQuotes Unmarshal symbols w).1.1
  ∧ cache_prices_nonzero (cache (GetQuotes Unmarshal symbols w).2).
Proof.
  intros Hcache. rewrite GetQuotes_unfold. cbn zeta.
  assert (prices_nonzero (GetMulti (cache w) (clock w) symbols).1) as Hfound.
  { intros X q. rewrite GetMulti_found. case_decide; [|discriminate].
    intros HX. apply Get_Some in HX as (item & Hitem & <- & _).
    by eapply Hcache. }
  destruct ((GetMulti (cache w) (clock w) symbols).2) as [|m0 missing'].
  { by split. }
  destruct (fetchBatch_bounds Unmarshal (m0 :: missing') w)
    as (evs & (_ & Hc & _) & _ & _ & _ & Hp & _).
  destruct (fetchBatch Unmarshal (m0 :: missing') w) as [[fetched err] w1].
  cbn [fst snd] in *.
  destruct err as [e|]; cbn [fst snd cache with_cache].
  - split; [done|]. by rewrite Hc.
  - split.
    + intros X q HX. apply lookup_union_Some_raw in HX as [HX | [_ HX]].
      * by eapply Hp.
      * by eapply Hfound.
    + intros X item. rewrite SetMulti_lookup, Hc.
      destruct (fetched !! X) as [q|] eqn:Hf.
      * intros [= <-]. cbn [quote]. by eapply Hp.
      * intros HX. by eapply Hcache.
Qed.

Lemma filter_eqb_stale (pc : PriceCache) (now : time.Time) (X : string)
    (symbols : list string) :
  Get pc now X = None →
  List.filter (String.eqb X) (List.filter (stale pc now) symbols)
  = List.filter (String.eqb X) symbols.
Proof.
  intros HX. induction symbols as [|s rest IH]; [reflexivity|].
  cbn [List.filter]. destruct (String.eqb_spec X s) as [<-|Hne].
  - unfold stale at 1. rewrite HX. cbn [List.filter].
    rewrite String.eqb_refl. by rewrite IH.
  - destruct (stale pc now s); [|exact IH]. cbn [List.filter].
    destruct (String.eqb_spec X s); [done|]. exact IH.
Qed.

(** X18. Repetitions in a request are not merged: when [GetQuotes]
    returns no error, a symbol that was not fresh in the cache has been
    asked of the upstream at least as many times as it occurs in the
    request. *)
Theorem GetQuotes_repeated_symbol (symbols : list string) (w : World)
    (X : string) :
  (GetQuotes Unmarshal symbols w).1.2 = None →
  Get (cache w) (clock w) X = None →
  (length (List.filter (String.eqb X) symbols)
   ≤ chart_requests X (new_events w (GetQuotes Unmarshal symbols w).2))%nat.
Proof.
  rewrite GetQuotes_unfold. cbn zeta. intros Herr HX.
  rewrite <- (filter_eqb_stale (cache w) (clock w) X symbols HX).
  rewrite <- GetMulti_missing.
  destruct ((GetMulti (cache w) (clock w) symbols).2) as [|m0 missing'].
  { cbn. lia. }
  destruct (fetchBatch_bounds Unmarshal (m0 :: missing') w)
    as (evs & S & _ & _ & _ & _ & Ho).
  destruct (fetchBatch Unmarshal (m0 :: missing') w) as [[fetched err] w1].
  cbn [fst snd] in *. destruct err as [e|]; [discriminate|].
  cbn [snd]. destruct S as (Ht & _ & _).
  assert (new_events w (with_cache (SetMulti (cache w1) (clock w1) fetched) w1)
          = evs) as -> by (by apply new_events_app).
  exact (Ho eq_refl X).
Qed.

End GetQuotesFacts.

(** ** service.go: [ComputeBalance] *)

Section BalanceFacts.

Variable Unmarshal : string → Outcome chartPayload.
Variable repo : db.Repository.

Lemma GetQuotes_total (symbols : list string) (w : World) (X : string) :
  (GetQuotes Unmarshal symbols w).1.2 = None →
  X ∈ symbols →
  is_Some ((GetQuotes Unmarshal symbols w).1.1 !! X).
Proof.
  intros Herr HX.
  destruct (GetQuotes_spec Unmarshal symbols w)
    as (fetched & evs & _ & _ & _ & _ & _ & Hcases).
  destruct Hcases as [(_ & -> & _ & Hall) | ([e He] & _)]; [|congruence].
  pose proof (GetMulti_found (cache w) (clock w) symbols X) as Hfound.
  rewrite decide_True in Hfound by done.
  destruct (Get (cache w) (clock w) X) as [q|] eqn:Hget.
  - destruct (fetched !! X) as [q'|] eqn:Hf.
    + exists q'. by apply lookup_union_Some_l.
    + exists q. by rewrite lookup_union_r.
  - destruct (Hall X) as [q' Hq']; [by apply elem_of_missing|].
    exists q'. by apply lookup_union_Some_l.
Qed.

(** The second loop of [ComputeBalance] when every holding has a quote:
    one line per holding, the total summed from left to right, nothing
    logged. *)
Lemma ComputeBalance_loop_all (chatID : Z) (holdings : list db.Holding)
    (quotes : gmap string Quote) (report : portfolio.BalanceReport)
    (w : World) :
  (∀ h, h ∈ holdings → is_Some (quotes !! db.Symbol h)) →
  ∃ lines,
    portfolio.ComputeBalance_loop chatID holdings quotes report w =
    ({| portfolio.Holdings := portfolio.Holdings report ++ lines;
        portfolio.TotalUSD :=
          fold_left float64_add (map portfolio.Value lines)
            (portfolio.TotalUSD report) |}, w)
    ∧ Forall2 (λ h l, ∃ q, quotes !! db.Symbol h = Some q ∧ l = line_of h q)
        holdings lines.
Proof.
  revert report. induction holdings as [|h rest IH]; intros report Hall.
  - exists []. cbn. rewrite app_nil_r. split; [by destruct report|].
    constructor.
  - cbn [portfolio.ComputeBalance_loop].
    destruct (Hall h) as [q Hq]; [left|]. rewrite Hq.
    destruct (IH {| portfolio.Holdings :=
                      portfolio.Holdings report ++ [line_of h q];
                    portfolio.TotalUSD :=
                      float64_add (portfolio.TotalUSD report)
                        (float64_mul (db.Shares h) (Price q)) |})
      as (lines & Hloop & Hlines).
    { intros h' Hh'. apply Hall. by right. }
    exists (line_of h q :: lines). split.
    + unfold line_of in *. rewrite Hloop. cbn [portfolio.Holdings
        portfolio.TotalUSD map fold_left portfolio.Value].
      by rewrite <- app_assoc.
    + constructor; [eauto | exact Hlines].
Qed.


(** X20. [ComputeBalance] fails only because the holdings could not be
    read or because [GetQuotes] failed, and then with that error under
    its own prefix; and it never writes a log line.  So neither the line
    about a holding without quote nor the error about quotes without data
    can occur. *)
Theorem ComputeBalance_failures (chatID : Z) (w : World) :
  let res := portfolio.ComputeBalance Unmarshal repo chatID w in
  (∀ e, res.1 = Err e →
        (∃ e', db.GetHoldings repo chatID = Err e'
               ∧ e = "get holdings: " +:+ e')
        ∨ (∃ holdings e',
             db.GetHoldings repo chatID = Ok holdings
             ∧ (GetQuotes Unmarshal (map db.Symbol holdings) w).1.2 = Some e'
             ∧ e = "get quotes: " +:+ e'))
  ∧ Forall (λ e, is_log e = false) (new_events w res.2).
Proof.
  cbn zeta. unfold portfolio.ComputeBalance.
  assert (Forall (λ e, is_log e = false) (new_events w w)) as Hsame.
  { unfold new_events. rewrite drop_all. constructor. }
  destruct (db.GetHoldings repo chatID) as [holdings|e0].
  2:{ cbn [fst snd]. split; [|exact Hsame]. intros e [= <-]. left. eauto. }
  destruct holdings as [|h0 holdings'].
  { cbn [length Nat.eqb fst snd]. split; [discriminate | exact Hsame]. }
  cbn [length Nat.eqb].
  pose proof (GetQuotes_total (map db.Symbol (h0 :: holdings')) w) as Htotal.
  destruct (GetQuotes_spec Unmarshal (map db.Symbol (h0 :: holdings')) w)
    as (_ & evs & Ht & _ & F & _).
  assert (Forall (λ e, is_log e = false) evs) as Fl.
  { eapply Forall_impl; [exact F|]. intros [| | |]; simpl; congruence. }
  destruct (GetQuotes Unmarshal (map db.Symbol (h0 :: holdings')) w)
    as [[quotes err] wq] eqn:Hgq. cbn [fst snd] in *.
  destruct err as [e1|].
  { cbn [fst snd]. rewrite (new_events_app _ _ _ Ht). split; [|exact Fl].
    intros e [= <-]. right. exists (h0 :: holdings'), e1.
    by rewrite Hgq. }
  destruct (ComputeBalance_loop_all chatID (h0 :: holdings') quotes
              {| portfolio.Holdings := [];
                 portfolio.TotalUSD := float64_zero |} wq)
    as (lines & -> & Hlines).
  { intros h Hh. apply Htotal; [done|]. by apply list_elem_of_fmap_2. }
  cbn [portfolio.Holdings app].
  apply Forall2_length in Hlines. cbn [length] in Hlines.
  destruct lines as [|l0 lines']; [discriminate|].
  cbn [length Nat.eqb fst snd]. rewrite (new_events_app _ _ _ Ht).
  split; [discriminate | exact Fl].
Qed.

End BalanceFacts.

(** ** scheduler.go and the portfolio command *)

Section TickFacts.

Variable Unmarshal : string → Outcome chartPayload.
Variable repo : db.Repository.
Variable Format : portfolio.BalanceReport → string.

Local Abbreviation ComputeBalance := (portfolio.ComputeBalance Unmarshal repo).
Local Abbreviation notifyAll_loop := (scheduler.notifyAll_loop Unmarshal repo Format).
Local Abbreviation notifyAll := (scheduler.notifyAll Unmarshal repo Format).
Local Abbreviation handlePortfolio := (bot.handlePortfolio Unmarshal repo Format).

Lemma count_events_none (p : Event → bool) (evs : list Event) :
  Forall (λ e, p e = false) evs → count_events p evs = 0%nat.
Proof.
  unfold count_events. induction 1 as [|e evs He _ IH]; [reflexivity|].
  cbn [List.filter]. by rewrite He.
Qed.

(** The loop over the users sends at most one message for each entry of
    the list. *)
Lemma notifyAll_loop_sends (users : list Z) (w : World) :
  ∃ evs,
    trace (notifyAll_loop users w) = trace w ++ evs
    ∧ (count_events is_send evs ≤ length users)%nat
    ∧ ∀ c, (count_events (is_send_to c) evs
            ≤ length (List.filter (Z.eqb c) users))%nat.
Proof.
  revert w. induction users as [|u users IH]; intros w.
  { exists []. rewrite app_nil_r. cbn. split; [done|]. split; [lia|].
    intros c. lia. }
  cbn [scheduler.notifyAll_loop].
  destruct (ComputeBalance_trace Unmarshal repo u w) as (ev1 & Ht1 & F1).
  destruct (ComputeBalance u w) as [r w1]. cbn [snd] in Ht1.
  pose proof (count_events_none is_send ev1 F1) as C1.
  assert (∀ c, count_events (is_send_to c) ev1 = 0%nat) as C1c.
  { intros c. apply count_events_none. by apply no_send_no_send_to. }
  assert (∀ (w1' : World) (tail : list Event),
            trace w1' = trace w1 ++ tail →
            (count_events is_send tail ≤ 1)%nat →
            (∀ c, (count_events (is_send_to c) tail
                   ≤ if (c =? u)%Z then 1 else 0)%nat) →
            ∃ evs,
              trace (notifyAll_loop users w1') = trace w ++ evs
              ∧ (count_events is_send evs ≤ length (u :: users))%nat
              ∧ ∀ c, (count_events (is_send_to c) evs
                      ≤ length (List.filter (Z.eqb c) (u :: users)))%nat)
    as Hgo.
  { intros w1' tail Htail Hs Hc.
    destruct (IH w1') as (evs & Ht & Hn & Hper).
    exists (ev1 ++ tail ++ evs).
    rewrite Ht, Htail, Ht1, <- !app_assoc. split; [done|].
    rewrite !count_events_app, C1. cbn [length]. split; [lia|].
    intros c. rewrite !count_events_app, C1c. specialize (Hc c).
    specialize (Hper c). cbn [List.filter].
    destruct (c =? u); cbn [length]; lia. }
  destruct r as [[report|]|e].
  - destruct (length (portfolio.Holdings report) =? 0)%nat.
    + apply (Hgo w1 []); [by rewrite app_nil_r | cbn; lia |].
      intros c. cbn. lia.
    + apply (Hgo _ [SendMarkdown u (Format report)]);
        [reflexivity | cbn; lia |].
      intros c. unfold count_events. cbn [List.filter is_send_to].
      rewrite (Z.eqb_sym u c). destruct (c =? u); cbn; lia.
  - apply (Hgo w1 []); [by rewrite app_nil_r | cbn; lia |].
    intros c. cbn. lia.
  - apply (Hgo _ [Log ("scheduler: compute balance "
                        +:+ strconv.Itoa u +:+ ": " +:+ e)]);
      [reflexivity | cbn; lia |].
    intros c. cbn. lia.
Qed.

(** X21. A tick sends at most one notification for each entry of the
    list of active users, hence at most one to a user listed once, and
    none to anybody else. *)
Theorem notifyAll_at_most_once (w : World) (users : list Z) :
  db.GetAllActiveUsers repo = Ok users →
  let evs := new_events w (notifyAll w) in
  (count_events is_send evs ≤ length users)%nat
  ∧ ∀ c, (count_events (is_send_to c) evs
          ≤ length (List.filter (Z.eqb c) users))%nat.
Proof.
  intros Husers. cbn zeta.
  assert (∀ (v : World) (logs : list Event),
            trace v = trace w ++ logs →
            Forall (λ e, is_send e = false) logs →
            (count_events is_send (new_events w v) ≤ length users)%nat
            ∧ ∀ c, (count_events (is_send_to c) (new_events w v)
                    ≤ length (List.filter (Z.eqb c) users))%nat) as Hquiet.
  { intros v logs Hv F. rewrite (new_events_app _ _ _ Hv).
    rewrite (count_events_none _ _ F). split; [lia|]. intros c.
    rewrite (count_events_none _ _ (no_send_no_send_to c _ F)). lia. }
  unfold scheduler.notifyAll.
  destruct (db.GetDistinctSymbols repo) as [symbols|e].
  2:{ apply (Hquiet _ [Log ("scheduler: get distinct symbols: " +:+ e)]);
        [reflexivity | by repeat constructor]. }
  destruct (length symbols =? 0)%nat.
  { apply (Hquiet w []); [by rewrite app_nil_r | constructor]. }
  unfold scheduler.notifyAll_from. rewrite Husers.
  destruct (GetQuotes_spec Unmarshal symbols w)
    as (_ & pre & Htpre & _ & Fpre & _).
  apply client_event_no_send in Fpre.
  destruct (GetQuotes Unmarshal symbols w) as [[quotes err] w1].
  cbn [fst snd] in *.
  set (w2 := match err with
             | Some e => emit (Log ("scheduler: pre-warm quotes: " +:+ e)) w1
             | None => w1
             end).
  assert (∃ logs, trace w2 = trace w ++ logs
                  ∧ Forall (λ e, is_send e = false) logs) as (logs & Hl & Fl).
  { unfold w2. destruct err as [e|].
    - exists (pre ++ [Log ("scheduler: pre-warm quotes: " +:+ e)]).
      cbn [emit trace]. rewrite Htpre, <- app_assoc. split; [done|].
      apply Forall_app. split; [done | by repeat constructor].
    - by exists pre. }
  destruct (notifyAll_loop_sends users w2) as (fan & Hfan & Hn & Hper).
  assert (new_events w (notifyAll_loop users w2) = logs ++ fan) as ->.
  { apply new_events_app. by rewrite Hfan, Hl, <- app_assoc. }
  rewrite count_events_app, (count_events_none _ _ Fl). split; [lia|].
  intros c. rewrite count_events_app.
  rewrite (count_events_none _ _ (no_send_no_send_to c _ Fl)).
  apply Hper.
Qed.

(** X22. A tick that finds no tracked symbol does nothing at all; a tick
    whose query for the symbols fails only writes a log line; neither
    sends a request or a notification.  A tick whose query for the users
    fails sends no notification. *)
Theorem notifyAll_nothing_to_do (w : World) :
  (db.GetDistinctSymbols repo = Ok [] → notifyAll w = w)
  ∧ (∀ e, db.GetDistinctSymbols repo = Err e →
          notifyAll w
          = emit (Log ("scheduler: get distinct symbols: " +:+ e)) w)
  ∧ (∀ e, db.GetAllActiveUsers repo = Err e →
          count_events is_send (new_events w (notifyAll w)) = 0%nat).
Proof.
  split; [|split].
  - intros H. unfold scheduler.notifyAll. by rewrite H.
  - intros e H. unfold scheduler.notifyAll. by rewrite H.
  - intros e Husers. apply count_events_none.
    unfold scheduler.notifyAll.
    destruct (db.GetDistinctSymbols repo) as [symbols|e0].
    2:{ unfold new_events. cbn [emit trace]. rewrite drop_app_length.
        by repeat constructor. }
    destruct (length symbols =? 0)%nat.
    { unfold new_events. rewrite drop_all. constructor. }
    unfold scheduler.notifyAll_from. rewrite Husers.
    destruct (GetQuotes_spec Unmarshal symbols w)
      as (_ & pre & Htpre & _ & Fpre & _).
    apply client_event_no_send in Fpre.
    destruct (GetQuotes Unmarshal symbols w) as [[quotes err] w1].
    cbn [fst snd] in *. unfold new_events.
    destruct err as [e1|]; cbn [emit trace]; rewrite Htpre.
    + rewrite <- !app_assoc, drop_app_length.
      apply Forall_app. split; [done|].
      apply Forall_app. split; by repeat constructor.
    + rewrite <- !app_assoc, drop_app_length.
      apply Forall_app. split; [done | by repeat constructor].
Qed.

(** X23. The scheduler and the portfolio command agree: in the same
    world, the scheduler notifies a user exactly when [handlePortfolio]
    would answer that user with a report, and then sends the same text;
    when [handlePortfolio] answers with a plain text instead, the
    scheduler sends that user nothing. *)
Theorem scheduler_agrees_with_handlePortfolio (chatID : Z) (w : World) :
  let sent := List.filter is_send (new_events w (notifyAll_loop [chatID] w)) in
  match (handlePortfolio chatID w).1 with
  | bot.sendMarkdown c text => c = chatID ∧ sent = [SendMarkdown chatID text]
  | bot.sendText c _ => c = chatID ∧ sent = []
  end.
Proof.
  cbn zeta. unfold bot.handlePortfolio. cbn [scheduler.notifyAll_loop].
  destruct (ComputeBalance_trace Unmarshal repo chatID w) as (ev1 & Ht1 & F1).
  destruct (ComputeBalance chatID w) as [r w1]. cbn [snd] in Ht1.
  assert (List.filter is_send ev1 = []) as Hev1.
  { clear Ht1. induction F1 as [|e evs He _ IH]; [reflexivity|].
    cbn [List.filter]. by rewrite He. }
  assert (∀ tail (v : World), trace v = trace w1 ++ tail →
            List.filter is_send (new_events w v) = List.filter is_send tail)
    as Hnew.
  { intros tail v Hv.
    rewrite (new_events_app w v (ev1 ++ tail))
      by (by rewrite Hv, Ht1, <- app_assoc).
    by rewrite List.filter_app, Hev1. }
  destruct r as [[report|]|e]; cbn [fst].
  - destruct (length (portfolio.Holdings report) =? 0)%nat; cbn [fst].
    + split; [done|]. rewrite (Hnew [] w1); [done | by rewrite app_nil_r].
    + split; [done|].
      by rewrite (Hnew [SendMarkdown chatID (Format report)]
                    (emit (SendMarkdown chatID (Format report)) w1) eq_refl).
  - split; [done|]. rewrite (Hnew [] w1); [done | by rewrite app_nil_r].
  - split; [done|].
    by rewrite (Hnew [Log ("scheduler: compute balance "
                           +:+ strconv.Itoa chatID +:+ ": " +:+ e)]
                  (emit (Log ("scheduler: compute balance "
                              +:+ strconv.Itoa chatID +:+ ": " +:+ e)) w1)
                  eq_refl).
Qed.

End TickFacts.

(** ** main.go: configuration *)

Section ConfigFacts.

Variable ParseDuration : string → option time.Duration.

Lemma getEnv_nonempty (env : gmap string string) (key fallback : string) :
  fallback ≠ "" → main.getEnv env key fallback ≠ "".
Proof.
  intros Hfb. unfold main.getEnv.
  destruct (env !! key) as [v|]; [|done].
  by destruct (String.eqb_spec v "").
Qed.

(** X24. [loadConfig] stops the process exactly when the bot token is
    unset or empty, never because of a duration it cannot parse.  When it
    returns, the token is the value of the variable, it is not empty, and
    neither is the database path. *)
Theorem loadConfig_token (env : gmap string string) :
  (main.loadConfig ParseDuration env = None ↔
   env !! "TELEGRAM_BOT_TOKEN" = None
   ∨ env !! "TELEGRAM_BOT_TOKEN" = Some "")
  ∧ ∀ cfg, main.loadConfig ParseDuration env = Some cfg →
           env !! "TELEGRAM_BOT_TOKEN" = Some (main.TelegramToken cfg)
           ∧ main.TelegramToken cfg ≠ ""
           ∧ main.DBPath cfg ≠ "".
Proof.
  unfold main.loadConfig, main.mustEnv.
  destruct (env !! "TELEGRAM_BOT_TOKEN") as [v|] eqn:Htok.
  - destruct (String.eqb_spec v "") as [->|Hne].
    + split; [|discriminate]. split; [by right | done].
    + split.
      * split; [discriminate|]. intros [|[= ->]]; done.
      * intros cfg [= <-]. cbn [main.TelegramToken main.DBPath].
        split; [done|]. split; [done|]. by apply getEnv_nonempty.
  - split; [|discriminate]. split; [by left | done].
Qed.

End ConfigFacts.

(** ** yahoo.go: search *)

Section SearchFacts.

Variable UnmarshalSearch : string → Outcome searchPayload.

Lemma SearchTickers_loop_spec (quotes : list searchQuote)
    (results : list TickerResult) :
  SearchTickers_loop quotes results =
  results ++ map tickerOf (List.filter keepsTicker quotes).
Proof.
  revert results. induction quotes as [|q rest IH]; intros results.
  - cbn. by rewrite app_nil_r.
  - cbn [SearchTickers_loop List.filter]. unfold keepsTicker at 1.
    destruct (String.eqb (QuoteType q) "EQUITY");
      destruct (String.eqb (QuoteType q) "ETF"); cbn [negb andb orb];
      rewrite IH; cbn [map]; by rewrite <- ?app_assoc.
Qed.

(** X26. Whatever the status code of the answer, when its body decodes
    [SearchTickers] returns, in the order of the answer, one result for
    each quote of type EQUITY or ETF and none for the others; the name of
    a result is the short name of the quote, or its long name when the
    short name is empty. *)
Theorem SearchTickers_results (status : Z) (cookies : list Cookie)
    (body : string) (payload : searchPayload) :
  UnmarshalSearch body = Ok payload →
  SearchTickers UnmarshalSearch (HTTPResponse status cookies (Ok body))
  = Ok (map tickerOf (List.filter keepsTicker (Quotes payload)))
  ∧ Forall (λ r, ticker_Type r = "EQUITY" ∨ ticker_Type r = "ETF")
      (map tickerOf (List.filter keepsTicker (Quotes payload)))
  ∧ (length (map tickerOf (List.filter keepsTicker (Quotes payload)))
     ≤ length (Quotes payload))%nat.
Proof.
  intros HU. unfold SearchTickers. rewrite HU, SearchTickers_loop_spec.
  split; [reflexivity|]. split.
  - apply Forall_fmap, Forall_forall. intros q Hq.
    apply list_elem_of_In, filter_In in Hq as [_ Hq].
    unfold keepsTicker in Hq. apply orb_true_iff in Hq.
    cbn [tickerOf ticker_Type].
    destruct Hq as [Hq|Hq]; apply String.eqb_eq in Hq; auto.
  - rewrite length_map. apply List.filter_length_le.
Qed.

End SearchFacts.

(** ** bot: buttons and callbacks *)

Lemma substring_all (s : string) :
  String.substring 0 (String.length s) s = s.
Proof. induction s as [|c s IH]; [reflexivity|]. cbn. by rewrite IH. Qed.

Lemma HasPrefix_append (p s : string) :
  strings.HasPrefix (p +:+ s) p = true.
Proof.
  unfold strings.HasPrefix. induction p as [|c p IH]; simpl.
  - by destruct s.
  - by destruct (ascii_dec c c).
Qed.

Lemma TrimPrefix_append (p s : string) :
  strings.TrimPrefix (p +:+ s) p = s.
Proof.
  unfold strings.TrimPrefix. rewrite HasPrefix_append.
  induction p as [|c p IH]; simpl.
  - by rewrite Nat.sub_0_r, substring_all.
  - exact IH.
Qed.

(** X27. The data put on a button comes back as the same symbol: the
    switch of [HandleCallback] sends the data of a search result's button
    to [handleTickerSelect] with that result's symbol, and the data of a
    holding's button to [handleRemove] with that holding's symbol,
    whatever the symbol is. *)
Theorem callback_data_round_trip :
  (∀ r, bot.HandleCallback (bot.selectData r)
        = bot.handleTickerSelect (ticker_Symbol r))
  ∧ (∀ h, bot.HandleCallback (bot.removeData h)
          = bot.handleRemove (db.Symbol h)).
Proof.
  split.
  - intros r. unfold bot.HandleCallback, bot.selectData.
    by rewrite HasPrefix_append, TrimPrefix_append.
  - intros h. unfold bot.HandleCallback, bot.removeData.
    rewrite HasPrefix_append, TrimPrefix_append.
    assert (strings.HasPrefix ("remove:" +:+ db.Symbol h) "select:" = false)
      as -> by reflexivity.
    reflexivity.
Qed.

(** ** Examples for the further properties *)

Lemma Set_then_Get_witness :
  time.minDuration ≤ ttl (NewPriceCache (15 * time.Minute)) < time.maxDuration
  ∧ Get (Set_ (NewPriceCache (15 * time.Minute)) 0 "AAPL"
           (samples.quoteOf "AAPL")) (5 * time.Minute) "AAPL"
    = Some (samples.quoteOf "AAPL")
  ∧ Get (Set_ (NewPriceCache (15 * time.Minute)) 0 "AAPL"
           (samples.quoteOf "AAPL")) (16 * time.Minute) "AAPL"
    = None.
Proof.
  assert (time.minDuration ≤ ttl (NewPriceCache (15 * time.Minute))
          < time.maxDuration) as H by (by vm_compute).
  split; [exact H|]. split.
  - exact (proj1 (Set_then_Get (NewPriceCache (15 * time.Minute)) 0
                    (5 * time.Minute) "AAPL" (samples.quoteOf "AAPL") H)).
  - exact (proj1 (Set_then_Get (NewPriceCache (15 * time.Minute)) 0
                    (16 * time.Minute) "AAPL" (samples.quoteOf "AAPL") H)).
Defined.

Lemma Get_expired_stays_expired_witness :
  16 * time.Minute ≤ 20 * time.Minute
  ∧ Get (cache (samples.warm 0 [])) (16 * time.Minute) "AAPL" = None
  ∧ Get (cache (samples.warm 0 [])) (20 * time.Minute) "AAPL" = None.
Proof.
  assert (16 * time.Minute ≤ 20 * time.Minute) as H by (by vm_compute).
  split; [exact H|]. split; [reflexivity|].
  exact (Get_expired_stays_expired (cache (samples.warm 0 []))
           (16 * time.Minute) (20 * time.Minute) "AAPL" H eq_refl).
Defined.

Lemma SetMulti_then_GetMulti_witness :
  time.minDuration ≤ ttl (NewPriceCache (15 * time.Minute))
  ∧ 5 * time.Minute - 0 ≤ ttl (NewPriceCache (15 * time.Minute))
  ∧ (GetMulti (SetMulti (NewPriceCache (15 * time.Minute)) 0
                 {["AAPL" := samples.quoteOf "AAPL"]})
       (5 * time.Minute) ["AAPL"]).2 = [].
Proof.
  assert (time.minDuration ≤ ttl (NewPriceCache (15 * time.Minute)))
    as H1 by (by vm_compute).
  assert (5 * time.Minute - 0 ≤ ttl (NewPriceCache (15 * time.Minute)))
    as H2 by (by vm_compute).
  split; [exact H1|]. split; [exact H2|].
  refine (proj1 (SetMulti_then_GetMulti (NewPriceCache (15 * time.Minute))
                   0 (5 * time.Minute) {["AAPL" := samples.quoteOf "AAPL"]}
                   ["AAPL"] H1 H2 _)).
  intros X HX. apply list_elem_of_singleton in HX. rewrite HX.
  exists (samples.quoteOf "AAPL"). reflexivity.
Defined.

Lemma GetMulti_negative_ttl_witness :
  ttl samples.negativeCache < 0
  ∧ GetMulti samples.negativeCache 0 ["AAPL"; "MSFT"]
    = (∅, ["AAPL"; "MSFT"]).
Proof.
  assert (ttl samples.negativeCache < 0) as H by (by vm_compute).
  split; [exact H|].
  refine (GetMulti_negative_ttl samples.negativeCache 0 ["AAPL"; "MSFT"] H _).
  intros X item HX. unfold samples.negativeCache in HX. cbn [items] in HX.
  apply lookup_singleton_Some in HX as [_ <-]. by vm_compute.
Defined.

Lemma getSession_reused_until_expiry_witness :
  let first := getSession (samples.cold [samples.consent; samples.crumbOK]) in
  first = (Ok samples.sess0, first.2)
  ∧ getSession (at_time (29 * time.Minute) first.2)
    = (Ok samples.sess0, at_time (29 * time.Minute) first.2)
  ∧ ∃ more,
      new_events (at_time (31 * time.Minute) first.2)
        (getSession (at_time (31 * time.Minute) first.2)).2
      = Upstream GetConsent :: more.
Proof.
  cbn zeta.
  assert (getSession (samples.cold [samples.consent; samples.crumbOK])
          = (Ok samples.sess0,
             (getSession (samples.cold [samples.consent; samples.crumbOK])).2))
    as H by reflexivity.
  split; [exact H|].
  destruct (getSession_reused_until_expiry _ _ _ H) as (_ & _ & Hin & Hout).
  split.
  - apply Hin. by vm_compute.
  - apply Hout. by vm_compute.
Defined.

Lemma getSession_fresh_session_witness :
  live_session (samples.cold [samples.consent; samples.crumbOK]) = None
  ∧ new_events (samples.cold [samples.consent; samples.crumbOK])
      (getSession (samples.cold [samples.consent; samples.crumbOK])).2
    = [Upstream GetConsent; Upstream (GetCrumb "A3=d=AQAB")].
Proof.
  split; [reflexivity|].
  exact (proj1 (getSession_fresh_session
                  (samples.cold [samples.consent; samples.crumbOK])
                  (getSession
                     (samples.cold [samples.consent; samples.crumbOK])).2
                  samples.sess0 eq_refl eq_refl)).
Defined.

Lemma isAuthError_wrapped_witness :
  isAuthError (Some "auth error: HTTP 401") = true
  ∧ isAuthError (Some ("fetch MSFT: " +:+ "auth error: HTTP 401")) = true.
Proof.
  split; [reflexivity|].
  exact (isAuthError_wrapped "fetch MSFT: " "auth error: HTTP 401" eq_refl).
Defined.

Lemma GetQuotes_served_from_cache_witness :
  is_Some (Get (cache (samples.warm (5 * time.Minute) []))
             (5 * time.Minute) "AAPL")
  ∧ (GetQuotes samples.Unmarshal ["AAPL"]
       (samples.warm (5 * time.Minute) [])).2
    = samples.warm (5 * time.Minute) [].
Proof.
  assert (is_Some (Get (cache (samples.warm (5 * time.Minute) []))
                     (5 * time.Minute) "AAPL")) as H
    by (exists (samples.quoteOf "AAPL"); reflexivity).
  split; [exact H|].
  refine (proj1 (GetQuotes_served_from_cache samples.Unmarshal ["AAPL"]
                   (samples.warm (5 * time.Minute) []) _)).
  intros X HX. apply list_elem_of_singleton in HX. rewrite HX. exact H.
Defined.

Lemma GetQuotes_then_cached_witness :
  let w := samples.cold [samples.consent; samples.crumbOK;
                         samples.chartOK "AAPL"] in
  let first := GetQuotes samples.Unmarshal ["AAPL"] w in
  let later := at_time (10 * time.Minute) first.2 in
  isDuration (ttl (cache w))
  ∧ first.1.2 = None
  ∧ 10 * time.Minute - clock first.2 ≤ ttl (cache w)
  ∧ (GetQuotes samples.Unmarshal ["AAPL"] later).2 = later
  ∧ (GetQuotes samples.Unmarshal ["AAPL"] later).1.2 = None.
Proof.
  cbn zeta.
  assert (isDuration
            (ttl (cache (samples.cold [samples.consent; samples.crumbOK;
                                       samples.chartOK "AAPL"]))))
    as H1 by (by vm_compute).
  assert (10 * time.Minute
          - clock (GetQuotes samples.Unmarshal ["AAPL"]
                     (samples.cold [samples.consent; samples.crumbOK;
                                    samples.chartOK "AAPL"])).2
          ≤ ttl (cache (samples.cold [samples.consent; samples.crumbOK;
                                      samples.chartOK "AAPL"])))
    as H2 by (by vm_compute).
  split; [exact H1|]. split; [reflexivity|]. split; [exact H2|].
  destruct (GetQuotes_then_cached samples.Unmarshal ["AAPL"]
              (samples.cold [samples.consent; samples.crumbOK;
                             samples.chartOK "AAPL"])
              (10 * time.Minute) H1 eq_refl H2)
    as (Hw & He & _).
  split; [exact Hw | exact He].
Defined.

Lemma GetQuotes_prices_nonzero_witness :
  let w := samples.cold [samples.consent; samples.crumbOK;
                         samples.chartOK "AAPL"] in
  items (cache w) = ∅
  ∧ prices_nonzero (GetQuotes samples.Unmarshal ["AAPL"] w).1.1.
Proof.
  cbn zeta. split; [reflexivity|].
  refine (proj1 (GetQuotes_prices_nonzero samples.Unmarshal ["AAPL"]
                   (samples.cold [samples.consent; samples.crumbOK;
                                  samples.chartOK "AAPL"]) _)).
  intros X item HX. discriminate HX.
Defined.

Lemma GetQuotes_repeated_symbol_witness :
  let w := samples.cold [samples.consent; samples.crumbOK;
                         samples.chartOK "AAPL"; samples.chartOK "AAPL"] in
  (GetQuotes samples.Unmarshal ["AAPL"; "AAPL"] w).1.2 = None
  ∧ Get (cache w) (clock w) "AAPL" = None
  ∧ (2 ≤ chart_requests "AAPL"
           (new_events w
              (GetQuotes samples.Unmarshal ["AAPL"; "AAPL"] w).2))%nat.
Proof.
  cbn zeta. split; [reflexivity|]. split; [reflexivity|].
  exact (GetQuotes_repeated_symbol samples.Unmarshal ["AAPL"; "AAPL"]
           (samples.cold [samples.consent; samples.crumbOK;
                          samples.chartOK "AAPL"; samples.chartOK "AAPL"])
           "AAPL" eq_refl eq_refl).
Defined.


Lemma notifyAll_at_most_once_witness :
  let w := samples.cold [samples.consent; samples.crumbOK;
                         samples.chartOK "AAPL"; samples.chartOK "TSLA"] in
  db.GetAllActiveUsers samples.repo = Ok [1; 2]
  ∧ (count_events (is_send_to 2)
       (new_events w
          (scheduler.notifyAll samples.Unmarshal samples.repo
             samples.Format w)) ≤ 1)%nat.
Proof.
  cbn zeta. split; [reflexivity|].
  exact (proj2 (notifyAll_at_most_once samples.Unmarshal samples.repo
                  samples.Format
                  (samples.cold [samples.consent; samples.crumbOK;
                                 samples.chartOK "AAPL";
                                 samples.chartOK "TSLA"])
                  [1; 2] eq_refl) 2).
Defined.

Lemma SearchTickers_results_witness :
  samples.UnmarshalSearch "S" = Ok {| Quotes := samples.searchQuotes |}
  ∧ SearchTickers samples.UnmarshalSearch (HTTPResponse 500 [] (Ok "S"))
    = Ok [{| ticker_Symbol := "AAPL"; ticker_Name := "Apple Inc.";
             ticker_Exchange := "NMS"; ticker_Type := "EQUITY" |};
          {| ticker_Symbol := "SPY";
             ticker_Name := "SPDR S&P 500 ETF Trust";
             ticker_Exchange := "PCX"; ticker_Type := "ETF" |}].
Proof.
  split; [reflexivity|].
  exact (proj1 (SearchTickers_results samples.UnmarshalSearch 500 [] "S"
                  {| Quotes := samples.searchQuotes |} eq_refl)).
Defined.

(** ** yahoo.go: what the answers are not checked against *)

Section AnswerFacts.

Variable Unmarshal : string → Outcome chartPayload.

(** X28. The answer is not checked against the request: a quote that
    [parseChartResponse] returns is the same whatever symbol was asked
    for, its symbol being the one the answer names; the requested symbol
    only shows in error texts.  And an error object in the answer wins
    over any result beside it. *)
Theorem parseChartResponse_ignores_request (body : string) :
  (∀ asked other q,
     parseChartResponse Unmarshal body asked = Ok q →
     parseChartResponse Unmarshal body other = Ok q
     ∧ ∃ payload meta rest,
         Unmarshal body = Ok payload
         ∧ Result payload = meta :: rest
         ∧ Symbol q = meta_Symbol meta)
  ∧ (∀ asked payload description,
       Unmarshal body = Ok payload →
       Error payload = Some description →
       parseChartResponse Unmarshal body asked
       = Err ("yahoo error: " +:+ description)).
Proof.
  split.
  - intros asked other q. unfold parseChartResponse.
    destruct (Unmarshal body) as [payload|]; [|discriminate].
    destruct (Error payload); [discriminate|].
    destruct (Result payload) as [|meta rest] eqn:HR; [discriminate|].
    destruct (float64_is_zero
                (if float64_is_zero (RegularMarketPrice meta)
                 then ChartPreviousClose meta
                 else RegularMarketPrice meta)); [discriminate|].
    intros [= <-]. split; [reflexivity|]. by exists payload, meta, rest.
  - intros asked payload description HU HE.
    unfold parseChartResponse. by rewrite HU, HE.
Qed.

(** The error of the loop of [fetchBatch] is the refresh error or names
    a symbol of the batch. *)
Lemma fetchBatch_loop_error (symbols : list string) (sess : yahooSession)
    (quotes : gmap string Quote) (w : World) (e : string) :
  (fetchBatch_loop Unmarshal symbols sess quotes w).1.2 = Some e →
  (∃ e', e = "refresh yahoo session: " +:+ e')
  ∨ (∃ sym e', sym ∈ symbols ∧ e = "fetch " +:+ sym +:+ ": " +:+ e').
Proof.
  revert sess quotes w.
  induction symbols as [|sym rest IH]; intros sess quotes w; [discriminate|].
  cbn [fetchBatch_loop].
  assert (∀ sess' quotes' w',
            (fetchBatch_loop Unmarshal rest sess' quotes' w').1.2 = Some e →
            (∃ e', e = "refresh yahoo session: " +:+ e')
            ∨ (∃ sym' e', sym' ∈ sym :: rest
                          ∧ e = "fetch " +:+ sym' +:+ ": " +:+ e')) as Hrest.
  { intros sess' quotes' w' H.
    destruct (IH _ _ _ H) as [?|(sym' & e' & Hin & ->)]; [by left|].
    right. exists sym', e'. split; [by right | done]. }
  destruct (fetchOne Unmarshal sym sess w) as [[q|e1] w1]; [apply Hrest|].
  destruct (isAuthError (Some e1)).
  - destruct (getSession (invalidateSession w1)) as [[sess'|e2] w3].
    + destruct (fetchOne Unmarshal sym sess' w3) as [[q|e3] w4];
        [apply Hrest|].
      cbn [fst snd]. intros [= <-]. right. exists sym, e3.
      split; [left | done].
    + cbn [fst snd]. intros [= <-]. left. eauto.
  - cbn [fst snd]. intros [= <-]. right. exists sym, e1. split; [left | done].
Qed.

(** X29. An error of [GetQuotes] always tells its cause: it is the
    error of the first session exchange, or of the session exchange after
    an authorization failure, or the failure of the request for one of
    the requested symbols that was not fresh in the cache, each under its
    own prefix. *)
Theorem GetQuotes_error_names_cause (symbols : list string) (w : World)
    (e : string) :
  (GetQuotes Unmarshal symbols w).1.2 = Some e →
  (∃ e', e = "get yahoo session: " +:+ e')
  ∨ (∃ e', e = "refresh yahoo session: " +:+ e')
  ∨ (∃ sym e', sym ∈ symbols
               ∧ Get (cache w) (clock w) sym = None
               ∧ e = "fetch " +:+ sym +:+ ": " +:+ e').
Proof.
  rewrite GetQuotes_unfold. cbn zeta.
  pose proof (elem_of_missing (cache w) (clock w) symbols) as Hmiss.
  destruct ((GetMulti (cache w) (clock w) symbols).2) as [|m0 missing'];
    [discriminate|].
  assert ((fetchBatch Unmarshal (m0 :: missing') w).1.2 = Some e →
          (∃ e', e = "get yahoo session: " +:+ e')
          ∨ (∃ e', e = "refresh yahoo session: " +:+ e')
          ∨ (∃ sym e', sym ∈ symbols
                       ∧ Get (cache w) (clock w) sym = None
                       ∧ e = "fetch " +:+ sym +:+ ": " +:+ e')) as Hbatch.
  { unfold fetchBatch.
    destruct (getSession w) as [[sess|e0] w1].
    - intros H. apply fetchBatch_loop_error in H
        as [?|(sym & e' & Hin & ->)]; [by right; left|].
      right. right. exists sym, e'. apply Hmiss in Hin as [? ?]. done.
    - cbn [fst snd]. intros [= <-]. left. eauto. }
  destruct (fetchBatch Unmarshal (m0 :: missing') w) as [[fetched err] w1].
  cbn [fst snd] in *. destruct err as [e1|]; [|discriminate].
  cbn [fst snd]. intros [= <-]. by apply Hbatch.
Qed.

End AnswerFacts.

Lemma parseChartResponse_ignores_request_witness :
  parseChartResponse samples.Unmarshal "PMSFT" "AAPL"
  = Ok (samples.quoteOf "MSFT")
  ∧ parseChartResponse samples.Unmarshal "PMSFT" "TSLA"
    = Ok (samples.quoteOf "MSFT").
Proof.
  split; [reflexivity|].
  exact (proj1 (proj1 (parseChartResponse_ignores_request samples.Unmarshal
                         "PMSFT") "AAPL" "TSLA" (samples.quoteOf "MSFT")
                  eq_refl)).
Defined.

Lemma GetQuotes_error_names_cause_witness :
  let w := samples.warm (5 * time.Minute) [samples.serverError] in
  (GetQuotes samples.Unmarshal ["AAPL"; "MSFT"] w).1.2
  = Some "fetch MSFT: HTTP 500 for MSFT"
  ∧ ((∃ e', "fetch MSFT: HTTP 500 for MSFT" = "get yahoo session: " +:+ e')
     ∨ (∃ e', "fetch MSFT: HTTP 500 for MSFT"
              = "refresh yahoo session: " +:+ e')
     ∨ (∃ sym e', sym ∈ ["AAPL"; "MSFT"]
                  ∧ Get (cache w) (clock w) sym = None
                  ∧ "fetch MSFT: HTTP 500 for MSFT"
                    = "fetch " +:+ sym +:+ ": " +:+ e')).
Proof.
  cbn zeta. split; [reflexivity|].
  exact (GetQuotes_error_names_cause samples.Unmarshal ["AAPL"; "MSFT"]
           (samples.warm (5 * time.Minute) [samples.serverError])
           "fetch MSFT: HTTP 500 for MSFT" eq_refl).
Defined.
